(** * Borg El-Yousr: the shared-balance ledger of the admin modals

    A shallow embedding of the ledger logic of the owners' association
    application: the six modal components that create, edit and delete
    payments, expenses and maintenance events against the Firestore
    collections [floors], [events], [eventPayments], [monthlyPayments],
    [expenses] and the two singleton documents [system/balance] and
    [system/monthlyDuePayment], and the pages that show the ledger: the
    dashboard, the events page and the home page.

    Modelling conventions.
    - Amounts are whole numbers of pounds, modelled in [Z].  On whole
      numbers of magnitude up to [MAX_SAFE_INTEGER] the arithmetic of JS
      numbers is exact; [isSafeInteger], [wholeLedger] and [staysExact]
      name this range for a number, a store and a session.  Amounts with
      a fraction are outside the model.  The only non-finite number the
      code can produce from validated input is [+Infinity]
      ([totalCost / 0] in [saveEvent]), so cost and remaining amounts on
      the event side live in [num].
    - Names and descriptions are free texts, modelled as the lists of
      their UTF-16 code units, so that [trim] strips what
      [String.prototype.trim] strips.  Document ids and month strings
      are [string]s.
    - A collection is the list of its documents in the order a query
      returns them, which is ascending document id.
    - Document ids of new documents are generated by the client SDK; the
      id it picks and the clock reading are inputs of the creating
      operation.
    - Each modal reads its data when it is opened and the admin page
      shows one modal at a time.  The creating modals close after one
      accepted submission, so their operations are "open the modal, fill
      the form, submit" on the current store.  The payments manager stays
      open; its component state is modelled with its handlers.
    - Store calls succeed, except [updateDoc] and a batch update on a
      document that does not exist, which fail as Firestore does.
    - A page is modelled by the functions that compute its table and its
      figures from a snapshot of the store.  The month a page asks for is
      an input of these functions: the pages take it from the UTC
      rendering of the selected date, which the year and month of a date
      do not determine. *)

From Stdlib Require Import ZArith List String Ascii Bool Lia Permutation.
From Stdlib Require Import DecimalString DecimalNat Sorted.
Import ListNotations.
Open Scope string_scope.
Open Scope Z_scope.

Set Implicit Arguments.

(** ** JS values *)

Abbreviation DocId := string (only parsing).

(** Milliseconds since the epoch: what [new Date(iso).getTime()] reads back
    from a string written by [new Date().toISOString()]. *)
Abbreviation Timestamp := Z (only parsing).

(** A number that is a finite integer or [+Infinity]. *)
Inductive num : Type :=
| Fin (z : Z)
| PosInf.

(** [x || 0] on a number. *)
Definition or0 (x : Z) : Z := if x =? 0 then 0 else x.

(** [a > r] *)
Definition gt_num (a : Z) (r : num) : bool :=
  match r with
  | Fin z => z <? a
  | PosInf => false
  end.

(** [r - a] *)
Definition sub_num (r : num) (a : Z) : num :=
  match r with
  | Fin z => Fin (z - a)
  | PosInf => PosInf
  end.

(** [r <= 0] *)
Definition le0_num (r : num) : bool :=
  match r with
  | Fin z => z <=? 0
  | PosInf => false
  end.

(** [Math.ceil(total / n)] for a positive [total] (both callers validate
    [total > 0] first): [+Infinity] when [n] is zero.  Otherwise the
    ceiling of the exact quotient, which is what the code computes for a
    whole [total] up to [2^53 - 1]: the quotient of the doubles, when not
    whole, lies strictly between the same two whole numbers as the exact
    one. *)
Definition Math_ceil_div (total : Z) (n : nat) : num :=
  match n with
  | O => PosInf
  | S _ => Fin (- ((- total) / Z.of_nat n))
  end.

(** The text of a numeric form field, as [parseFloat] sees it: empty, a
    text that does not start with a number, or a text that reads as the
    whole number [z]. *)
Inductive TextInput : Type :=
| Empty
| NotANumber
| Number (z : Z).

(** The part of a [Date] picked in a [DatePicker] that the code reads. *)
Record JsDate : Type := { getFullYear : nat; getMonth : nat }.

Definition toString (n : nat) : string :=
  NilZero.string_of_uint (Nat.to_uint n).

(** [s.padStart(2, "0")] *)
Definition padStart2 (s : string) : string :=
  match String.length s with
  | O => "00"
  | S O => ("0" ++ s)%string
  | _ => s
  end.

(** [`${d.getFullYear()}-${String(d.getMonth() + 1).padStart(2, "0")}`] *)
Definition monthStringOf (d : JsDate) : string :=
  (toString (getFullYear d) ++ "-"
   ++ padStart2 (toString (getMonth d + 1)%nat))%string.

(** [parseInt(text)] on a run of decimal digits; [None] is [NaN]. *)
Definition parseInt (text : string) : option nat :=
  match text with
  | EmptyString => None
  | _ => option_map Nat.of_uint (NilZero.uint_of_string text)
  end.

(** The text before the first ["-"] and the text after it. *)
Fixpoint splitDash (text : string) : string * string :=
  match text with
  | EmptyString => (EmptyString, EmptyString)
  | String c rest =>
      if Ascii.eqb c "-"%char then (EmptyString, rest)
      else let (a, b) := splitDash rest in (String c a, b)
  end.

(** [const [year, month] = text.split("-");
     new Date(parseInt(year), parseInt(month) - 1)].
    The month strings the modals write are of the form [monthStringOf d];
    on any other text the code builds an invalid [Date], which has no
    counterpart here and is rendered as [None].  For a year from 100 on
    and a month from 1 to 12 the [Date] built has that year and that
    month; outside of these the constructor shifts the date, and the
    theorems on month strings keep to years and months within them. *)
Definition dateOfMonthString (text : string) : option JsDate :=
  let (year, rest) := splitDash text in
  let (month, _) := splitDash rest in
  match parseInt year, parseInt month with
  | Some y, Some (S m) => Some {| getFullYear := y; getMonth := m |}
  | _, _ => None
  end.

(** ** Texts

    The name and the description of an event and the description of an
    expense are free texts, typed by the admin.  A text is the list of the
    UTF-16 code units of the JS string.  (Document ids and month strings
    are ASCII and stay Rocq strings.) *)
Definition Text : Type := list N.

(** The code units of a string literal. *)
Definition ofString (s : string) : Text :=
  map N_of_ascii (list_ascii_of_string s).

(** The code units that [String.prototype.trim] strips: the white space
    and the line terminators of ECMAScript.  All of them are single code
    units. *)
Definition isSpace (c : N) : bool :=
  (((9 <=? c) && (c <=? 13))           (* TAB, LF, VT, FF, CR *)
   || (c =? 32)                        (* SPACE *)
   || (c =? 160)                       (* U+00A0 NO-BREAK SPACE *)
   || (c =? 5760)                      (* U+1680 OGHAM SPACE MARK *)
   || ((8192 <=? c) && (c <=? 8202))   (* U+2000 .. U+200A *)
   || (c =? 8232)                      (* U+2028 LINE SEPARATOR *)
   || (c =? 8233)                      (* U+2029 PARAGRAPH SEPARATOR *)
   || (c =? 8239)                      (* U+202F NARROW NO-BREAK SPACE *)
   || (c =? 8287)                      (* U+205F MEDIUM MATHEMATICAL SPACE *)
   || (c =? 12288)                     (* U+3000 IDEOGRAPHIC SPACE *)
   || (c =? 65279))%N.                 (* U+FEFF ZERO WIDTH NO-BREAK SPACE *)

Fixpoint trimStart (s : Text) : Text :=
  match s with
  | [] => []
  | c :: s' => if isSpace c then trimStart s' else s
  end.

Fixpoint trimEnd (s : Text) : Text :=
  match s with
  | [] => []
  | c :: s' =>
      match trimEnd s' with
      | [] => if isSpace c then [] else [c]
      | t => c :: t
      end
  end.

(** [s.trim()] *)
Definition trim (s : Text) : Text := trimEnd (trimStart s).

(** [!s] on a text. *)
Definition isEmptyText (s : Text) : bool :=
  match s with
  | [] => true
  | _ :: _ => false
  end.

(** ** Documents *)

Record Floor : Type := { floorNumber : Z }.

Inductive Status : Type := open | closed.

Record Event : Type := {
  eventName_ar : Text;
  description : Text;
  totalCost : Z;
  costPerFloor : num;
  date : Timestamp;
  status : Status
}.

Module EventPayment.
Record t : Type := {
  eventId : DocId;
  floorId : DocId;
  amountPaid : Z;
  paymentDate : Timestamp;
  remainingAmount : num;
  isComplete : bool
}.
End EventPayment.

Module MonthlyPayment.
Record t : Type := {
  floorId : DocId;
  month : string;
  amountPaid : Z;
  paymentDate : Timestamp;
  remainingAmount : Z;
  isComplete : bool
}.
End MonthlyPayment.

(** The string union ["monthly" | "event"] of expenses and payment rows. *)
Inductive LedgerType : Type := monthly | event.
Inductive PaymentMethod : Type := cash | bank.

Module Expense.
Record t : Type := {
  type : LedgerType;
  eventId : option DocId;
  description : Text;
  amount : Z;
  date : Timestamp;
  paidThrough : PaymentMethod
}.
End Expense.

Record Balance : Type := { totalBalance : Z; lastUpdated : Timestamp }.

(** ** The document store *)

Definition Collection (A : Type) : Type := list (DocId * A).

Record Store : Type := {
  floors : Collection Floor;
  events : Collection Event;
  eventPayments : Collection EventPayment.t;
  monthlyPayments : Collection MonthlyPayment.t;
  expenses : Collection Expense.t;
  balance : option Balance;            (* system/balance *)
  monthlyDuePayment : option Z         (* system/monthlyDuePayment: required *)
}.

Section Firestore.
Variable A : Type.

(** [addDoc]: a document under the generated id, at its place in id
    order.  Writing under an id that exists replaces the document. *)
Fixpoint addDoc (id : DocId) (d : A) (c : Collection A) : Collection A :=
  match c with
  | [] => [(id, d)]
  | (k, v) :: c' =>
      match String.compare id k with
      | Lt => (id, d) :: c
      | Eq => (id, d) :: c'
      | Gt => (k, v) :: addDoc id d c'
      end
  end.

Fixpoint getDoc (id : DocId) (c : Collection A) : option A :=
  match c with
  | [] => None
  | (k, v) :: c' => if (k =? id)%string then Some v else getDoc id c'
  end.

(** [deleteDoc]: deleting a document that does not exist succeeds. *)
Definition deleteDoc (id : DocId) (c : Collection A) : Collection A :=
  filter (fun kv => negb (fst kv =? id)%string) c.

(** The documents left after an update of the fields [f] sets on [id]. *)
Definition patchDoc (id : DocId) (f : A -> A) (c : Collection A) : Collection A :=
  map (fun kv => if (fst kv =? id)%string then (fst kv, f (snd kv)) else kv) c.

(** [updateDoc]: fails when the document does not exist. *)
Definition updateDoc (id : DocId) (f : A -> A) (c : Collection A)
  : option (Collection A) :=
  match getDoc id c with
  | Some _ => Some (patchDoc id f c)
  | None => None
  end.

(** [query(collection, where(field, "==", value))] *)
Definition queryWhere (p : A -> bool) (c : Collection A) : Collection A :=
  filter (fun kv => p (snd kv)) c.

(** [docs.reduce((sum, doc) => sum + (doc.data().field || 0), 0)] *)
Definition reduceSum (field : A -> Z) (c : Collection A) : Z :=
  fold_left (fun sum doc => sum + or0 (field (snd doc))) c 0.

Definition ids (c : Collection A) : list DocId := map fst c.
End Firestore.

(** The messages a handler can set with [setError]. *)
Inductive Error : Type :=
| MissingFields       (* a required field is empty *)
| MissingEvent        (* an event expense without a selected event *)
| InvalidAmount       (* the amount is not a number or is not positive *)
| ExceedsRequired     (* the amount is above the amount due *)
| ExceedsBalance      (* the amount is above the available balance *)
| SaveFailed.         (* the message of the [catch] branch *)

(** What a handler reports. *)
Inductive Outcome : Type :=
| Done                       (* the form is reset, the modal closes or reloads *)
| NoOp                       (* early [return] without a message *)
| Rejected (e : Error)       (* [setError] before anything is written *)
| Failed.                    (* the [catch] branch *)

(** Field updates of the store. *)
Definition with_floors (c : Collection Floor) (s : Store) : Store :=
  {| floors := c; events := events s; eventPayments := eventPayments s;
     monthlyPayments := monthlyPayments s; expenses := expenses s;
     balance := balance s; monthlyDuePayment := monthlyDuePayment s |}.

Definition with_events (c : Collection Event) (s : Store) : Store :=
  {| floors := floors s; events := c; eventPayments := eventPayments s;
     monthlyPayments := monthlyPayments s; expenses := expenses s;
     balance := balance s; monthlyDuePayment := monthlyDuePayment s |}.

Definition with_eventPayments (c : Collection EventPayment.t) (s : Store) : Store :=
  {| floors := floors s; events := events s; eventPayments := c;
     monthlyPayments := monthlyPayments s; expenses := expenses s;
     balance := balance s; monthlyDuePayment := monthlyDuePayment s |}.

Definition with_monthlyPayments (c : Collection MonthlyPayment.t) (s : Store) : Store :=
  {| floors := floors s; events := events s; eventPayments := eventPayments s;
     monthlyPayments := c; expenses := expenses s;
     balance := balance s; monthlyDuePayment := monthlyDuePayment s |}.

Definition with_expenses (c : Collection Expense.t) (s : Store) : Store :=
  {| floors := floors s; events := events s; eventPayments := eventPayments s;
     monthlyPayments := monthlyPayments s; expenses := c;
     balance := balance s; monthlyDuePayment := monthlyDuePayment s |}.

Definition with_balance (b : option Balance) (s : Store) : Store :=
  {| floors := floors s; events := events s; eventPayments := eventPayments s;
     monthlyPayments := monthlyPayments s; expenses := expenses s;
     balance := b; monthlyDuePayment := monthlyDuePayment s |}.

(** [balanceDoc.data()?.totalBalance || 0] *)
Definition readTotalBalance (s : Store) : Z :=
  match balance s with
  | Some b => or0 (totalBalance b)
  | None => 0
  end.

(** [!s] on a string. *)
Definition isEmpty (s : string) : bool :=
  match s with
  | EmptyString => true
  | String _ _ => false
  end.

(** [!text] on the text of a numeric field. *)
Definition isBlank (t : TextInput) : bool :=
  match t with
  | Empty => true
  | _ => false
  end.

(** [parseFloat(text)]; [None] is [NaN]. *)
Definition parseFloat (t : TextInput) : option Z :=
  match t with
  | Number z => Some z
  | _ => None
  end.

(** [!x] on a nullable object. *)
Definition isNull {A : Type} (x : option A) : bool :=
  match x with
  | Some _ => false
  | None => true
  end.

(** ** MonthlyPaymentModal *)

Module MonthlyPaymentModal.

Record Form : Type := {
  selectedFloor : string;
  paymentAmount : TextInput;
  selectedDate : option JsDate
}.

(** [loadFloorsAndConfig]: the [monthlyDueAmount] state, 0 until the
    configuration document is read. *)
Definition loadFloorsAndConfig (s : Store) : Z :=
  match monthlyDuePayment s with
  | Some required => or0 required
  | None => 0
  end.

Definition handlePaymentSubmit (monthlyDueAmount : Z) (f : Form)
    (now : Timestamp) (newId : DocId) (s : Store) : Store * Outcome :=
  if isEmpty (selectedFloor f) || isBlank (paymentAmount f)
     || isNull (selectedDate f)
  then (s, Rejected MissingFields)
  else
    match parseFloat (paymentAmount f) with
    | None => (s, Rejected InvalidAmount)
    | Some amount =>
        if amount <=? 0 then (s, Rejected InvalidAmount)
        else if amount >? monthlyDueAmount then (s, Rejected ExceedsRequired)
        else
          (* Calculate remaining amount *)
          let remainingAmount := monthlyDueAmount - amount in
          let isComplete := remainingAmount <=? 0 in
          let monthString :=
            match selectedDate f with
            | Some d => monthStringOf d
            | None => EmptyString
            end in
          (* Add payment to monthlyPayments collection *)
          let s1 :=
            with_monthlyPayments
              (addDoc newId
                 {| MonthlyPayment.floorId := selectedFloor f;
                    MonthlyPayment.month := monthString;
                    MonthlyPayment.amountPaid := amount;
                    MonthlyPayment.paymentDate := now;
                    MonthlyPayment.remainingAmount := remainingAmount;
                    MonthlyPayment.isComplete := isComplete |}
                 (monthlyPayments s)) s in
          (* Update system balance *)
          match balance s1 with
          | Some b =>
              let currentBalance := or0 (totalBalance b) in
              (with_balance
                 (Some {| totalBalance := currentBalance + amount;
                          lastUpdated := now |}) s1, Done)
          | None => (s1, Done)
          end
    end.

(** Open the modal, fill the form, submit. *)
Definition submit (f : Form) (now : Timestamp) (newId : DocId) (s : Store)
  : Store * Outcome :=
  handlePaymentSubmit (loadFloorsAndConfig s) f now newId s.

End MonthlyPaymentModal.

(** ** MaintenancePaymentModal *)

Module MaintenancePaymentModal.

Record Form : Type := {
  selectedEvent : string;
  selectedFloor : string;
  paymentAmount : TextInput
}.

(** The state [loadData] fills: the open events and every event payment,
    each in query order. *)
Record Loaded : Type := {
  events_ : Collection Event;
  existingPayments : list EventPayment.t
}.

Definition isOpen (e : Event) : bool :=
  match status e with open => true | closed => false end.

Definition loadData (s : Store) : Loaded :=
  {| events_ := filter (fun e => isOpen (snd e)) (events s);
     existingPayments := map snd (eventPayments s) |}.

Definition getRequiredAmount (st : Loaded) (eventId floorId : string) : num :=
  match find (fun e => (fst e =? eventId)%string) (events_ st) with
  | None => Fin 0
  | Some e => costPerFloor (snd e)
  end.

Definition getRemainingAmount (st : Loaded) (eventId floorId : string) : num :=
  let requiredAmount := getRequiredAmount st eventId floorId in
  let existingPayment :=
    find (fun payment =>
            (EventPayment.eventId payment =? eventId)%string
            && (EventPayment.floorId payment =? floorId)%string)
         (existingPayments st) in
  match existingPayment with
  | Some p => EventPayment.remainingAmount p
  | None => requiredAmount
  end.

Definition handlePaymentSubmit (st : Loaded) (f : Form)
    (now : Timestamp) (newId : DocId) (s : Store) : Store * Outcome :=
  if isEmpty (selectedEvent f) || isEmpty (selectedFloor f)
     || isBlank (paymentAmount f)
  then (s, Rejected MissingFields)
  else
    match parseFloat (paymentAmount f) with
    | None => (s, Rejected InvalidAmount)
    | Some amount =>
        if amount <=? 0 then (s, Rejected InvalidAmount)
        else
          let remainingAmount :=
            getRemainingAmount st (selectedEvent f) (selectedFloor f) in
          if gt_num amount remainingAmount then (s, Rejected ExceedsRequired)
          else
            let newRemainingAmount := sub_num remainingAmount amount in
            let isComplete := le0_num newRemainingAmount in
            (* Add payment record *)
            let s1 :=
              with_eventPayments
                (addDoc newId
                   {| EventPayment.eventId := selectedEvent f;
                      EventPayment.floorId := selectedFloor f;
                      EventPayment.amountPaid := amount;
                      EventPayment.paymentDate := now;
                      EventPayment.remainingAmount := newRemainingAmount;
                      EventPayment.isComplete := isComplete |}
                   (eventPayments s)) s in
            (* Update system balance *)
            match balance s1 with
            | Some b =>
                let currentBalance := or0 (totalBalance b) in
                (with_balance
                   (Some {| totalBalance := currentBalance + amount;
                            lastUpdated := now |}) s1, Done)
            | None => (s1, Done)
            end
    end.

(** Open the modal, fill the form, submit. *)
Definition submit (f : Form) (now : Timestamp) (newId : DocId) (s : Store)
  : Store * Outcome :=
  handlePaymentSubmit (loadData s) f now newId s.

End MaintenancePaymentModal.

(** ** ExpenseModal *)

Module ExpenseModal.

Record Form : Type := {
  expenseType : LedgerType;
  selectedEvent : string;
  description : Text;
  amount : TextInput;
  paymentMethod : PaymentMethod
}.

Module FinancialData.
Record t : Type := {
  totalBalance : Z;
  monthlyCollected : Z;
  monthlyRequired : Z
}.
End FinancialData.

(** The financial part of [loadData]. *)
Definition loadData (s : Store) : FinancialData.t :=
  {| FinancialData.totalBalance := readTotalBalance s;
     FinancialData.monthlyCollected :=
       reduceSum MonthlyPayment.amountPaid (monthlyPayments s);
     FinancialData.monthlyRequired :=
       match monthlyDuePayment s with
       | Some required => or0 required
       | None => 0
       end |}.

Definition isEventType (t : LedgerType) : bool :=
  match t with event => true | monthly => false end.

(** [handleDetailsSubmit]: the error it sets, or [None] when it moves on
    to the review step. *)
Definition handleDetailsSubmit (financialData : FinancialData.t) (f : Form)
  : option Error :=
  (* Validate required fields *)
  if isEmptyText (trim (description f)) || isBlank (amount f)
  then Some MissingFields
  (* Validate event selection for event expenses *)
  else if isEventType (expenseType f) && isEmpty (selectedEvent f)
  then Some MissingEvent
  else
    (* Validate amount is a positive number *)
    match parseFloat (amount f) with
    | None => Some InvalidAmount
    | Some amountNum =>
        if amountNum <=? 0 then Some InvalidAmount
        (* Validate against total balance *)
        else if amountNum >? FinancialData.totalBalance financialData
        then Some ExceedsBalance
        else None
    end.

(** [handleExpenseSubmit], with [amountNum] the value of
    [parseFloat(amount)]: the review step it is called from is entered
    through [handleDetailsSubmit] only, so the text parses. *)
Definition handleExpenseSubmit (f : Form) (amountNum : Z)
    (now : Timestamp) (newId : DocId) (s : Store) : Store * Outcome :=
  (* Step 1: Add expense record *)
  let s1 :=
    with_expenses
      (addDoc newId
         {| Expense.type := expenseType f;
            Expense.eventId :=
              if isEventType (expenseType f) then Some (selectedEvent f)
              else None;
            Expense.description := trim (description f);
            Expense.amount := amountNum;
            Expense.date := now;
            Expense.paidThrough := paymentMethod f |}
         (expenses s)) s in
  (* Step 2: Update system balance *)
  match balance s1 with
  | Some b =>
      let currentBalance := or0 (totalBalance b) in
      (with_balance
         (Some {| totalBalance := currentBalance - amountNum;
                  lastUpdated := now |}) s1, Done)
  | None => (s1, Done)
  end.

(** Open the modal, fill the form, pass the details step, confirm. *)
Definition submit (f : Form) (now : Timestamp) (newId : DocId) (s : Store)
  : Store * Outcome :=
  match handleDetailsSubmit (loadData s) f with
  | Some e => (s, Rejected e)
  | None =>
      match parseFloat (amount f) with
      | Some amountNum => handleExpenseSubmit f amountNum now newId s
      | None => (s, Rejected InvalidAmount)
      end
  end.

(** *** The three steps of the modal *)

(** The event part of [loadData]: the open events, each with the amount
    collected for it. *)
Definition isOpenEvent (e : Event) : bool :=
  match status e with open => true | closed => false end.

Definition collectedAmount (s : Store) (eid : DocId) : Z :=
  reduceSum EventPayment.amountPaid
    (filter (fun paymentDoc => (EventPayment.eventId (snd paymentDoc) =? eid)%string)
       (eventPayments s)).

Definition loadEvents (s : Store) : list (DocId * Event * Z) :=
  filter (fun e => isOpenEvent (snd (fst e)))
    (map (fun doc => (fst doc, snd doc, collectedAmount s (fst doc))) (events s)).

Inductive Step : Type := typeStep | detailsStep | reviewStep.

Record Wizard : Type := {
  events_ : list (DocId * Event * Z);
  financialData_ : FinancialData.t;
  form_ : Form;
  step_ : Step;
  closed_ : bool
}.

(** The state after the modal opens: [loadData] has run. *)
Definition opened (s : Store) : Wizard :=
  {| events_ := loadEvents s;
     financialData_ := loadData s;
     form_ := {| expenseType := monthly; selectedEvent := EmptyString;
                 description := []; amount := Empty;
                 paymentMethod := cash |};
     step_ := typeStep;
     closed_ := false |}.

Definition withForm (f : Form) (w : Wizard) : Wizard :=
  {| events_ := events_ w; financialData_ := financialData_ w;
     form_ := f; step_ := step_ w; closed_ := closed_ w |}.

Definition withStep (t : Step) (w : Wizard) : Wizard :=
  {| events_ := events_ w; financialData_ := financialData_ w;
     form_ := form_ w; step_ := t; closed_ := closed_ w |}.

(** What the admin does in the open modal.  Each control is rendered in
    one step only; the event list is rendered for event expenses. *)
Inductive Click : Type :=
| ClickType (t : LedgerType)              (* handleTypeSelect *)
| ClickEvent (i : nat)                    (* setSelectedEvent(event.id) *)
| TypeDescription (text : Text)
| TypeAmount (text : TextInput)
| ClickMethod (m : PaymentMethod)
| ClickBack
| ClickNext                               (* handleDetailsSubmit *)
| ClickConfirm (now : Timestamp) (newId : DocId).   (* handleExpenseSubmit *)

Definition click (c : Click) (w : Wizard) (s : Store) : Wizard * Store :=
  if closed_ w then (w, s)
  else
    let f := form_ w in
    match step_ w, c with
    | typeStep, ClickType t =>
        (withStep detailsStep
           (withForm {| expenseType := t; selectedEvent := selectedEvent f;
                        description := description f; amount := amount f;
                        paymentMethod := paymentMethod f |} w), s)
    | detailsStep, ClickEvent i =>
        match isEventType (expenseType f), nth_error (events_ w) i with
        | true, Some e =>
            (withForm {| expenseType := expenseType f;
                         selectedEvent := fst (fst e);
                         description := description f; amount := amount f;
                         paymentMethod := paymentMethod f |} w, s)
        | _, _ => (w, s)
        end
    | detailsStep, TypeDescription text =>
        (withForm {| expenseType := expenseType f;
                     selectedEvent := selectedEvent f;
                     description := text; amount := amount f;
                     paymentMethod := paymentMethod f |} w, s)
    | detailsStep, TypeAmount text =>
        (withForm {| expenseType := expenseType f;
                     selectedEvent := selectedEvent f;
                     description := description f; amount := text;
                     paymentMethod := paymentMethod f |} w, s)
    | detailsStep, ClickMethod m =>
        (withForm {| expenseType := expenseType f;
                     selectedEvent := selectedEvent f;
                     description := description f; amount := amount f;
                     paymentMethod := m |} w, s)
    | detailsStep, ClickBack => (withStep typeStep w, s)
    | detailsStep, ClickNext =>
        match handleDetailsSubmit (financialData_ w) f with
        | None => (withStep reviewStep w, s)
        | Some _ => (w, s)
        end
    | reviewStep, ClickBack => (withStep detailsStep w, s)
    | reviewStep, ClickConfirm now newId =>
        match parseFloat (amount f) with
        | Some amountNum =>
            (* resetForm(); onClose() *)
            ({| events_ := events_ w; financialData_ := financialData_ w;
                form_ := form_ (opened s); step_ := typeStep;
                closed_ := true |},
             fst (handleExpenseSubmit f amountNum now newId s))
        | None => (w, s)
        end
    | _, _ => (w, s)
    end.

Fixpoint clicks (l : list Click) (w : Wizard) (s : Store) : Wizard * Store :=
  match l with
  | [] => (w, s)
  | c :: l' => let (w', s') := click c w s in clicks l' w' s'
  end.

(** Open the modal and click. *)
Definition wizard (l : list Click) (s : Store) : Store :=
  snd (clicks l (opened s) s).

End ExpenseModal.

(** ** ManagePaymentsModal *)

Module ManagePaymentsModal.

Inductive CollectionName : Type := monthlyPaymentsC | eventPaymentsC.

(** A row of the payments list. *)
Record Payment : Type := {
  id : DocId;
  type : LedgerType;
  floorId : DocId;
  amountPaid : Z;
  originalAmount : Z;
  paymentDate : Timestamp;
  month : option string;
  eventId : option DocId;
  collectionName : CollectionName
}.

Record EditFormData : Type := {
  amountPaid_ : TextInput;
  paymentMonth : option JsDate
}.

Definition monthlyRow (d : DocId * MonthlyPayment.t) : Payment :=
  let data := snd d in
  {| id := fst d;
     type := monthly;
     floorId := MonthlyPayment.floorId data;
     amountPaid := MonthlyPayment.amountPaid data;
     originalAmount := MonthlyPayment.amountPaid data;
     paymentDate := MonthlyPayment.paymentDate data;
     month := Some (MonthlyPayment.month data);
     eventId := None;
     collectionName := monthlyPaymentsC |}.

Definition eventRow (d : DocId * EventPayment.t) : Payment :=
  let data := snd d in
  {| id := fst d;
     type := event;
     floorId := EventPayment.floorId data;
     amountPaid := EventPayment.amountPaid data;
     originalAmount := EventPayment.amountPaid data;
     paymentDate := EventPayment.paymentDate data;
     month := None;
     eventId := Some (EventPayment.eventId data);
     collectionName := eventPaymentsC |}.

(** [allPayments.sort((a, b) => time(b) - time(a))]: newest first, rows
    of equal date in their order of arrival (the sort is stable). *)
Fixpoint insertByDate (p : Payment) (l : list Payment) : list Payment :=
  match l with
  | [] => [p]
  | q :: l' =>
      if paymentDate p <? paymentDate q then q :: insertByDate p l'
      else p :: l
  end.

Definition sortByDate (l : list Payment) : list Payment :=
  fold_right insertByDate [] l.

Definition loadPayments (s : Store) : list Payment :=
  let monthlyPayments := map monthlyRow (monthlyPayments s) in
  let eventPayments := map eventRow (eventPayments s) in
  let allPayments := (monthlyPayments ++ eventPayments)%list in
  sortByDate allPayments.

Definition isMonthly (t : LedgerType) : bool :=
  match t with monthly => true | event => false end.

(** The fields [batch.update(paymentRef, updateData)] sets. *)
Definition patchMonthly (amount : Z) (newMonth : option string)
    (d : MonthlyPayment.t) : MonthlyPayment.t :=
  {| MonthlyPayment.floorId := MonthlyPayment.floorId d;
     MonthlyPayment.month :=
       match newMonth with
       | Some m => m
       | None => MonthlyPayment.month d
       end;
     MonthlyPayment.amountPaid := amount;
     MonthlyPayment.paymentDate := MonthlyPayment.paymentDate d;
     MonthlyPayment.remainingAmount := MonthlyPayment.remainingAmount d;
     MonthlyPayment.isComplete := MonthlyPayment.isComplete d |}.

Definition patchEvent (amount : Z) (d : EventPayment.t) : EventPayment.t :=
  {| EventPayment.eventId := EventPayment.eventId d;
     EventPayment.floorId := EventPayment.floorId d;
     EventPayment.amountPaid := amount;
     EventPayment.paymentDate := EventPayment.paymentDate d;
     EventPayment.remainingAmount := EventPayment.remainingAmount d;
     EventPayment.isComplete := EventPayment.isComplete d |}.

(** The store after the payment part of the batch, [None] when the
    payment document does not exist (the commit then fails). *)
Definition updatePaymentDoc (c : CollectionName) (pid : DocId)
    (amount : Z) (newMonth : option string) (s : Store) : option Store :=
  match c with
  | monthlyPaymentsC =>
      option_map (fun docs => with_monthlyPayments docs s)
        (updateDoc pid (patchMonthly amount newMonth) (monthlyPayments s))
  | eventPaymentsC =>
      option_map (fun docs => with_eventPayments docs s)
        (updateDoc pid (patchEvent amount) (eventPayments s))
  end.

Definition deletePaymentDoc (c : CollectionName) (pid : DocId) (s : Store)
  : Store :=
  match c with
  | monthlyPaymentsC => with_monthlyPayments (deleteDoc pid (monthlyPayments s)) s
  | eventPaymentsC => with_eventPayments (deleteDoc pid (eventPayments s)) s
  end.

(** [batch.update(balanceRef, { totalBalance: newBalance })] *)
Definition updateBalanceDoc (newBalance : Z) (s : Store) : option Store :=
  match balance s with
  | Some b =>
      Some (with_balance
              (Some {| totalBalance := newBalance;
                       lastUpdated := lastUpdated b |}) s)
  | None => None
  end.

Definition savePayment (payments : list Payment)
    (editingPaymentId : option DocId) (editFormData : EditFormData)
    (s : Store) : Store * Outcome :=
  match editingPaymentId with
  | None => (s, NoOp)
  | Some pid =>
      match parseFloat (amountPaid_ editFormData) with
      | None => (s, Rejected InvalidAmount)
      | Some amount =>
          if amount <=? 0 then (s, Rejected InvalidAmount)
          else
            match find (fun p => (id p =? pid)%string) payments with
            | None => (s, Failed)          (* throw "Payment not found" *)
            | Some paymentToEdit =>
                (* Only update month for monthly payments *)
                let newMonth :=
                  if isMonthly (type paymentToEdit)
                  then option_map monthStringOf (paymentMonth editFormData)
                  else None in
                let currentBalance := readTotalBalance s in
                let balanceChange := amount - originalAmount paymentToEdit in
                let newBalance := currentBalance + balanceChange in
                (* batch.commit(): both writes or none *)
                match updatePaymentDoc (collectionName paymentToEdit) pid
                        amount newMonth s with
                | None => (s, Failed)
                | Some s1 =>
                    match updateBalanceDoc newBalance s1 with
                    | None => (s, Failed)
                    | Some s2 => (s2, Done)
                    end
                end
            end
      end
  end.

Definition deletePayment (deleteConfirmPayment : option Payment) (s : Store)
  : Store * Outcome :=
  match deleteConfirmPayment with
  | None => (s, NoOp)
  | Some p =>
      let s1 := deletePaymentDoc (collectionName p) (id p) s in
      let currentBalance := readTotalBalance s in
      let newBalance := currentBalance - amountPaid p in
      (* batch.commit(): both writes or none *)
      match updateBalanceDoc newBalance s1 with
      | None => (s, Failed)
      | Some s2 => (s2, Done)
      end
  end.

(** Open the modal, press the edit button of row [row], fill, save. *)
Definition edit (row : nat) (editFormData : EditFormData) (s : Store)
  : Store * Outcome :=
  let payments := loadPayments s in
  savePayment payments (option_map id (nth_error payments row)) editFormData s.

(** Open the modal, press the delete button of row [row], confirm. *)
Definition delete (row : nat) (s : Store) : Store * Outcome :=
  deletePayment (nth_error (loadPayments s) row) s.

(** *** The state of the open modal

    The modal stays open over several edits and deletions.  Its list is
    read again after every write of its own; the row picked for deletion
    is kept as it was when its delete button was pressed. *)
Record State : Type := {
  payments_ : list Payment;
  editingPaymentId_ : option DocId;
  editFormData_ : EditFormData;
  deleteConfirmPayment_ : option Payment
}.

(** The state after the modal opens: [loadPayments] has run. *)
Definition opened (s : Store) : State :=
  {| payments_ := loadPayments s;
     editingPaymentId_ := None;
     editFormData_ := {| amountPaid_ := Empty; paymentMonth := None |};
     deleteConfirmPayment_ := None |}.

Definition startEditing (payment : Payment) (st : State) : State :=
  {| payments_ := payments_ st;
     editingPaymentId_ := Some (id payment);
     editFormData_ :=
       {| amountPaid_ := Number (amountPaid payment);
          (* Only add paymentMonth for monthly payments *)
          paymentMonth :=
            match month payment with
            | Some m =>
                if isMonthly (type payment) && negb (isEmpty m)
                then dateOfMonthString m else None
            | None => None
            end |};
     deleteConfirmPayment_ := deleteConfirmPayment_ st |}.

Definition cancelEditing (st : State) : State :=
  {| payments_ := payments_ st;
     editingPaymentId_ := None;
     editFormData_ := {| amountPaid_ := Empty; paymentMonth := None |};
     deleteConfirmPayment_ := deleteConfirmPayment_ st |}.

(** [handleEditChange("amountPaid", text)] *)
Definition handleEditAmount (text : TextInput) (st : State) : State :=
  {| payments_ := payments_ st;
     editingPaymentId_ := editingPaymentId_ st;
     editFormData_ :=
       {| amountPaid_ := text;
          paymentMonth := paymentMonth (editFormData_ st) |};
     deleteConfirmPayment_ := deleteConfirmPayment_ st |}.

(** [handleEditChange("paymentMonth", date)] *)
Definition handleEditMonth (picked : JsDate) (st : State) : State :=
  {| payments_ := payments_ st;
     editingPaymentId_ := editingPaymentId_ st;
     editFormData_ :=
       {| amountPaid_ := amountPaid_ (editFormData_ st);
          paymentMonth := Some picked |};
     deleteConfirmPayment_ := deleteConfirmPayment_ st |}.

Definition confirmDelete (payment : Payment) (st : State) : State :=
  {| payments_ := payments_ st;
     editingPaymentId_ := editingPaymentId_ st;
     editFormData_ := editFormData_ st;
     deleteConfirmPayment_ := Some payment |}.

Definition cancelDelete (st : State) : State :=
  {| payments_ := payments_ st;
     editingPaymentId_ := editingPaymentId_ st;
     editFormData_ := editFormData_ st;
     deleteConfirmPayment_ := None |}.

(** What the admin does in the open modal. *)
Inductive Action : Type :=
| ClickEdit (row : nat)
| ClickCancelEdit
| TypeAmount (text : TextInput)
| PickMonth (picked : JsDate)
| ClickSave
| ClickDelete (row : nat)
| ClickCancelDelete
| ClickConfirmDelete.

(** One action on the modal state and the store.  After a write that
    went through, [savePayment] leaves the edit mode and [deletePayment]
    clears the confirmation, and both call [loadPayments]. *)
Definition act (a : Action) (st : State) (s : Store) : State * Store :=
  match a with
  | ClickEdit row =>
      match nth_error (payments_ st) row with
      | Some payment => (startEditing payment st, s)
      | None => (st, s)
      end
  | ClickCancelEdit => (cancelEditing st, s)
  | TypeAmount text => (handleEditAmount text st, s)
  | PickMonth picked => (handleEditMonth picked st, s)
  | ClickSave =>
      match savePayment (payments_ st) (editingPaymentId_ st)
              (editFormData_ st) s with
      | (s', Done) =>
          ({| payments_ := loadPayments s';
              editingPaymentId_ := None;
              editFormData_ := editFormData_ st;
              deleteConfirmPayment_ := deleteConfirmPayment_ st |}, s')
      | (s', _) => (st, s')
      end
  | ClickDelete row =>
      match nth_error (payments_ st) row with
      | Some payment => (confirmDelete payment st, s)
      | None => (st, s)
      end
  | ClickCancelDelete => (cancelDelete st, s)
  | ClickConfirmDelete =>
      match deletePayment (deleteConfirmPayment_ st) s with
      | (s', Done) =>
          ({| payments_ := loadPayments s';
              editingPaymentId_ := editingPaymentId_ st;
              editFormData_ := editFormData_ st;
              deleteConfirmPayment_ := None |}, s')
      | (s', _) => (st, s')
      end
  end.

Fixpoint acts (l : list Action) (st : State) (s : Store) : State * Store :=
  match l with
  | [] => (st, s)
  | a :: l' => let (st', s') := act a st s in acts l' st' s'
  end.

(** Open the modal, do the actions, close it. *)
Definition session (l : list Action) (s : Store) : Store :=
  snd (acts l (opened s) s).

(** [calculateBalanceChange]: the change of the balance shown in the edit
    form while the amount is typed.  [parseFloat(text) || 0] is 0 on a
    text that is not a number. *)
Definition calculateBalanceChange (st : State) : Z :=
  match editingPaymentId_ st with
  | None => 0
  | Some pid =>
      match find (fun p => (id p =? pid)%string) (payments_ st) with
      | None => 0
      | Some paymentToEdit =>
          let newAmount :=
            match parseFloat (amountPaid_ (editFormData_ st)) with
            | Some z => or0 z
            | None => 0
            end in
          newAmount - originalAmount paymentToEdit
      end
  end.

End ManagePaymentsModal.

(** ** NewMaintenanceModal *)

Module NewMaintenanceModal.

Record Form : Type := {
  eventName : Text;
  description_ : Text;
  totalCost_ : TextInput;
  selectedDate : option Timestamp
}.

(** [loadFloors]: the [floors] state.  The handlers read its length
    only, which the sort by floor number does not change. *)
Definition loadFloors (s : Store) : Collection Floor := floors s.

Definition calculateCostPerFloor (floors : Collection Floor) (total : Z) : num :=
  if (List.length floors =? 0)%nat then Fin 0
  else Math_ceil_div total (List.length floors).

(** [handleDetailsSubmit]: the error it sets, or [None] when it moves on
    to the review step. *)
Definition handleDetailsSubmit (f : Form) : option Error :=
  if isEmptyText (trim (eventName f)) || isEmptyText (trim (description_ f))
     || isBlank (totalCost_ f) || isNull (selectedDate f)
  then Some MissingFields
  else
    match parseFloat (totalCost_ f) with
    | None => Some InvalidAmount
    | Some cost => if cost <=? 0 then Some InvalidAmount else None
    end.

(** [handleCreateEvent], with [cost] the value of [parseFloat(totalCost)]
    and [picked] the selected date, both present in the review step. *)
Definition handleCreateEvent (floors : Collection Floor) (f : Form)
    (cost : Z) (picked : Timestamp) (newId : DocId) (s : Store)
  : Store * Outcome :=
  let costPerFloor := calculateCostPerFloor floors cost in
  (with_events
     (addDoc newId
        {| eventName_ar := trim (eventName f);
           description := trim (description_ f);
           totalCost := cost;
           costPerFloor := costPerFloor;
           date := picked;
           status := open |}
        (events s)) s, Done).

(** Open the modal, fill the form, pass the details step, confirm. *)
Definition submit (f : Form) (newId : DocId) (s : Store) : Store * Outcome :=
  match handleDetailsSubmit f with
  | Some e => (s, Rejected e)
  | None =>
      match parseFloat (totalCost_ f), selectedDate f with
      | Some cost, Some picked =>
          handleCreateEvent (loadFloors s) f cost picked newId s
      | _, _ => (s, Rejected MissingFields)
      end
  end.

(** *** The two steps of the modal *)

Inductive Step : Type := detailsStep | reviewStep.

Record Wizard : Type := {
  floors_ : Collection Floor;
  form_ : Form;
  step_ : Step;
  closed_ : bool
}.

(** The state after the modal opens: [loadFloors] has run and the date
    field holds the day of opening. *)
Definition opened (today : Timestamp) (s : Store) : Wizard :=
  {| floors_ := loadFloors s;
     form_ := {| eventName := []; description_ := [];
                 totalCost_ := Empty; selectedDate := Some today |};
     step_ := detailsStep;
     closed_ := false |}.

Definition withForm (f : Form) (w : Wizard) : Wizard :=
  {| floors_ := floors_ w; form_ := f; step_ := step_ w; closed_ := closed_ w |}.

Definition withStep (t : Step) (w : Wizard) : Wizard :=
  {| floors_ := floors_ w; form_ := form_ w; step_ := t; closed_ := closed_ w |}.

(** What the admin does in the open modal; the fields are rendered in the
    details step only. *)
Inductive Click : Type :=
| TypeName (text : Text)
| TypeDescription (text : Text)
| PickDate (picked : option Timestamp)
| TypeCost (text : TextInput)
| ClickNext                               (* handleDetailsSubmit *)
| ClickBack
| ClickConfirm (newId : DocId) (today : Timestamp).   (* handleCreateEvent *)

Definition click (c : Click) (w : Wizard) (s : Store) : Wizard * Store :=
  if closed_ w then (w, s)
  else
    let f := form_ w in
    match step_ w, c with
    | detailsStep, TypeName text =>
        (withForm {| eventName := text; description_ := description_ f;
                     totalCost_ := totalCost_ f;
                     selectedDate := selectedDate f |} w, s)
    | detailsStep, TypeDescription text =>
        (withForm {| eventName := eventName f; description_ := text;
                     totalCost_ := totalCost_ f;
                     selectedDate := selectedDate f |} w, s)
    | detailsStep, PickDate picked =>
        (withForm {| eventName := eventName f; description_ := description_ f;
                     totalCost_ := totalCost_ f; selectedDate := picked |} w, s)
    | detailsStep, TypeCost text =>
        (withForm {| eventName := eventName f; description_ := description_ f;
                     totalCost_ := text; selectedDate := selectedDate f |} w, s)
    | detailsStep, ClickNext =>
        match handleDetailsSubmit f with
        | None => (withStep reviewStep w, s)
        | Some _ => (w, s)
        end
    | reviewStep, ClickBack => (withStep detailsStep w, s)
    | reviewStep, ClickConfirm newId today =>
        match parseFloat (totalCost_ f), selectedDate f with
        | Some cost, Some picked =>
            (* Reset form and close *)
            ({| floors_ := floors_ w; form_ := form_ (opened today s);
                step_ := detailsStep; closed_ := true |},
             fst (handleCreateEvent (floors_ w) f cost picked newId s))
        | _, _ => (w, s)
        end
    | _, _ => (w, s)
    end.

Fixpoint clicks (l : list Click) (w : Wizard) (s : Store) : Wizard * Store :=
  match l with
  | [] => (w, s)
  | c :: l' => let (w', s') := click c w s in clicks l' w' s'
  end.

(** Open the modal and click. *)
Definition wizard (today : Timestamp) (l : list Click) (s : Store) : Store :=
  snd (clicks l (opened today s) s).

End NewMaintenanceModal.

(** ** ManageMaintenanceModal *)

Module ManageMaintenanceModal.

Record EditFormData : Type := {
  eventName_ar_ : Text;
  description_ : Text;
  totalCost_ : TextInput;
  status_ : Status
}.

(** [startEditing]: the form is filled with the data of the event. *)
Definition startEditing (e : Event) : EditFormData :=
  {| eventName_ar_ := eventName_ar e;
     description_ := description e;
     totalCost_ := Number (totalCost e);
     status_ := status e |}.

Definition saveEvent (editingEventId : option DocId)
    (editFormData : EditFormData) (s : Store) : Store * Outcome :=
  match editingEventId with
  | None => (s, NoOp)
  | Some eid =>
      (* Validate form data *)
      if isEmptyText (trim (eventName_ar_ editFormData))
         || isEmptyText (trim (description_ editFormData))
         || isBlank (totalCost_ editFormData)
      then (s, Rejected MissingFields)
      else
        match parseFloat (totalCost_ editFormData) with
        | None => (s, Rejected InvalidAmount)
        | Some totalCost' =>
            if totalCost' <=? 0 then (s, Rejected InvalidAmount)
            else
              (* Calculate cost per floor based on number of floors *)
              let floorsCount := List.length (floors s) in
              let costPerFloor' := Math_ceil_div totalCost' floorsCount in
              (* Update event in Firestore *)
              match
                updateDoc eid
                  (fun e =>
                     {| eventName_ar := trim (eventName_ar_ editFormData);
                        description := trim (description_ editFormData);
                        totalCost := totalCost';
                        costPerFloor := costPerFloor';
                        date := date e;
                        status := status_ editFormData |})
                  (events s)
              with
              | Some docs => (with_events docs s, Done)
              | None => (s, Failed)
              end
        end
  end.

(** [where("eventId", "==", id)] on event payments and on expenses. *)
Definition paymentOfEvent (eid : DocId) (p : EventPayment.t) : bool :=
  (EventPayment.eventId p =? eid)%string.

Definition expenseOfEvent (eid : DocId) (x : Expense.t) : bool :=
  match Expense.eventId x with
  | Some e => (e =? eid)%string
  | None => false
  end.

(** [Promise.all(docs.map((d) => deleteDoc(d.ref)))] *)
Definition deleteAll {A : Type} (docs : Collection A) (c : Collection A)
  : Collection A :=
  fold_left (fun c' d => deleteDoc (fst d) c') docs c.

Definition deleteEvent (deleteConfirmEvent : option DocId)
    (now : Timestamp) (s : Store) : Store * Outcome :=
  match deleteConfirmEvent with
  | None => (s, NoOp)
  | Some eid =>
      (* Query event payments for this specific event *)
      let eventPaymentsSnapshot :=
        queryWhere (paymentOfEvent eid) (eventPayments s) in
      (* Calculate total payments amount to deduct from balance *)
      let totalPaymentsAmount :=
        reduceSum EventPayment.amountPaid eventPaymentsSnapshot in
      (* Query expenses for this specific event *)
      let eventExpensesSnapshot :=
        queryWhere (expenseOfEvent eid) (expenses s) in
      (* Calculate total expenses amount to add back to balance *)
      let totalExpensesAmount :=
        reduceSum Expense.amount eventExpensesSnapshot in
      (* Get current balance *)
      let currentBalance := readTotalBalance s in
      let newBalance :=
        currentBalance - totalPaymentsAmount + totalExpensesAmount in
      (* Execute all deletions *)
      let s1 :=
        with_eventPayments
          (deleteAll eventPaymentsSnapshot (eventPayments s)) s in
      let s2 :=
        with_expenses (deleteAll eventExpensesSnapshot (expenses s1)) s1 in
      (* Delete the event itself *)
      let s3 := with_events (deleteDoc eid (events s2)) s2 in
      (* Update system balance with corrected amount *)
      match balance s3 with
      | Some _ =>
          (with_balance
             (Some {| totalBalance := newBalance; lastUpdated := now |}) s3,
           Done)
      | None => (s3, Failed)
      end
  end.

End ManageMaintenanceModal.

(** ** The public events page *)

Module EventsPage.

(** The value kept per floor in the [paidFloors] map. *)
Record PaidInfo : Type := {
  amountPaid : Z;
  remainingAmount : num;
  isComplete : bool;
  paymentDate : Timestamp
}.

(** A line of the status table; a field of a floor without payment is
    [undefined]. *)
Record EventPaymentStatus : Type := {
  floorId : DocId;
  hasPaid : bool;
  amountPaid_ : option Z;
  remainingAmount_ : option num;
  isComplete_ : option bool;
  paymentDate_ : option Timestamp
}.

(** [map.set(key, value)]: the value of an existing key is replaced. *)
Fixpoint mapSet (key : DocId) (value : PaidInfo) (m : list (DocId * PaidInfo))
  : list (DocId * PaidInfo) :=
  match m with
  | [] => [(key, value)]
  | (k, v) :: m' =>
      if (k =? key)%string then (key, value) :: m'
      else (k, v) :: mapSet key value m'
  end.

(** [map.get(key)] *)
Definition mapGet (key : DocId) (m : list (DocId * PaidInfo)) : option PaidInfo :=
  getDoc key m.

Definition infoOf (data : EventPayment.t) : PaidInfo :=
  {| amountPaid := EventPayment.amountPaid data;
     remainingAmount := EventPayment.remainingAmount data;
     isComplete := EventPayment.isComplete data;
     paymentDate := EventPayment.paymentDate data |}.

Definition statusOf (floor : DocId * Floor) (paymentData : option PaidInfo)
  : EventPaymentStatus :=
  {| floorId := fst floor;
     (* hasPayment && paymentData?.isComplete *)
     hasPaid :=
       match paymentData with
       | Some d => isComplete d
       | None => false
       end;
     amountPaid_ := option_map amountPaid paymentData;
     remainingAmount_ := option_map remainingAmount paymentData;
     isComplete_ := option_map isComplete paymentData;
     paymentDate_ := option_map paymentDate paymentData |}.

(** [loadEventPaymentStatus]: the status table, [None] when no event is
    selected and the table is left as it is. *)
Definition loadEventPaymentStatus (selectedEvent : option DocId)
    (floors : Collection Floor) (s : Store) : option (list EventPaymentStatus) :=
  match selectedEvent with
  | None => None
  | Some eid =>
      (* Query event payments for selected event *)
      let paymentsSnapshot :=
        queryWhere (fun p => (EventPayment.eventId p =? eid)%string)
          (eventPayments s) in
      let paidFloors :=
        fold_left
          (fun m doc => mapSet (EventPayment.floorId (snd doc)) (infoOf (snd doc)) m)
          paymentsSnapshot [] in
      (* Create payment status array *)
      Some (map (fun floor => statusOf floor (mapGet (fst floor) paidFloors)) floors)
  end.

(** [paymentStatus.reduce((sum, item) => sum + (item.amountPaid || 0), 0)] *)
Definition totalCollected (paymentStatus : list EventPaymentStatus) : Z :=
  fold_left
    (fun sum item =>
       sum + match amountPaid_ item with Some a => or0 a | None => 0 end)
    paymentStatus 0.

End EventsPage.

(** ** AdminDashboard *)

Module AdminDashboard.

Module FinancialData.
(** The figures of [financialData] that the listeners set. *)
Record t : Type := {
  totalBalance : Z;
  monthlyRequired : Z;
  monthlyCollected : Z;
  totalExpenses : Z
}.
End FinancialData.

(** An event as the dashboard holds it; [collectedAmount] is [undefined]
    until the listener of the event payments has set it. *)
Record MaintenanceEvent : Type := {
  id : DocId;
  data : Event;
  collectedAmount : option Z
}.

(** The part of the component state the figures are computed from. *)
Record State : Type := {
  financialData : FinancialData.t;
  maintenanceEvents : list MaintenanceEvent;
  floors_ : Collection Floor
}.

Definition initial : State :=
  {| financialData :=
       {| FinancialData.totalBalance := 0;
          FinancialData.monthlyRequired := 0;
          FinancialData.monthlyCollected := 0;
          FinancialData.totalExpenses := 0 |};
     maintenanceEvents := [];
     floors_ := [] |}.

(** The real-time listeners, in the order they are set up. *)
Inductive Listener : Type :=
| balanceListener
| monthlyDueListener
| floorsListener
| eventsListener
| monthlyPaymentsListener
| eventPaymentsListener
| expensesListener.

Definition withFinancialData (fd : FinancialData.t) (st : State) : State :=
  {| financialData := fd; maintenanceEvents := maintenanceEvents st;
     floors_ := floors_ st |}.

(** The callback of a listener, run on a snapshot of the store. *)
Definition onSnapshot (l : Listener) (s : Store) (st : State) : State :=
  let prev := financialData st in
  match l with
  | balanceListener =>
      withFinancialData
        {| FinancialData.totalBalance := readTotalBalance s;
           FinancialData.monthlyRequired := FinancialData.monthlyRequired prev;
           FinancialData.monthlyCollected := FinancialData.monthlyCollected prev;
           FinancialData.totalExpenses := FinancialData.totalExpenses prev |} st
  | monthlyDueListener =>
      withFinancialData
        {| FinancialData.totalBalance := FinancialData.totalBalance prev;
           FinancialData.monthlyRequired :=
             match monthlyDuePayment s with
             | Some required => or0 required
             | None => 0
             end;
           FinancialData.monthlyCollected := FinancialData.monthlyCollected prev;
           FinancialData.totalExpenses := FinancialData.totalExpenses prev |} st
  | floorsListener =>
      {| financialData := prev; maintenanceEvents := maintenanceEvents st;
         floors_ := floors s |}
  | eventsListener =>
      {| financialData := prev;
         maintenanceEvents :=
           map (fun doc => {| id := fst doc; data := snd doc;
                              collectedAmount := None |}) (events s);
         floors_ := floors_ st |}
  | monthlyPaymentsListener =>
      withFinancialData
        {| FinancialData.totalBalance := FinancialData.totalBalance prev;
           FinancialData.monthlyRequired := FinancialData.monthlyRequired prev;
           FinancialData.monthlyCollected :=
             reduceSum MonthlyPayment.amountPaid (monthlyPayments s);
           FinancialData.totalExpenses := FinancialData.totalExpenses prev |} st
  | eventPaymentsListener =>
      (* Update maintenance events with collected amounts *)
      {| financialData := prev;
         maintenanceEvents :=
           map (fun event =>
                  let eventCollected :=
                    reduceSum EventPayment.amountPaid
                      (filter (fun paymentDoc =>
                                 (EventPayment.eventId (snd paymentDoc)
                                  =? id event)%string)
                         (eventPayments s)) in
                  {| id := id event; data := data event;
                     collectedAmount := Some eventCollected |})
             (maintenanceEvents st);
         floors_ := floors_ st |}
  | expensesListener =>
      withFinancialData
        {| FinancialData.totalBalance := FinancialData.totalBalance prev;
           FinancialData.monthlyRequired := FinancialData.monthlyRequired prev;
           FinancialData.monthlyCollected := FinancialData.monthlyCollected prev;
           FinancialData.totalExpenses := reduceSum Expense.amount (expenses s) |}
        st
  end.

(** The listeners fire on the store [s] in the order [order]. *)
Definition fire (order : list Listener) (s : Store) (st : State) : State :=
  fold_left (fun st l => onSnapshot l s st) order st.

(** [maintenanceEvents.reduce((sum, e) => sum + (e.collectedAmount || 0), 0)]:
    the collected amount the cards of the dashboard show. *)
Definition maintenanceCollected (st : State) : Z :=
  fold_left
    (fun sum e =>
       sum + match collectedAmount e with Some a => or0 a | None => 0 end)
    (maintenanceEvents st) 0.

(** [obj[key] = value] on an object used as a map, and [obj[key]] *)
Fixpoint objSet (B : Type) (key : DocId) (value : B) (obj : list (DocId * B))
  : list (DocId * B) :=
  match obj with
  | [] => [(key, value)]
  | (k, v) :: obj' =>
      if (k =? key)%string then (key, value) :: obj'
      else (k, v) :: objSet key value obj'
  end.

Record FloorPaymentStatus : Type := {
  monthly_ : list (DocId * bool);
  events_ : list (DocId * list (DocId * bool))
}.

(** [calculatePaymentStatus].  [monthString] stands for
    [selectedMonth.toISOString().slice(0, 7)], the month of the selected
    date in UTC. *)
Definition calculatePaymentStatus (monthString : string) (st : State)
    (s : Store) : FloorPaymentStatus :=
  (* Check monthly payments for selected month *)
  let monthlySnapshot :=
    queryWhere (fun p => (MonthlyPayment.month p =? monthString)%string)
      (monthlyPayments s) in
  let monthlyStatus :=
    fold_left
      (fun monthlyStatus doc =>
         objSet (MonthlyPayment.floorId (snd doc)) true monthlyStatus)
      monthlySnapshot [] in
  (* Check event payments for each open event *)
  let openEvents :=
    filter (fun event => match status (data event) with
                         | open => true
                         | closed => false
                         end)
      (maintenanceEvents st) in
  let eventStatus :=
    fold_left
      (fun eventStatus event =>
         let eventSnapshot :=
           queryWhere (fun p => (EventPayment.eventId p =? id event)%string)
             (eventPayments s) in
         objSet (id event)
           (fold_left
              (fun floors doc =>
                 objSet (EventPayment.floorId (snd doc)) true floors)
              eventSnapshot [])
           eventStatus)
      openEvents [] in
  {| monthly_ := monthlyStatus; events_ := eventStatus |}.

(** [floorPaymentStatus.monthly[floor.id]]; [undefined] is shown as not
    paid. *)
Definition hasPaidMonthly (status : FloorPaymentStatus) (fid : DocId) : bool :=
  match getDoc fid (monthly_ status) with
  | Some paid => paid
  | None => false
  end.

(** [floorPaymentStatus.events[event.id]?.[floor.id]] *)
Definition hasPaidEvent (status : FloorPaymentStatus) (eid fid : DocId) : bool :=
  match getDoc eid (events_ status) with
  | Some floors =>
      match getDoc fid floors with
      | Some paid => paid
      | None => false
      end
  | None => false
  end.

End AdminDashboard.

(** ** HomePage *)

Module HomePage.

Record PaymentData : Type := {
  amountPaid : Z;
  paymentDate : Timestamp
}.

(** A line of the status table; the fields of the payment are spread
    into it when the floor has paid. *)
Record PaymentStatus : Type := {
  floorId : DocId;
  hasPaid : bool;
  amountPaid_ : option Z;
  paymentDate_ : option Timestamp
}.

(** [set.add(x)] and [set.has(x)] *)
Definition setAdd (x : DocId) (set : list DocId) : list DocId :=
  if existsb (String.eqb x) set then set else (set ++ [x])%list.

Definition setHas (x : DocId) (set : list DocId) : bool :=
  existsb (String.eqb x) set.

Definition statusOf (paidFloors : list DocId)
    (paymentData : list (DocId * PaymentData)) (floor : DocId * Floor)
  : PaymentStatus :=
  let hasPaid := setHas (fst floor) paidFloors in
  let spread := if hasPaid then getDoc (fst floor) paymentData else None in
  {| floorId := fst floor;
     hasPaid := hasPaid;
     amountPaid_ := option_map amountPaid spread;
     paymentDate_ := option_map paymentDate spread |}.

(** [loadPaymentStatus]: the status table, [None] when no date is
    selected and the table is left as it is.  [monthString] stands for
    [selectedDate.toISOString().slice(0, 7)], the month of the selected
    date in UTC. *)
Definition loadPaymentStatus (monthString : option string)
    (floors : Collection Floor) (s : Store) : option (list PaymentStatus) :=
  match monthString with
  | None => None
  | Some monthString =>
      (* Query monthly payments for selected month *)
      let paymentsSnapshot :=
        queryWhere (fun p => (MonthlyPayment.month p =? monthString)%string)
          (monthlyPayments s) in
      let paidFloors :=
        fold_left (fun set doc => setAdd (MonthlyPayment.floorId (snd doc)) set)
          paymentsSnapshot [] in
      let paymentData :=
        fold_left
          (fun m doc =>
             AdminDashboard.objSet (MonthlyPayment.floorId (snd doc))
               {| amountPaid := MonthlyPayment.amountPaid (snd doc);
                  paymentDate := MonthlyPayment.paymentDate (snd doc) |} m)
          paymentsSnapshot [] in
      (* Create payment status array *)
      Some (map (statusOf paidFloors paymentData) floors)
  end.

End HomePage.

(** ** The ledger as a state machine *)

(** The operations on the ledger, each from the opening of its modal to
    its write: for an edit, "press edit on a row, fill, save"; for a
    deletion, "press delete on a row, confirm". *)
Inductive Op : Type :=
| CreateMonthlyPayment (f : MonthlyPaymentModal.Form) (now : Timestamp) (newId : DocId)
| CreateEventPayment (f : MaintenancePaymentModal.Form) (now : Timestamp) (newId : DocId)
| CreateExpense (f : ExpenseModal.Form) (now : Timestamp) (newId : DocId)
| EditPayment (row : nat) (f : ManagePaymentsModal.EditFormData)
| DeletePayment (row : nat)
| DeleteEvent (eid : DocId) (now : Timestamp).

Definition step (s : Store) (op : Op) : Store * Outcome :=
  match op with
  | CreateMonthlyPayment f now newId => MonthlyPaymentModal.submit f now newId s
  | CreateEventPayment f now newId => MaintenancePaymentModal.submit f now newId s
  | CreateExpense f now newId => ExpenseModal.submit f now newId s
  | EditPayment row f => ManagePaymentsModal.edit row f s
  | DeletePayment row => ManagePaymentsModal.delete row s
  | DeleteEvent eid now => ManageMaintenanceModal.deleteEvent (Some eid) now s
  end.

Fixpoint run (s : Store) (ops : list Op) : Store :=
  match ops with
  | [] => s
  | op :: rest => run (fst (step s op)) rest
  end.

(** ** Ledger properties *)

(** The sum of a field over the documents of a collection. *)
Definition sumOf {A : Type} (field : A -> Z) (c : Collection A) : Z :=
  fold_right (fun d acc => field (snd d) + acc) 0 c.

Definition sumPayments (s : Store) : Z :=
  sumOf MonthlyPayment.amountPaid (monthlyPayments s)
  + sumOf EventPayment.amountPaid (eventPayments s).

Definition sumExpenses (s : Store) : Z :=
  sumOf Expense.amount (expenses s).

(** The balance document exists and holds payments minus expenses. *)
Definition balanced (s : Store) : Prop :=
  match balance s with
  | Some b => totalBalance b = sumPayments s - sumExpenses s
  | None => False
  end.

(** The ids of all payment documents, of both collections. *)
Definition paymentIds (s : Store) : list DocId :=
  (ids (monthlyPayments s) ++ ids (eventPayments s))%list.

(** Document ids are keys: no id names two payments or two expenses. *)
Definition uniqueIds (s : Store) : Prop :=
  NoDup (paymentIds s) /\ NoDup (ids (expenses s)).

(** The id generated for a new document is not in use. *)
Definition freshFor (s : Store) (op : Op) : Prop :=
  match op with
  | CreateMonthlyPayment _ _ newId
  | CreateEventPayment _ _ newId => ~ In newId (paymentIds s)
  | CreateExpense _ _ newId => ~ In newId (ids (expenses s))
  | _ => True
  end.

Fixpoint freshRun (s : Store) (ops : list Op) : Prop :=
  match ops with
  | [] => True
  | op :: rest => freshFor s op /\ freshRun (fst (step s op)) rest
  end.

(** The amount stored on a payment document. *)
Definition persistedAmount (c : ManagePaymentsModal.CollectionName)
    (pid : DocId) (s : Store) : option Z :=
  match c with
  | ManagePaymentsModal.monthlyPaymentsC =>
      option_map MonthlyPayment.amountPaid (getDoc pid (monthlyPayments s))
  | ManagePaymentsModal.eventPaymentsC =>
      option_map EventPayment.amountPaid (getDoc pid (eventPayments s))
  end.

(** *** Whole amounts

    The amounts of the model are whole numbers of pounds.  The code
    computes in IEEE doubles: there a sum or a difference of whole numbers
    is exact when the operands and the result are of magnitude at most
    [2^53 - 1], and [Math.ceil(total / n)] is the ceiling of the quotient
    for a whole [total] of that range.  A theorem that names these bounds
    speaks of whole amounts within them; amounts with a fraction and
    amounts beyond the bounds are outside of it. *)

(** [Number.MAX_SAFE_INTEGER] *)
Definition MAX_SAFE_INTEGER : Z := 2 ^ 53 - 1.

(** [Number.isSafeInteger(x)] for a whole number [x]. *)
Definition isSafeInteger (x : Z) : Prop := Z.abs x <= MAX_SAFE_INTEGER.

(** The number typed into a field, if one is typed, is a safe integer. *)
Definition safeInput (t : TextInput) : Prop :=
  match t with
  | Number z => isSafeInteger z
  | _ => True
  end.

(** The magnitudes of a field over the documents of a collection, added
    up: a bound on every partial sum of a [reduce] over them. *)
Definition absSum {A : Type} (field : A -> Z) (c : Collection A) : Z :=
  fold_right (fun d acc => Z.abs (field (snd d)) + acc) 0 c.

(** The magnitudes of the balance and of all amounts paid and spent on
    record, added up: a bound on whatever an operation computes from them
    by adding and subtracting, each at most once. *)
Definition ledgerMagnitude (s : Store) : Z :=
  Z.abs (readTotalBalance s)
  + absSum MonthlyPayment.amountPaid (monthlyPayments s)
  + absSum EventPayment.amountPaid (eventPayments s)
  + absSum Expense.amount (expenses s).

(** The ledger holds whole amounts on which the sums of the code are
    exact. *)
Definition wholeLedger (s : Store) : Prop :=
  ledgerMagnitude s <= MAX_SAFE_INTEGER.

(** *** Every admin operation *)

Inductive AdminOp : Type :=
| LedgerOp (op : Op)
| CreateEvent (f : NewMaintenanceModal.Form) (newId : DocId)
| EditEvent (eid : DocId) (f : ManageMaintenanceModal.EditFormData)
| ManagePayments (l : list ManagePaymentsModal.Action).

Definition adminStep (s : Store) (op : AdminOp) : Store :=
  match op with
  | LedgerOp op => fst (step s op)
  | CreateEvent f newId => fst (NewMaintenanceModal.submit f newId s)
  | EditEvent eid f => fst (ManageMaintenanceModal.saveEvent (Some eid) f s)
  | ManagePayments l => ManagePaymentsModal.session l s
  end.

Fixpoint adminRun (s : Store) (ops : list AdminOp) : Store :=
  match ops with
  | [] => s
  | op :: rest => adminRun (adminStep s op) rest
  end.

(** An operation that adds a record or touches an event, as opposed to an
    edit or a deletion of a payment and to the deletion of an event. *)
Definition isCreation (op : AdminOp) : bool :=
  match op with
  | LedgerOp (CreateMonthlyPayment _ _ _)
  | LedgerOp (CreateEventPayment _ _ _)
  | LedgerOp (CreateExpense _ _ _)
  | CreateEvent _ _
  | EditEvent _ _ => true
  | _ => false
  end.

(** *** Well-formed records *)

(** [0 <= r] *)
Definition nonneg_num (r : num) : Prop :=
  match r with
  | Fin z => 0 <= z
  | PosInf => True
  end.

Definition monthlyRecordOk (d : MonthlyPayment.t) : Prop :=
  0 < MonthlyPayment.amountPaid d
  /\ 0 <= MonthlyPayment.remainingAmount d
  /\ MonthlyPayment.isComplete d = (MonthlyPayment.remainingAmount d <=? 0)
  /\ exists picked, MonthlyPayment.month d = monthStringOf picked.

Definition eventRecordOk (d : EventPayment.t) : Prop :=
  0 < EventPayment.amountPaid d
  /\ nonneg_num (EventPayment.remainingAmount d)
  /\ EventPayment.isComplete d = le0_num (EventPayment.remainingAmount d).

Definition expenseOk (x : Expense.t) : Prop :=
  0 < Expense.amount x
  /\ match Expense.type x with
     | monthly => Expense.eventId x = None
     | event => exists e, Expense.eventId x = Some e /\ e <> EmptyString
     end.

Definition recordsOk (s : Store) : Prop :=
  Forall (fun kv => monthlyRecordOk (snd kv)) (monthlyPayments s)
  /\ Forall (fun kv => eventRecordOk (snd kv)) (eventPayments s)
  /\ Forall (fun kv => expenseOk (snd kv)) (expenses s).

(** Every event payment names an event that exists. *)
Definition paymentsReferToEvents (s : Store) : Prop :=
  Forall (fun kv => In (EventPayment.eventId (snd kv)) (ids (events s)))
    (eventPayments s).

(** The payment documents of a floor for an event, in query order. *)
Definition paymentsOfKey (eid fid : DocId) (s : Store) : list EventPayment.t :=
  filter (fun p => (EventPayment.eventId p =? eid)%string
                   && (EventPayment.floorId p =? fid)%string)
    (map snd (eventPayments s)).

(** [a] may be listed before [b]: it is not older. *)
Definition notOlder (a b : ManagePaymentsModal.Payment) : Prop :=
  ManagePaymentsModal.paymentDate b <= ManagePaymentsModal.paymentDate a.


(** *** Months on record *)

(** The month of every monthly payment is the month string of a date that
    a [Date] holds as it is: a month from 0 to 11, and a year that
    [new Date(year, month)] does not read as a year of the twentieth
    century. *)
Definition monthsReadable (s : Store) : Prop :=
  Forall
    (fun kv =>
       exists picked,
         MonthlyPayment.month (snd kv) = monthStringOf picked
         /\ (100 <= getFullYear picked)%nat /\ (getMonth picked < 12)%nat)
    (monthlyPayments s).

(** *** The status table of the events page *)

(** The last element of a list. *)
Fixpoint lastOf (A : Type) (l : list A) : option A :=
  match l with
  | [] => None
  | x :: l' =>
      match lastOf l' with
      | Some y => Some y
      | None => Some x
      end
  end.

(** The line of the status table for [floor]: the payment document the
    table shows is the last one of the floor for the event, in query
    order. *)
Definition statusLine (eid : DocId) (s : Store) (floor : DocId * Floor)
  : EventsPage.EventPaymentStatus :=
  EventsPage.statusOf floor
    (option_map EventsPage.infoOf (lastOf (paymentsOfKey eid (fst floor) s))).

(** *** The figures of the dashboard *)

Definition isEventsListener (l : AdminDashboard.Listener) : bool :=
  match l with AdminDashboard.eventsListener => true | _ => false end.

Definition isEventPaymentsListener (l : AdminDashboard.Listener) : bool :=
  match l with AdminDashboard.eventPaymentsListener => true | _ => false end.

(** Whether the events of the dashboard carry their collected amounts
    after the listeners fired in the order [order]: the listener of the
    event payments has fired after the last firing of the listener of the
    events.  [events] and [collected] tell what held before. *)
Fixpoint collectedShown (events collected : bool)
    (order : list AdminDashboard.Listener) : bool :=
  match order with
  | [] => collected
  | l :: rest =>
      if isEventsListener l then collectedShown true false rest
      else if isEventPaymentsListener l then collectedShown events events rest
      else collectedShown events collected rest
  end.

(** The events of the dashboard are the events of the store. *)
Definition eventsRead (s : Store) (st : AdminDashboard.State) : Prop :=
  map (fun e => (AdminDashboard.id e, AdminDashboard.data e))
    (AdminDashboard.maintenanceEvents st)
  = events s.

(** They carry the amounts collected for them. *)
Definition collectedRead (s : Store) (st : AdminDashboard.State) : Prop :=
  AdminDashboard.maintenanceEvents st
  = map (fun doc =>
           {| AdminDashboard.id := fst doc; AdminDashboard.data := snd doc;
              AdminDashboard.collectedAmount :=
                Some (reduceSum EventPayment.amountPaid
                        (filter (fun paymentDoc =>
                                   (EventPayment.eventId (snd paymentDoc)
                                    =? fst doc)%string)
                           (eventPayments s))) |})
      (events s).

(** *** The payments manager *)

(** A save is about to rewrite the row whose deletion awaits its
    confirmation. *)
Definition savesPendingRow (st : ManagePaymentsModal.State) : bool :=
  match ManagePaymentsModal.editingPaymentId_ st,
        ManagePaymentsModal.deleteConfirmPayment_ st with
  | Some pid, Some p => (pid =? ManagePaymentsModal.id p)%string
  | _, _ => false
  end.

(** No save of [l] rewrites the row whose deletion is pending at the time. *)
Fixpoint keepsPendingRow (l : list ManagePaymentsModal.Action)
    (st : ManagePaymentsModal.State) (s : Store) : bool :=
  match l with
  | [] => true
  | a :: l' =>
      match a with
      | ManagePaymentsModal.ClickSave => negb (savesPendingRow st)
      | _ => true
      end
      && let (st', s') := ManagePaymentsModal.act a st s in
         keepsPendingRow l' st' s'
  end.

(** The magnitudes of the numbers a save computes with: the balance, the
    amount typed and the amount of the row in edit. *)
Definition saveMagnitude (st : ManagePaymentsModal.State) (s : Store) : Z :=
  Z.abs (readTotalBalance s)
  + match parseFloat (ManagePaymentsModal.amountPaid_
                        (ManagePaymentsModal.editFormData_ st)) with
    | Some amount => Z.abs amount
    | None => 0
    end
  + match ManagePaymentsModal.editingPaymentId_ st with
    | Some pid =>
        match find (fun p => (ManagePaymentsModal.id p =? pid)%string)
                (ManagePaymentsModal.payments_ st) with
        | Some p => Z.abs (ManagePaymentsModal.originalAmount p)
        | None => 0
        end
    | None => 0
    end.

(** The same for the confirmation of a deletion: the balance and the
    amount of the row picked. *)
Definition deleteMagnitude (st : ManagePaymentsModal.State) (s : Store) : Z :=
  Z.abs (readTotalBalance s)
  + match ManagePaymentsModal.deleteConfirmPayment_ st with
    | Some p => Z.abs (ManagePaymentsModal.amountPaid p)
    | None => 0
    end.

(** Every save and every confirmed deletion of [l] computes with whole
    amounts within the bounds of exact sums. *)
Fixpoint staysExact (l : list ManagePaymentsModal.Action)
    (st : ManagePaymentsModal.State) (s : Store) : bool :=
  match l with
  | [] => true
  | a :: l' =>
      match a with
      | ManagePaymentsModal.ClickSave =>
          saveMagnitude st s <=? MAX_SAFE_INTEGER
      | ManagePaymentsModal.ClickConfirmDelete =>
          deleteMagnitude st s <=? MAX_SAFE_INTEGER
      | _ => true
      end
      && let (st', s') := ManagePaymentsModal.act a st s in
         staysExact l' st' s'
  end.

(** The list of the open modal is the list of the store, the ledger is
    balanced, and the row picked for deletion, if any, is a row of the
    list. *)
Definition managerOk (st : ManagePaymentsModal.State) (s : Store) : Prop :=
  ManagePaymentsModal.payments_ st = ManagePaymentsModal.loadPayments s
  /\ uniqueIds s /\ balanced s
  /\ forall p, ManagePaymentsModal.deleteConfirmPayment_ st = Some p ->
               In p (ManagePaymentsModal.loadPayments s).

(** *** The modals with several steps *)

(** The ids of the events the expense modal lists. *)
Definition listedEvents (s : Store) : list DocId :=
  map (fun e => fst (fst e)) (ExpenseModal.loadEvents s).

(** What holds of the expense modal, opened on the store [s0], after any
    number of clicks.  While it is open the store is as it was, the
    selected event is none or a listed one, and the review step shows a
    form that passed the details step.  Once it has closed, one expense
    was written, as by [submit]. *)
Definition expenseWizardOk (s0 : Store) (w : ExpenseModal.Wizard) (s : Store)
  : Prop :=
  if ExpenseModal.closed_ w then
    exists f now newId,
      ExpenseModal.handleDetailsSubmit (ExpenseModal.loadData s0) f = None
      /\ (ExpenseModal.isEventType (ExpenseModal.expenseType f) = true ->
          In (ExpenseModal.selectedEvent f) (listedEvents s0))
      /\ ExpenseModal.submit f now newId s0 = (s, Done)
  else
    s = s0
    /\ ExpenseModal.financialData_ w = ExpenseModal.loadData s0
    /\ ExpenseModal.events_ w = ExpenseModal.loadEvents s0
    /\ (ExpenseModal.selectedEvent (ExpenseModal.form_ w) = EmptyString
        \/ In (ExpenseModal.selectedEvent (ExpenseModal.form_ w))
             (listedEvents s0))
    /\ (ExpenseModal.step_ w = ExpenseModal.reviewStep ->
        ExpenseModal.handleDetailsSubmit (ExpenseModal.loadData s0)
          (ExpenseModal.form_ w) = None).

(** The same for the modal that creates an event, when the costs typed
    are safe integers. *)
Definition eventWizardOk (s0 : Store) (w : NewMaintenanceModal.Wizard)
    (s : Store) : Prop :=
  if NewMaintenanceModal.closed_ w then
    exists f newId,
      NewMaintenanceModal.handleDetailsSubmit f = None
      /\ safeInput (NewMaintenanceModal.totalCost_ f)
      /\ NewMaintenanceModal.submit f newId s0 = (s, Done)
  else
    s = s0
    /\ NewMaintenanceModal.floors_ w = NewMaintenanceModal.loadFloors s0
    /\ safeInput (NewMaintenanceModal.totalCost_ (NewMaintenanceModal.form_ w))
    /\ (NewMaintenanceModal.step_ w = NewMaintenanceModal.reviewStep ->
        NewMaintenanceModal.handleDetailsSubmit (NewMaintenanceModal.form_ w)
        = None).

(** A cost typed into the modal is a safe integer. *)
Definition safeClick (c : NewMaintenanceModal.Click) : Prop :=
  match c with
  | NewMaintenanceModal.TypeCost text => safeInput text
  | _ => True
  end.

(** ** Sample data *)

Definition january : JsDate := {| getFullYear := 2025; getMonth := 0 |}.

Definition roof : Event :=
  {| eventName_ar := ofString "roof"; description := ofString "roof repair";
     totalCost := 1000; costPerFloor := Fin 500; date := 0; status := open |}.

(** Two floors, one open event of 500 per floor, monthly dues of 500, an
    empty ledger. *)
Definition building : Store :=
  {| floors := [("f1", {| floorNumber := 0 |}); ("f2", {| floorNumber := 1 |})];
     events := [("e1", roof)];
     eventPayments := [];
     monthlyPayments := [];
     expenses := [];
     balance := Some {| totalBalance := 0; lastUpdated := 0 |};
     monthlyDuePayment := Some 500 |}.

(** The same building before the balance document is created. *)
Definition buildingNoBalance : Store := with_balance None building.

(** The same building with 1000 in the balance. *)
Definition building1000 : Store :=
  with_balance (Some {| totalBalance := 1000; lastUpdated := 0 |}) building.

Definition monthlyForm (amount : Z) : MonthlyPaymentModal.Form :=
  {| MonthlyPaymentModal.selectedFloor := "f1";
     MonthlyPaymentModal.paymentAmount := Number amount;
     MonthlyPaymentModal.selectedDate := Some january |}.

Definition eventForm (amount : Z) : MaintenancePaymentModal.Form :=
  {| MaintenancePaymentModal.selectedEvent := "e1";
     MaintenancePaymentModal.selectedFloor := "f1";
     MaintenancePaymentModal.paymentAmount := Number amount |}.

Definition expenseForm (t : LedgerType) (amount : Z) : ExpenseModal.Form :=
  {| ExpenseModal.expenseType := t;
     ExpenseModal.selectedEvent := "e1";
     ExpenseModal.description := ofString "paint";
     ExpenseModal.amount := Number amount;
     ExpenseModal.paymentMethod := cash |}.

Definition editForm (amount : Z) : ManagePaymentsModal.EditFormData :=
  {| ManagePaymentsModal.amountPaid_ := Number amount;
     ManagePaymentsModal.paymentMonth := None |}.

(** One operation of each kind, each of them accepted. *)
Definition sampleOps : list Op :=
  [ CreateMonthlyPayment (monthlyForm 200) 1 "m1";
    CreateEventPayment (eventForm 300) 2 "p1";
    CreateExpense (expenseForm event 100) 3 "x1";
    EditPayment 0 (editForm 350);
    DeletePayment 1;
    DeleteEvent "e1" 4 ].

(** Floor f1 pays 200 twice towards the 500 of January. *)
Definition twoMonthlyPayments : Store :=
  run building
    [ CreateMonthlyPayment (monthlyForm 200) 1 "m1";
      CreateMonthlyPayment (monthlyForm 200) 2 "m2" ].

(** Floor f1 pays 200 twice towards the 500 of event e1; the generated
    ids happen to be in the order of the payments. *)
Definition twoEventPayments : Store :=
  run building
    [ CreateEventPayment (eventForm 200) 1 "p1";
      CreateEventPayment (eventForm 200) 2 "p2" ].

(** The same two payments with generated ids in the opposite order. *)
Definition twoEventPaymentsRev : Store :=
  run building
    [ CreateEventPayment (eventForm 200) 1 "p2";
      CreateEventPayment (eventForm 200) 2 "p1" ].

Definition newEventForm (cost : Z) : NewMaintenanceModal.Form :=
  {| NewMaintenanceModal.eventName := ofString "lift";
     NewMaintenanceModal.description_ := ofString "lift repair";
     NewMaintenanceModal.totalCost_ := Number cost;
     NewMaintenanceModal.selectedDate := Some 5 |}.

Definition editEventForm (cost : Z) : ManageMaintenanceModal.EditFormData :=
  {| ManageMaintenanceModal.eventName_ar_ := ofString "roof";
     ManageMaintenanceModal.description_ := ofString "roof repair";
     ManageMaintenanceModal.totalCost_ := Number cost;
     ManageMaintenanceModal.status_ := open |}.


Definition noFloors : Store :=
  {| floors := [];
     events := [("e1", roof)];
     eventPayments := [];
     monthlyPayments := [];
     expenses := [];
     balance := Some {| totalBalance := 0; lastUpdated := 0 |};
     monthlyDuePayment := Some 500 |}.

(** Floor f1 pays 100 three times towards the 500 of event e1, the
    generated ids in the order of the payments. *)
Definition threeEventPayments : Store :=
  run building
    [ CreateEventPayment (eventForm 100) 1 "p1";
      CreateEventPayment (eventForm 100) 2 "p2";
      CreateEventPayment (eventForm 100) 3 "p3" ].

(** A ledger with two events: e1 has payments of 200 and 200 and an expense
    of 150; e2 and the monthly dues have records of their own. *)
Definition twoEvents : Store :=
  {| floors := [("f1", {| floorNumber := 0 |}); ("f2", {| floorNumber := 1 |})];
     events := [("e1", roof); ("e2", roof)];
     eventPayments :=
       [("p1", {| EventPayment.eventId := "e1"; EventPayment.floorId := "f1";
                  EventPayment.amountPaid := 200; EventPayment.paymentDate := 1;
                  EventPayment.remainingAmount := Fin 300;
                  EventPayment.isComplete := false |});
        ("p2", {| EventPayment.eventId := "e2"; EventPayment.floorId := "f1";
                  EventPayment.amountPaid := 50; EventPayment.paymentDate := 2;
                  EventPayment.remainingAmount := Fin 450;
                  EventPayment.isComplete := false |});
        ("p3", {| EventPayment.eventId := "e1"; EventPayment.floorId := "f2";
                  EventPayment.amountPaid := 200; EventPayment.paymentDate := 3;
                  EventPayment.remainingAmount := Fin 300;
                  EventPayment.isComplete := false |})];
     monthlyPayments :=
       [("m1", {| MonthlyPayment.floorId := "f1"; MonthlyPayment.month := "2025-01";
                  MonthlyPayment.amountPaid := 100; MonthlyPayment.paymentDate := 4;
                  MonthlyPayment.remainingAmount := 400;
                  MonthlyPayment.isComplete := false |})];
     expenses :=
       [("x1", {| Expense.type := event; Expense.eventId := Some "e1";
                  Expense.description := ofString "paint"; Expense.amount := 150;
                  Expense.date := 5; Expense.paidThrough := cash |});
        ("x2", {| Expense.type := monthly; Expense.eventId := None;
                  Expense.description := ofString "cleaning";
                  Expense.amount := 20;
                  Expense.date := 6; Expense.paidThrough := cash |});
        ("x3", {| Expense.type := event; Expense.eventId := Some "e2";
                  Expense.description := ofString "nails"; Expense.amount := 10;
                  Expense.date := 7; Expense.paidThrough := bank |})];
     balance := Some {| totalBalance := 370; lastUpdated := 7 |};
     monthlyDuePayment := Some 500 |}.

(** Floor f1 has paid 200 for January: one payment, a balance of 200. *)
Definition oneMonthlyPayment : Store :=
  run building [ CreateMonthlyPayment (monthlyForm 200) 1 "m1" ].

(** In the payments manager: press the delete button of the payment, then,
    with the confirmation still pending, edit the same payment to 350 and
    save. *)
Definition editWhileDeletionPending : list ManagePaymentsModal.Action :=
  [ ManagePaymentsModal.ClickDelete 0;
    ManagePaymentsModal.ClickEdit 0;
    ManagePaymentsModal.TypeAmount (Number 350);
    ManagePaymentsModal.ClickSave ].

(** The edit form that closes the event of the sample building. *)
Definition closeEventForm : ManageMaintenanceModal.EditFormData :=
  {| ManageMaintenanceModal.eventName_ar_ := ofString "roof";
     ManageMaintenanceModal.description_ := ofString "roof repair";
     ManageMaintenanceModal.totalCost_ := Number 1000;
     ManageMaintenanceModal.status_ := closed |}.

(** A day of the administrator on the ledger with two events: a monthly
    payment, a new event, a payment for the first event, the first event
    is closed, the payments manager edits the newest payment with a
    deletion pending and confirms it, and the first event is deleted. *)
Definition adminOps : list AdminOp :=
  [ LedgerOp (CreateMonthlyPayment (monthlyForm 200) 8 "m2");
    CreateEvent (newEventForm 900) "e3";
    LedgerOp (CreateEventPayment (eventForm 300) 9 "p4");
    EditEvent "e1" closeEventForm;
    ManagePayments
      (editWhileDeletionPending ++ [ManagePaymentsModal.ClickConfirmDelete]);
    LedgerOp (DeleteEvent "e1" 10) ].

(** ** Lemmas on the store primitives *)

Unset Implicit Arguments.

Lemma or0_id (x : Z) : or0 x = x.
Proof. unfold or0. destruct (Z.eqb_spec x 0); congruence. Qed.

Section CollectionFacts.
Variable A : Type.
Implicit Types (c : Collection A) (id : DocId).

Lemma reduceSum_sumOf (field : A -> Z) c : reduceSum field c = sumOf field c.
Proof.
  unfold reduceSum.
  assert (H : forall acc,
    fold_left (fun sum doc => sum + or0 (field (snd doc))) c acc
    = acc + sumOf field c).
  { induction c as [|d c' IH]; intro acc; simpl.
    - lia.
    - rewrite IH, or0_id. lia. }
  rewrite H. lia.
Qed.

Lemma sumOf_perm (field : A -> Z) c c' :
  Permutation c c' -> sumOf field c = sumOf field c'.
Proof. induction 1; simpl; lia. Qed.

Lemma addDoc_perm id (d : A) c :
  ~ In id (ids c) -> Permutation (addDoc id d c) ((id, d) :: c).
Proof.
  unfold ids. induction c as [|[k v] c' IH]; simpl; intro Hfresh.
  - reflexivity.
  - destruct (String.compare id k) eqn:Hcmp.
    + apply String.compare_eq_iff in Hcmp. exfalso. apply Hfresh. now left.
    + reflexivity.
    + rewrite IH by tauto. apply perm_swap.
Qed.

Lemma sumOf_addDoc (field : A -> Z) id d c :
  ~ In id (ids c) -> sumOf field (addDoc id d c) = field d + sumOf field c.
Proof.
  intro H. rewrite (sumOf_perm field _ _ (addDoc_perm id d c H)). reflexivity.
Qed.

Lemma ids_addDoc id d c :
  ~ In id (ids c) -> Permutation (ids (addDoc id d c)) (id :: ids c).
Proof.
  intro H. change (id :: ids c) with (ids ((id, d) :: c)).
  apply Permutation_map, addDoc_perm, H.
Qed.

Lemma getDoc_In id c v : getDoc id c = Some v -> In (id, v) c.
Proof.
  induction c as [|[k w] c' IH]; simpl; [discriminate|].
  destruct (String.eqb_spec k id); intro H.
  - left. congruence.
  - right. auto.
Qed.

Lemma getDoc_None id c : getDoc id c = None <-> ~ In id (ids c).
Proof.
  induction c as [|[k w] c' IH]; simpl; [tauto|].
  destruct (String.eqb_spec k id); [|tauto].
  split; [discriminate | tauto].
Qed.

Lemma In_getDoc id c v : NoDup (ids c) -> In (id, v) c -> getDoc id c = Some v.
Proof.
  induction c as [|[k w] c' IH]; simpl; [tauto|].
  intros Hnd [Heq | Hin]; inversion Hnd; subst.
  - inversion Heq; subst. now rewrite String.eqb_refl.
  - destruct (String.eqb_spec k id); [|auto].
    subst. exfalso. apply H1. apply (in_map fst _ _ Hin).
Qed.

Lemma ids_patchDoc id f c : ids (patchDoc id f c) = ids c.
Proof.
  unfold ids, patchDoc. rewrite map_map. apply map_ext.
  intros [k v]; simpl. now destruct (k =? id)%string.
Qed.

Lemma patchDoc_absent id f c : ~ In id (ids c) -> patchDoc id f c = c.
Proof.
  induction c as [|[k v] c' IH]; simpl; intro H; [reflexivity|].
  destruct (String.eqb_spec k id); [tauto|]. now rewrite IH by tauto.
Qed.

Lemma sumOf_patchDoc (field : A -> Z) id f c v :
  NoDup (ids c) -> getDoc id c = Some v ->
  sumOf field (patchDoc id f c) = sumOf field c - field v + field (f v).
Proof.
  induction c as [|[k w] c' IH]; simpl; [discriminate|].
  intros Hnd Hget. inversion Hnd; subst.
  destruct (String.eqb_spec k id).
  - inversion Hget; subst. fold (patchDoc id f c').
    rewrite patchDoc_absent by assumption. simpl. lia.
  - simpl. fold (patchDoc id f c'). rewrite IH by assumption. lia.
Qed.

Lemma getDoc_patchDoc id f c v :
  getDoc id c = Some v -> getDoc id (patchDoc id f c) = Some (f v).
Proof.
  induction c as [|[k w] c' IH]; simpl; [discriminate|].
  destruct (String.eqb_spec k id); simpl.
  - rewrite e, String.eqb_refl. congruence.
  - destruct (String.eqb_spec k id); [tauto | exact IH].
Qed.

Lemma deleteDoc_absent id c : ~ In id (ids c) -> deleteDoc id c = c.
Proof.
  induction c as [|[k v] c' IH]; simpl; intro H; [reflexivity|].
  destruct (String.eqb_spec k id); simpl; [tauto|].
  fold (deleteDoc id c'). now rewrite IH by tauto.
Qed.

Lemma sumOf_deleteDoc (field : A -> Z) id c v :
  NoDup (ids c) -> getDoc id c = Some v ->
  sumOf field (deleteDoc id c) = sumOf field c - field v.
Proof.
  induction c as [|[k w] c' IH]; simpl; [discriminate|].
  intros Hnd Hget. inversion Hnd; subst.
  destruct (String.eqb_spec k id); simpl.
  - inversion Hget; subst. fold (deleteDoc id c').
    rewrite deleteDoc_absent by assumption. lia.
  - fold (deleteDoc id c'). rewrite IH by assumption. lia.
Qed.

Lemma ids_filter_incl (p : DocId * A -> bool) c x :
  In x (ids (filter p c)) -> In x (ids c).
Proof.
  unfold ids. rewrite !in_map_iff. intros [kv [Hk Hin]].
  apply filter_In in Hin. exists kv. tauto.
Qed.

Lemma NoDup_ids_filter (p : DocId * A -> bool) c :
  NoDup (ids c) -> NoDup (ids (filter p c)).
Proof.
  induction c as [|[k v] c' IH]; simpl; intro Hnd; [constructor|].
  inversion Hnd; subst. destruct (p (k, v)); simpl; [|auto].
  constructor; [|auto]. intro Hin. apply H1. eapply ids_filter_incl, Hin.
Qed.

Lemma getDoc_deleteDoc id c : getDoc id (deleteDoc id c) = None.
Proof.
  apply getDoc_None. unfold ids, deleteDoc. rewrite in_map_iff.
  intros [[k v] [Hk Hin]]. apply filter_In in Hin. simpl in *. subst.
  rewrite String.eqb_refl in Hin. destruct Hin; discriminate.
Qed.
End CollectionFacts.

Section QueryFacts.
Variable A : Type.
Implicit Types (c docs : Collection A) (q : DocId * A -> bool).

Lemma same_id_same_doc c k (v w : A) :
  NoDup (ids c) -> In (k, v) c -> In (k, w) c -> v = w.
Proof.
  intros Hnd Hv Hw.
  apply (In_getDoc A k c v Hnd) in Hv. apply (In_getDoc A k c w Hnd) in Hw.
  congruence.
Qed.

(** Deleting the documents of a snapshot one by one keeps the documents
    whose id is not in the snapshot. *)
Lemma deleteAll_keeps docs c :
  ManageMaintenanceModal.deleteAll docs c
  = filter (fun kv => negb (existsb (fun d => (fst d =? fst kv)%string) docs)) c.
Proof.
  unfold ManageMaintenanceModal.deleteAll.
  revert c. induction docs as [|d docs IH]; intro c; simpl.
  - induction c as [|kv c' IHc]; simpl; [reflexivity | f_equal; exact IHc].
  - rewrite IH. unfold deleteDoc.
    induction c as [|kv c' IHc]; simpl; [reflexivity|].
    rewrite (String.eqb_sym (fst d) (fst kv)).
    destruct (fst kv =? fst d)%string; simpl; rewrite IHc; reflexivity.
Qed.

(** On a collection keyed by id, deleting the result of a query deletes
    the documents that match it and no other. *)
Lemma deleteAll_query q c :
  NoDup (ids c) ->
  ManageMaintenanceModal.deleteAll (filter q c) c
  = filter (fun kv => negb (q kv)) c.
Proof.
  intro Hnd. rewrite deleteAll_keeps. apply filter_ext_in.
  intros [k v] Hin. f_equal.
  destruct (q (k, v)) eqn:Hq.
  - apply existsb_exists. exists (k, v). split.
    + apply filter_In. tauto.
    + apply String.eqb_refl.
  - destruct (existsb _ _) eqn:Hex; [|reflexivity].
    apply existsb_exists in Hex. destruct Hex as [[k' v'] [Hin' Hk]].
    apply filter_In in Hin'. apply String.eqb_eq in Hk. simpl in Hk. subst k'.
    destruct Hin' as [Hin' Hq'].
    rewrite (same_id_same_doc c k v v' Hnd Hin Hin') in Hq. congruence.
Qed.

Lemma sumOf_split (field : A -> Z) q c :
  sumOf field c
  = sumOf field (filter q c) + sumOf field (filter (fun kv => negb (q kv)) c).
Proof.
  induction c as [|kv c' IH]; simpl; [reflexivity|].
  destruct (q kv); simpl; lia.
Qed.
End QueryFacts.

(** ** Lemmas on the payments list *)

Section Rows.
Import ManagePaymentsModal.

Lemma insertByDate_perm p l : Permutation (insertByDate p l) (p :: l).
Proof.
  induction l as [|q l' IH]; simpl; [reflexivity|].
  destruct (paymentDate p <? paymentDate q); [|reflexivity].
  rewrite IH. apply perm_swap.
Qed.

Lemma sortByDate_perm l : Permutation (sortByDate l) l.
Proof.
  induction l as [|p l' IH]; simpl; [reflexivity|].
  rewrite insertByDate_perm. now constructor.
Qed.

Lemma loadPayments_perm s :
  Permutation (loadPayments s)
    (map monthlyRow (monthlyPayments s) ++ map eventRow (eventPayments s)).
Proof. apply sortByDate_perm. Qed.

Lemma loadPayments_ids s : Permutation (map id (loadPayments s)) (paymentIds s).
Proof.
  rewrite (Permutation_map id (loadPayments_perm s)).
  unfold paymentIds, ids. rewrite map_app, !map_map. reflexivity.
Qed.

(** With ids that are keys, looking a row up by its id finds that row. *)
Lemma find_by_id (l : list Payment) p :
  NoDup (map id l) -> In p l ->
  find (fun q => (id q =? id p)%string) l = Some p.
Proof.
  induction l as [|q l' IH]; simpl; [tauto|].
  intros Hnd [Heq | Hin]; inversion Hnd; subst.
  - now rewrite String.eqb_refl.
  - destruct (String.eqb_spec (id q) (id p)) as [e|]; [|auto].
    exfalso. apply H1. rewrite e. now apply in_map.
Qed.

Lemma loadPayments_find s p :
  NoDup (paymentIds s) -> In p (loadPayments s) ->
  find (fun q => (id q =? id p)%string) (loadPayments s) = Some p.
Proof.
  intros Hnd Hin. apply find_by_id; [|assumption].
  eapply Permutation_NoDup; [|exact Hnd].
  symmetry. apply loadPayments_ids.
Qed.

(** Every row shows a document of one of the two payment collections. *)
Lemma loadPayments_origin s p :
  In p (loadPayments s) ->
  (exists d, In d (monthlyPayments s) /\ p = monthlyRow d)
  \/ (exists d, In d (eventPayments s) /\ p = eventRow d).
Proof.
  intro Hin. apply (Permutation_in _ (loadPayments_perm s)) in Hin.
  apply in_app_or in Hin. destruct Hin as [Hin | Hin];
    apply in_map_iff in Hin; destruct Hin as [d [Hd Hin]]; eauto.
Qed.

(** Every payment document is shown in some row. *)
Lemma monthly_has_row s d :
  In d (monthlyPayments s) ->
  exists row, nth_error (loadPayments s) row = Some (monthlyRow d).
Proof.
  intro Hin. apply In_nth_error.
  apply (Permutation_in _ (Permutation_sym (loadPayments_perm s))).
  apply in_or_app. left. now apply in_map.
Qed.

Lemma event_has_row s d :
  In d (eventPayments s) ->
  exists row, nth_error (loadPayments s) row = Some (eventRow d).
Proof.
  intro Hin. apply In_nth_error.
  apply (Permutation_in _ (Permutation_sym (loadPayments_perm s))).
  apply in_or_app. right. now apply in_map.
Qed.
End Rows.

(** ** Effects of the operations on the store *)

Ltac store_simpl :=
  unfold with_balance, with_events, with_eventPayments, with_monthlyPayments,
    with_expenses, sumPayments, sumExpenses, paymentIds, readTotalBalance in *;
  cbn [floors events eventPayments monthlyPayments expenses balance
       monthlyDuePayment totalBalance lastUpdated fst snd] in *.

Lemma fresh_monthly s newId :
  ~ In newId (paymentIds s) -> ~ In newId (ids (monthlyPayments s)).
Proof. unfold paymentIds. intros H Hin. apply H, in_or_app. now left. Qed.

Lemma fresh_event s newId :
  ~ In newId (paymentIds s) -> ~ In newId (ids (eventPayments s)).
Proof. unfold paymentIds. intros H Hin. apply H, in_or_app. now right. Qed.

Lemma NoDup_add_monthly s newId d :
  ~ In newId (paymentIds s) -> NoDup (paymentIds s) ->
  NoDup (ids (addDoc newId d (monthlyPayments s)) ++ ids (eventPayments s)).
Proof.
  intros Hfresh Hnd.
  apply (Permutation_NoDup (l := newId :: paymentIds s)).
  - symmetry. unfold paymentIds.
    apply (Permutation_app_tail (ids (eventPayments s))
             (ids_addDoc _ newId d _ (fresh_monthly s newId Hfresh))).
  - now constructor.
Qed.

Lemma NoDup_add_event s newId d :
  ~ In newId (paymentIds s) -> NoDup (paymentIds s) ->
  NoDup (ids (monthlyPayments s) ++ ids (addDoc newId d (eventPayments s))).
Proof.
  intros Hfresh Hnd.
  apply (Permutation_NoDup (l := newId :: paymentIds s)).
  - unfold paymentIds.
    rewrite (ids_addDoc _ newId d _ (fresh_event s newId Hfresh)).
    apply Permutation_middle.
  - now constructor.
Qed.

Lemma NoDup_add_expense s newId d :
  ~ In newId (ids (expenses s)) -> NoDup (ids (expenses s)) ->
  NoDup (ids (addDoc newId d (expenses s))).
Proof.
  intros Hfresh Hnd.
  apply (Permutation_NoDup (l := newId :: ids (expenses s))).
  - symmetry. now apply ids_addDoc.
  - now constructor.
Qed.

(** A monthly payment that passes validation: the record is added and, when
    the balance document exists, the amount is credited. *)
Lemma monthly_submit_accepted s f now newId amount d :
  isEmpty (MonthlyPaymentModal.selectedFloor f) = false ->
  MonthlyPaymentModal.paymentAmount f = Number amount ->
  MonthlyPaymentModal.selectedDate f = Some d ->
  0 < amount <= MonthlyPaymentModal.loadFloorsAndConfig s ->
  MonthlyPaymentModal.submit f now newId s
  = (let s1 :=
       with_monthlyPayments
         (addDoc newId
            {| MonthlyPayment.floorId := MonthlyPaymentModal.selectedFloor f;
               MonthlyPayment.month := monthStringOf d;
               MonthlyPayment.amountPaid := amount;
               MonthlyPayment.paymentDate := now;
               MonthlyPayment.remainingAmount :=
                 MonthlyPaymentModal.loadFloorsAndConfig s - amount;
               MonthlyPayment.isComplete :=
                 MonthlyPaymentModal.loadFloorsAndConfig s - amount <=? 0 |}
            (monthlyPayments s)) s in
     match balance s with
     | Some b =>
         with_balance
           (Some {| totalBalance := totalBalance b + amount;
                    lastUpdated := now |}) s1
     | None => s1
     end, Done).
Proof.
  intros Hfloor Hamt Hdate [Hpos Hle].
  unfold MonthlyPaymentModal.submit, MonthlyPaymentModal.handlePaymentSubmit.
  rewrite Hfloor, Hamt, Hdate. simpl.
  destruct (Z.leb_spec amount 0); [lia|].
  destruct (Z.gtb_spec amount (MonthlyPaymentModal.loadFloorsAndConfig s)); [lia|].
  destruct (balance s) as [b|]; [|reflexivity].
  now rewrite or0_id.
Qed.

(** A monthly payment submission changes the store only when it is
    accepted. *)
Lemma monthly_submit_cases s f now newId :
  MonthlyPaymentModal.submit f now newId s = (s, Rejected MissingFields)
  \/ MonthlyPaymentModal.submit f now newId s = (s, Rejected InvalidAmount)
  \/ MonthlyPaymentModal.submit f now newId s = (s, Rejected ExceedsRequired)
  \/ exists amount d,
       isEmpty (MonthlyPaymentModal.selectedFloor f) = false
       /\ MonthlyPaymentModal.paymentAmount f = Number amount
       /\ MonthlyPaymentModal.selectedDate f = Some d
       /\ 0 < amount <= MonthlyPaymentModal.loadFloorsAndConfig s.
Proof.
  unfold MonthlyPaymentModal.submit, MonthlyPaymentModal.handlePaymentSubmit.
  destruct (isEmpty (MonthlyPaymentModal.selectedFloor f)); [now left|].
  destruct (MonthlyPaymentModal.paymentAmount f) as [| |amount]; simpl;
    [now left | | ].
  - destruct (MonthlyPaymentModal.selectedDate f); simpl; auto.
  - destruct (MonthlyPaymentModal.selectedDate f) as [d|]; simpl; [|now left].
    destruct (Z.leb_spec amount 0); [auto|].
    destruct (Z.gtb_spec amount (MonthlyPaymentModal.loadFloorsAndConfig s));
      [auto|].
    right. right. right. exists amount, d. repeat split; auto; lia.
Qed.

(** An event payment that passes validation. *)
Lemma event_submit_accepted s f now newId amount :
  isEmpty (MaintenancePaymentModal.selectedEvent f) = false ->
  isEmpty (MaintenancePaymentModal.selectedFloor f) = false ->
  MaintenancePaymentModal.paymentAmount f = Number amount ->
  0 < amount ->
  gt_num amount
    (MaintenancePaymentModal.getRemainingAmount
       (MaintenancePaymentModal.loadData s)
       (MaintenancePaymentModal.selectedEvent f)
       (MaintenancePaymentModal.selectedFloor f)) = false ->
  MaintenancePaymentModal.submit f now newId s
  = (let remaining :=
       MaintenancePaymentModal.getRemainingAmount
         (MaintenancePaymentModal.loadData s)
         (MaintenancePaymentModal.selectedEvent f)
         (MaintenancePaymentModal.selectedFloor f) in
     let s1 :=
       with_eventPayments
         (addDoc newId
            {| EventPayment.eventId := MaintenancePaymentModal.selectedEvent f;
               EventPayment.floorId := MaintenancePaymentModal.selectedFloor f;
               EventPayment.amountPaid := amount;
               EventPayment.paymentDate := now;
               EventPayment.remainingAmount := sub_num remaining amount;
               EventPayment.isComplete := le0_num (sub_num remaining amount) |}
            (eventPayments s)) s in
     match balance s with
     | Some b =>
         with_balance
           (Some {| totalBalance := totalBalance b + amount;
                    lastUpdated := now |}) s1
     | None => s1
     end, Done).
Proof.
  intros Hev Hfloor Hamt Hpos Hgt.
  unfold MaintenancePaymentModal.submit,
    MaintenancePaymentModal.handlePaymentSubmit.
  rewrite Hev, Hfloor, Hamt. simpl.
  destruct (Z.leb_spec amount 0); [lia|].
  rewrite Hgt. simpl.
  destruct (balance s) as [b|]; [|reflexivity].
  now rewrite or0_id.
Qed.

Lemma event_submit_cases s f now newId :
  MaintenancePaymentModal.submit f now newId s = (s, Rejected MissingFields)
  \/ MaintenancePaymentModal.submit f now newId s = (s, Rejected InvalidAmount)
  \/ MaintenancePaymentModal.submit f now newId s = (s, Rejected ExceedsRequired)
  \/ exists amount,
       isEmpty (MaintenancePaymentModal.selectedEvent f) = false
       /\ isEmpty (MaintenancePaymentModal.selectedFloor f) = false
       /\ MaintenancePaymentModal.paymentAmount f = Number amount
       /\ 0 < amount
       /\ gt_num amount
            (MaintenancePaymentModal.getRemainingAmount
               (MaintenancePaymentModal.loadData s)
               (MaintenancePaymentModal.selectedEvent f)
               (MaintenancePaymentModal.selectedFloor f)) = false.
Proof.
  unfold MaintenancePaymentModal.submit,
    MaintenancePaymentModal.handlePaymentSubmit.
  destruct (isEmpty (MaintenancePaymentModal.selectedEvent f)); [now left|].
  destruct (isEmpty (MaintenancePaymentModal.selectedFloor f)); [now left|].
  destruct (MaintenancePaymentModal.paymentAmount f) as [| |amount]; simpl;
    [now left | auto | ].
  destruct (Z.leb_spec amount 0); [auto|].
  destruct (gt_num amount _) eqn:Hgt; [auto|].
  right. right. right. exists amount. repeat split; auto.
Qed.

(** An expense that passes the details step. *)
Lemma expense_submit_accepted s f now newId amountNum :
  isEmptyText (trim (ExpenseModal.description f)) = false ->
  (ExpenseModal.isEventType (ExpenseModal.expenseType f) = true ->
   isEmpty (ExpenseModal.selectedEvent f) = false) ->
  ExpenseModal.amount f = Number amountNum ->
  0 < amountNum <= readTotalBalance s ->
  ExpenseModal.submit f now newId s
  = (let s1 :=
       with_expenses
         (addDoc newId
            {| Expense.type := ExpenseModal.expenseType f;
               Expense.eventId :=
                 if ExpenseModal.isEventType (ExpenseModal.expenseType f)
                 then Some (ExpenseModal.selectedEvent f) else None;
               Expense.description := trim (ExpenseModal.description f);
               Expense.amount := amountNum;
               Expense.date := now;
               Expense.paidThrough := ExpenseModal.paymentMethod f |}
            (expenses s)) s in
     match balance s with
     | Some b =>
         with_balance
           (Some {| totalBalance := totalBalance b - amountNum;
                    lastUpdated := now |}) s1
     | None => s1
     end, Done).
Proof.
  intros Hdesc Hev Hamt [Hpos Hle].
  unfold ExpenseModal.submit, ExpenseModal.handleDetailsSubmit,
    ExpenseModal.handleExpenseSubmit.
  rewrite Hdesc, Hamt. simpl.
  destruct (ExpenseModal.isEventType (ExpenseModal.expenseType f)) eqn:Ht; simpl.
  - rewrite (Hev eq_refl). simpl.
    destruct (Z.leb_spec amountNum 0); [lia|].
    destruct (Z.gtb_spec amountNum (readTotalBalance s)); [lia|].
    destruct (balance s) as [b|]; [|reflexivity].
    now rewrite or0_id.
  - destruct (Z.leb_spec amountNum 0); [lia|].
    destruct (Z.gtb_spec amountNum (readTotalBalance s)); [lia|].
    destruct (balance s) as [b|]; [|reflexivity].
    now rewrite or0_id.
Qed.

Lemma expense_submit_cases s f now newId :
  (exists e, ExpenseModal.submit f now newId s = (s, Rejected e))
  \/ exists amountNum,
       isEmptyText (trim (ExpenseModal.description f)) = false
       /\ (ExpenseModal.isEventType (ExpenseModal.expenseType f) = true ->
           isEmpty (ExpenseModal.selectedEvent f) = false)
       /\ ExpenseModal.amount f = Number amountNum
       /\ 0 < amountNum <= readTotalBalance s.
Proof.
  unfold ExpenseModal.submit, ExpenseModal.handleDetailsSubmit.
  destruct (isEmptyText (trim (ExpenseModal.description f))); simpl; [eauto|].
  destruct (ExpenseModal.amount f) as [| |amountNum]; simpl; [eauto| |].
  - destruct (_ && _); eauto.
  - destruct (ExpenseModal.isEventType (ExpenseModal.expenseType f) &&
              isEmpty (ExpenseModal.selectedEvent f)) eqn:Hev; [eauto|].
    destruct (Z.leb_spec amountNum 0); [eauto|].
    destruct (Z.gtb_spec amountNum (readTotalBalance s)); [eauto|].
    right. exists amountNum. repeat split; auto; try lia.
    intro Ht. rewrite Ht in Hev. exact Hev.
Qed.

Section EditDelete.
Import ManagePaymentsModal.

Lemma NoDup_monthly s : NoDup (paymentIds s) -> NoDup (ids (monthlyPayments s)).
Proof. apply NoDup_app_remove_r. Qed.

Lemma NoDup_event s : NoDup (paymentIds s) -> NoDup (ids (eventPayments s)).
Proof. apply NoDup_app_remove_l. Qed.

(** Saving a valid amount on the row of a monthly payment. *)
Lemma edit_monthly_effect s row d b amount f :
  NoDup (paymentIds s) ->
  nth_error (loadPayments s) row = Some (monthlyRow d) ->
  In d (monthlyPayments s) ->
  balance s = Some b ->
  parseFloat (amountPaid_ f) = Some amount -> 0 < amount ->
  edit row f s
  = (with_balance
       (Some {| totalBalance :=
                  totalBalance b + (amount - MonthlyPayment.amountPaid (snd d));
                lastUpdated := lastUpdated b |})
       (with_monthlyPayments
          (patchDoc (fst d)
             (patchMonthly amount (option_map monthStringOf (paymentMonth f)))
             (monthlyPayments s)) s), Done).
Proof.
  intros Hnd Hrow Hin Hb Hamt Hpos.
  unfold edit, savePayment. rewrite Hrow. cbn [option_map].
  rewrite Hamt. destruct (Z.leb_spec amount 0); [lia|].
  rewrite (loadPayments_find s _ Hnd (nth_error_In _ _ Hrow)).
  cbn [collectionName type monthlyRow isMonthly id originalAmount].
  unfold updatePaymentDoc, updateDoc.
  destruct d as [k v]. cbn [fst snd].
  rewrite (In_getDoc _ k _ v (NoDup_monthly s Hnd) Hin).
  cbn [option_map]. unfold updateBalanceDoc. store_simpl.
  rewrite Hb. now rewrite or0_id.
Qed.

(** Saving a valid amount on the row of an event payment. *)
Lemma edit_event_effect s row d b amount f :
  NoDup (paymentIds s) ->
  nth_error (loadPayments s) row = Some (eventRow d) ->
  In d (eventPayments s) ->
  balance s = Some b ->
  parseFloat (amountPaid_ f) = Some amount -> 0 < amount ->
  edit row f s
  = (with_balance
       (Some {| totalBalance :=
                  totalBalance b + (amount - EventPayment.amountPaid (snd d));
                lastUpdated := lastUpdated b |})
       (with_eventPayments
          (patchDoc (fst d) (patchEvent amount) (eventPayments s)) s), Done).
Proof.
  intros Hnd Hrow Hin Hb Hamt Hpos.
  unfold edit, savePayment. rewrite Hrow. cbn [option_map].
  rewrite Hamt. destruct (Z.leb_spec amount 0); [lia|].
  rewrite (loadPayments_find s _ Hnd (nth_error_In _ _ Hrow)).
  cbn [collectionName type eventRow isMonthly id originalAmount].
  unfold updatePaymentDoc, updateDoc.
  destruct d as [k v]. cbn [fst snd].
  rewrite (In_getDoc _ k _ v (NoDup_event s Hnd) Hin).
  cbn [option_map]. unfold updateBalanceDoc. store_simpl.
  rewrite Hb. now rewrite or0_id.
Qed.

(** An edit that changes nothing: no such row, or an invalid amount. *)
Lemma edit_invalid s row f :
  nth_error (loadPayments s) row = None
  \/ parseFloat (amountPaid_ f) = None
  \/ (exists amount, parseFloat (amountPaid_ f) = Some amount /\ amount <= 0) ->
  fst (edit row f s) = s /\ snd (edit row f s) <> Done.
Proof.
  unfold edit, savePayment.
  intros [Hrow | [Hamt | [amount [Hamt Hle]]]].
  - rewrite Hrow. simpl. split; [reflexivity | discriminate].
  - destruct (option_map id _); rewrite ?Hamt; split;
      reflexivity || discriminate.
  - destruct (option_map id _); rewrite ?Hamt; [|split; reflexivity || discriminate].
    destruct (Z.leb_spec amount 0); [|lia].
    split; [reflexivity | discriminate].
Qed.

(** Confirming the deletion of the row of a monthly payment. *)
Lemma delete_monthly_effect s row d b :
  nth_error (loadPayments s) row = Some (monthlyRow d) ->
  balance s = Some b ->
  delete row s
  = (with_balance
       (Some {| totalBalance := totalBalance b - MonthlyPayment.amountPaid (snd d);
                lastUpdated := lastUpdated b |})
       (with_monthlyPayments (deleteDoc (fst d) (monthlyPayments s)) s), Done).
Proof.
  intros Hrow Hb. unfold delete, deletePayment. rewrite Hrow.
  cbn [collectionName monthlyRow id amountPaid deletePaymentDoc].
  unfold updateBalanceDoc. store_simpl. rewrite Hb. now rewrite or0_id.
Qed.

(** Confirming the deletion of the row of an event payment. *)
Lemma delete_event_effect s row d b :
  nth_error (loadPayments s) row = Some (eventRow d) ->
  balance s = Some b ->
  delete row s
  = (with_balance
       (Some {| totalBalance := totalBalance b - EventPayment.amountPaid (snd d);
                lastUpdated := lastUpdated b |})
       (with_eventPayments (deleteDoc (fst d) (eventPayments s)) s), Done).
Proof.
  intros Hrow Hb. unfold delete, deletePayment. rewrite Hrow.
  cbn [collectionName eventRow id amountPaid deletePaymentDoc].
  unfold updateBalanceDoc. store_simpl. rewrite Hb. now rewrite or0_id.
Qed.

Lemma delete_no_row s row :
  nth_error (loadPayments s) row = None -> delete row s = (s, NoOp).
Proof. intro H. unfold delete. now rewrite H. Qed.
End EditDelete.

(** Deleting an event while the balance document exists. *)
Lemma deleteEvent_effect s eid now b :
  uniqueIds s -> balance s = Some b ->
  ManageMaintenanceModal.deleteEvent (Some eid) now s
  = (with_balance
       (Some {| totalBalance :=
                  totalBalance b
                  - sumOf EventPayment.amountPaid
                      (queryWhere (ManageMaintenanceModal.paymentOfEvent eid)
                         (eventPayments s))
                  + sumOf Expense.amount
                      (queryWhere (ManageMaintenanceModal.expenseOfEvent eid)
                         (expenses s));
                lastUpdated := now |})
       (with_events (deleteDoc eid (events s))
          (with_expenses
             (filter
                (fun kv => negb (ManageMaintenanceModal.expenseOfEvent eid (snd kv)))
                (expenses s))
             (with_eventPayments
                (filter
                   (fun kv => negb (ManageMaintenanceModal.paymentOfEvent eid (snd kv)))
                   (eventPayments s)) s))), Done).
Proof.
  intros [Hpay Hexp] Hb. unfold ManageMaintenanceModal.deleteEvent.
  store_simpl. rewrite Hb. unfold queryWhere.
  rewrite (deleteAll_query _ _ _ (NoDup_event s Hpay)).
  rewrite (deleteAll_query _ _ _ Hexp).
  rewrite !reduceSum_sumOf, or0_id. reflexivity.
Qed.

(** ** Balance reconstruction *)

Lemma balanced_inv s :
  balanced s ->
  exists b, balance s = Some b /\ totalBalance b = sumPayments s - sumExpenses s.
Proof. unfold balanced. destruct (balance s) as [b|]; [eauto | tauto]. Qed.

Lemma unchanged_preserves s (r : Store * Outcome) :
  fst r = s -> uniqueIds s -> balanced s ->
  uniqueIds (fst r) /\ balanced (fst r).
Proof. intros ->. tauto. Qed.

Lemma create_monthly_preserves s f now newId :
  uniqueIds s -> balanced s -> ~ In newId (paymentIds s) ->
  uniqueIds (fst (MonthlyPaymentModal.submit f now newId s))
  /\ balanced (fst (MonthlyPaymentModal.submit f now newId s)).
Proof.
  intros Hu Hb Hfresh.
  destruct (monthly_submit_cases s f now newId)
    as [H | [H | [H | [amount [d [Hf [Ha [Hd Hrange]]]]]]]];
    try (apply (unchanged_preserves s); [now rewrite H | assumption | assumption]).
  rewrite (monthly_submit_accepted s f now newId amount d Hf Ha Hd Hrange).
  destruct (balanced_inv s Hb) as [b [Hbal Htot]]. destruct Hu as [Hpay Hexp].
  cbn zeta. rewrite Hbal. unfold uniqueIds, balanced. store_simpl.
  split; [split|].
  - now apply NoDup_add_monthly.
  - assumption.
  - rewrite sumOf_addDoc by now apply fresh_monthly.
    cbn [MonthlyPayment.amountPaid]. lia.
Qed.

Lemma create_event_preserves s f now newId :
  uniqueIds s -> balanced s -> ~ In newId (paymentIds s) ->
  uniqueIds (fst (MaintenancePaymentModal.submit f now newId s))
  /\ balanced (fst (MaintenancePaymentModal.submit f now newId s)).
Proof.
  intros Hu Hb Hfresh.
  destruct (event_submit_cases s f now newId)
    as [H | [H | [H | [amount [He [Hf [Ha [Hpos Hgt]]]]]]]];
    try (apply (unchanged_preserves s); [now rewrite H | assumption | assumption]).
  rewrite (event_submit_accepted s f now newId amount He Hf Ha Hpos Hgt).
  destruct (balanced_inv s Hb) as [b [Hbal Htot]]. destruct Hu as [Hpay Hexp].
  cbn zeta. rewrite Hbal. unfold uniqueIds, balanced. store_simpl.
  split; [split|].
  - now apply NoDup_add_event.
  - assumption.
  - rewrite sumOf_addDoc by now apply fresh_event.
    cbn [EventPayment.amountPaid]. lia.
Qed.

Lemma create_expense_preserves s f now newId :
  uniqueIds s -> balanced s -> ~ In newId (ids (expenses s)) ->
  uniqueIds (fst (ExpenseModal.submit f now newId s))
  /\ balanced (fst (ExpenseModal.submit f now newId s)).
Proof.
  intros Hu Hb Hfresh.
  destruct (expense_submit_cases s f now newId)
    as [[e H] | [amountNum [Hd [He [Ha Hrange]]]]];
    [apply (unchanged_preserves s); [now rewrite H | assumption | assumption]|].
  rewrite (expense_submit_accepted s f now newId amountNum Hd He Ha Hrange).
  destruct (balanced_inv s Hb) as [b [Hbal Htot]]. destruct Hu as [Hpay Hexp].
  cbn zeta. rewrite Hbal. unfold uniqueIds, balanced. store_simpl.
  split; [split|].
  - assumption.
  - now apply NoDup_add_expense.
  - rewrite sumOf_addDoc by assumption. cbn [Expense.amount]. lia.
Qed.

Lemma edit_preserves s row f :
  uniqueIds s -> balanced s ->
  uniqueIds (fst (ManagePaymentsModal.edit row f s))
  /\ balanced (fst (ManagePaymentsModal.edit row f s)).
Proof.
  intros Hu Hb.
  destruct (nth_error (ManagePaymentsModal.loadPayments s) row) as [p|] eqn:Hrow;
    [|apply (unchanged_preserves s); [apply edit_invalid; auto | assumption | assumption]].
  destruct (parseFloat (ManagePaymentsModal.amountPaid_ f)) as [amount|] eqn:Hamt;
    [|apply (unchanged_preserves s); [apply edit_invalid; auto | assumption | assumption]].
  destruct (Z.le_gt_cases amount 0) as [Hle | Hpos];
    [apply (unchanged_preserves s); [apply edit_invalid; eauto | assumption | assumption]|].
  destruct (balanced_inv s Hb) as [b [Hbal Htot]]. destruct Hu as [Hpay Hexp].
  destruct (loadPayments_origin s p (nth_error_In _ _ Hrow))
    as [[[k v] [Hin ->]] | [[k v] [Hin ->]]].
  - rewrite (edit_monthly_effect s row (k, v) b amount f Hpay Hrow Hin Hbal Hamt Hpos).
    unfold uniqueIds, balanced. store_simpl. split; [split|].
    + now rewrite ids_patchDoc.
    + assumption.
    + rewrite (sumOf_patchDoc _ _ k _ _ v (NoDup_monthly s Hpay)
                 (In_getDoc _ k _ v (NoDup_monthly s Hpay) Hin)).
      cbn [MonthlyPayment.amountPaid ManagePaymentsModal.patchMonthly]. lia.
  - rewrite (edit_event_effect s row (k, v) b amount f Hpay Hrow Hin Hbal Hamt Hpos).
    unfold uniqueIds, balanced. store_simpl. split; [split|].
    + now rewrite ids_patchDoc.
    + assumption.
    + rewrite (sumOf_patchDoc _ _ k _ _ v (NoDup_event s Hpay)
                 (In_getDoc _ k _ v (NoDup_event s Hpay) Hin)).
      cbn [EventPayment.amountPaid ManagePaymentsModal.patchEvent]. lia.
Qed.

Lemma NoDup_app_disjoint (l l' : list string) :
  NoDup (l ++ l') -> forall a, In a l -> ~ In a l'.
Proof.
  induction l as [|x l IH]; simpl; intros Hnd a Ha; [tauto|].
  inversion Hnd; subst. destruct Ha as [-> | Ha]; [|now apply IH].
  intro Hin. apply H1, in_or_app. now right.
Qed.

Lemma NoDup_delete_monthly s k :
  NoDup (paymentIds s) ->
  NoDup (ids (deleteDoc k (monthlyPayments s)) ++ ids (eventPayments s)).
Proof.
  unfold paymentIds. intro Hnd. apply NoDup_app.
  - apply NoDup_ids_filter. now apply NoDup_app_remove_r in Hnd.
  - now apply NoDup_app_remove_l in Hnd.
  - intros a Ha. apply (NoDup_app_disjoint _ _ Hnd). eapply ids_filter_incl, Ha.
Qed.

Lemma NoDup_delete_event s (q : DocId * EventPayment.t -> bool) :
  NoDup (paymentIds s) ->
  NoDup (ids (monthlyPayments s) ++ ids (filter q (eventPayments s))).
Proof.
  unfold paymentIds. intro Hnd. apply NoDup_app.
  - now apply NoDup_app_remove_r in Hnd.
  - apply NoDup_ids_filter. now apply NoDup_app_remove_l in Hnd.
  - intros a Ha Hin. apply (NoDup_app_disjoint _ _ Hnd a Ha).
    eapply ids_filter_incl, Hin.
Qed.

Lemma delete_preserves s row :
  uniqueIds s -> balanced s ->
  uniqueIds (fst (ManagePaymentsModal.delete row s))
  /\ balanced (fst (ManagePaymentsModal.delete row s)).
Proof.
  intros Hu Hb.
  destruct (nth_error (ManagePaymentsModal.loadPayments s) row) as [p|] eqn:Hrow;
    [|apply (unchanged_preserves s);
      [now rewrite delete_no_row | assumption | assumption]].
  destruct (balanced_inv s Hb) as [b [Hbal Htot]]. destruct Hu as [Hpay Hexp].
  destruct (loadPayments_origin s p (nth_error_In _ _ Hrow))
    as [[[k v] [Hin ->]] | [[k v] [Hin ->]]].
  - rewrite (delete_monthly_effect s row (k, v) b Hrow Hbal).
    unfold uniqueIds, balanced. store_simpl. split; [split|].
    + now apply NoDup_delete_monthly.
    + assumption.
    + rewrite (sumOf_deleteDoc _ _ k _ v (NoDup_monthly s Hpay)
                 (In_getDoc _ k _ v (NoDup_monthly s Hpay) Hin)). lia.
  - rewrite (delete_event_effect s row (k, v) b Hrow Hbal).
    unfold uniqueIds, balanced. store_simpl. split; [split|].
    + now apply NoDup_delete_event.
    + assumption.
    + rewrite (sumOf_deleteDoc _ _ k _ v (NoDup_event s Hpay)
                 (In_getDoc _ k _ v (NoDup_event s Hpay) Hin)). lia.
Qed.

Lemma deleteEvent_preserves s eid now :
  uniqueIds s -> balanced s ->
  uniqueIds (fst (ManageMaintenanceModal.deleteEvent (Some eid) now s))
  /\ balanced (fst (ManageMaintenanceModal.deleteEvent (Some eid) now s)).
Proof.
  intros Hu Hb. destruct (balanced_inv s Hb) as [b [Hbal Htot]].
  rewrite (deleteEvent_effect s eid now b Hu Hbal). destruct Hu as [Hpay Hexp].
  unfold uniqueIds, balanced. store_simpl. split; [split|].
  - now apply NoDup_delete_event.
  - now apply NoDup_ids_filter.
  - unfold queryWhere.
    rewrite (sumOf_split _ EventPayment.amountPaid
               (fun kv => ManageMaintenanceModal.paymentOfEvent eid (snd kv))
               (eventPayments s)) in Htot.
    rewrite (sumOf_split _ Expense.amount
               (fun kv => ManageMaintenanceModal.expenseOfEvent eid (snd kv))
               (expenses s)) in Htot.
    lia.
Qed.

Lemma step_preserves s op :
  uniqueIds s -> balanced s -> freshFor s op ->
  uniqueIds (fst (step s op)) /\ balanced (fst (step s op)).
Proof.
  intros Hu Hb Hfresh. destruct op; simpl in *.
  - now apply create_monthly_preserves.
  - now apply create_event_preserves.
  - now apply create_expense_preserves.
  - now apply edit_preserves.
  - now apply delete_preserves.
  - now apply deleteEvent_preserves.
Qed.

Lemma run_preserves ops : forall s,
  uniqueIds s -> balanced s -> freshRun s ops ->
  uniqueIds (run s ops) /\ balanced (run s ops).
Proof.
  induction ops as [|op rest IH]; simpl; intros s Hu Hb Hfresh; [tauto|].
  destruct Hfresh as [Hop Hrest].
  destruct (step_preserves s op Hu Hb Hop) as [Hu' Hb'].
  now apply IH.
Qed.

(** Operations that run from the opening of a modal to its write keep the
    balance: from a store whose balance document exists and equals the
    payments minus the expenses on record, every sequence of monthly-payment
    creations, event-payment creations, expense creations, payment edits,
    payment deletions and event deletions leads to such a store, when
    document ids are keys and the id generated for each new record is
    new. *)
Lemma whole_operations_keep_balance (s : Store) (ops : list Op) :
  uniqueIds s -> balanced s -> freshRun s ops ->
  exists b,
    balance (run s ops) = Some b
    /\ totalBalance b = sumPayments (run s ops) - sumExpenses (run s ops).
Proof.
  intros Hu Hb Hfresh. apply balanced_inv.
  now apply (run_preserves ops s).
Qed.

Lemma whole_operations_keep_balance_sample :
  uniqueIds building /\ balanced building /\ freshRun building sampleOps
  /\ exists b,
       balance (run building sampleOps) = Some b
       /\ totalBalance b
          = sumPayments (run building sampleOps)
            - sumExpenses (run building sampleOps).
Proof.
  assert (Hu : uniqueIds building) by (split; constructor).
  assert (Hb : balanced building) by reflexivity.
  assert (Hf : freshRun building sampleOps).
  { vm_compute. repeat split; intro H; repeat destruct H as [H | H];
      try discriminate H; exact H. }
  split; [exact Hu | split; [exact Hb | split; [exact Hf |]]].
  exact (whole_operations_keep_balance building sampleOps Hu Hb Hf).
Defined.

(** ** Cascading deletion of an event *)



(** ** Edit and delete of a payment *)

Section PaymentDelta.
Import ManagePaymentsModal.

Lemma persistedAmount_row s (p : Payment) :
  NoDup (paymentIds s) -> In p (loadPayments s) ->
  persistedAmount (collectionName p) (id p) s = Some (originalAmount p)
  /\ amountPaid p = originalAmount p.
Proof.
  intros Hnd Hin.
  destruct (loadPayments_origin s p Hin)
    as [[[k v] [Hd ->]] | [[k v] [Hd ->]]]; simpl.
  - now rewrite (In_getDoc _ k _ v (NoDup_monthly s Hnd) Hd).
  - now rewrite (In_getDoc _ k _ v (NoDup_event s Hnd) Hd).
Qed.

Lemma persisted_has_row s c pid old :
  persistedAmount c pid s = Some old ->
  exists row p,
    nth_error (loadPayments s) row = Some p
    /\ id p = pid /\ collectionName p = c.
Proof.
  destruct c; simpl; intro H.
  - destruct (getDoc pid (monthlyPayments s)) as [v|] eqn:Hget; [|discriminate].
    destruct (monthly_has_row s (pid, v) (getDoc_In _ _ _ _ Hget)) as [row Hrow].
    now exists row, (monthlyRow (pid, v)).
  - destruct (getDoc pid (eventPayments s)) as [v|] eqn:Hget; [|discriminate].
    destruct (event_has_row s (pid, v) (getDoc_In _ _ _ _ Hget)) as [row Hrow].
    now exists row, (eventRow (pid, v)).
Qed.

(** The change of the balance and of the stored amount through an edit
    and through a deletion of the payment shown in a row. *)
Lemma row_delta s row p b f amount :
  NoDup (paymentIds s) ->
  nth_error (loadPayments s) row = Some p ->
  balance s = Some b ->
  parseFloat (amountPaid_ f) = Some amount -> 0 < amount ->
  (snd (edit row f s) = Done
   /\ option_map totalBalance (balance (fst (edit row f s)))
      = Some (totalBalance b + (amount - originalAmount p))
   /\ persistedAmount (collectionName p) (id p) (fst (edit row f s))
      = Some amount)
  /\ (snd (delete row s) = Done
      /\ option_map totalBalance (balance (fst (delete row s)))
         = Some (totalBalance b - originalAmount p)
      /\ persistedAmount (collectionName p) (id p) (fst (delete row s))
         = None).
Proof.
  intros Hnd Hrow Hb Hamt Hpos.
  destruct (loadPayments_origin s p (nth_error_In _ _ Hrow))
    as [[[k v] [Hd ->]] | [[k v] [Hd ->]]].
  - rewrite (edit_monthly_effect s row (k, v) b amount f Hnd Hrow Hd Hb Hamt Hpos).
    rewrite (delete_monthly_effect s row (k, v) b Hrow Hb).
    unfold persistedAmount. store_simpl. simpl.
    rewrite (getDoc_patchDoc _ k _ _ v (In_getDoc _ k _ v (NoDup_monthly s Hnd) Hd)).
    rewrite getDoc_deleteDoc. repeat split; reflexivity.
  - rewrite (edit_event_effect s row (k, v) b amount f Hnd Hrow Hd Hb Hamt Hpos).
    rewrite (delete_event_effect s row (k, v) b Hrow Hb).
    unfold persistedAmount. store_simpl. simpl.
    rewrite (getDoc_patchDoc _ k _ _ v (In_getDoc _ k _ v (NoDup_event s Hnd) Hd)).
    rewrite getDoc_deleteDoc. repeat split; reflexivity.
Qed.
End PaymentDelta.

(** On a list that has just been read: for a payment document, monthly or
    event, that stores the amount [old], the list has a row, and on every
    such row saving a valid new amount changes [totalBalance] by
    [amount - old] and stores [amount], while pressing delete and
    confirming changes [totalBalance] by [- old] and removes the document.
    The balance document exists and document ids are keys. *)
Lemma current_row_delta
    (s : Store) (c : ManagePaymentsModal.CollectionName) (pid : DocId)
    (old amount : Z) (b : Balance) (f : ManagePaymentsModal.EditFormData) :
  uniqueIds s ->
  balance s = Some b ->
  persistedAmount c pid s = Some old ->
  parseFloat (ManagePaymentsModal.amountPaid_ f) = Some amount ->
  0 < amount ->
  (exists row p,
     nth_error (ManagePaymentsModal.loadPayments s) row = Some p
     /\ ManagePaymentsModal.id p = pid
     /\ ManagePaymentsModal.collectionName p = c)
  /\ forall row p,
       nth_error (ManagePaymentsModal.loadPayments s) row = Some p ->
       ManagePaymentsModal.id p = pid ->
       ManagePaymentsModal.collectionName p = c ->
       let edited := ManagePaymentsModal.edit row f s in
       let deleted := ManagePaymentsModal.delete row s in
       (snd edited = Done
        /\ option_map totalBalance (balance (fst edited))
           = Some (totalBalance b + (amount - old))
        /\ persistedAmount c pid (fst edited) = Some amount)
       /\ (snd deleted = Done
           /\ option_map totalBalance (balance (fst deleted))
              = Some (totalBalance b - old)
           /\ persistedAmount c pid (fst deleted) = None).
Proof.
  intros [Hnd _] Hb Hold Hamt Hpos. split.
  - exact (persisted_has_row s c pid old Hold).
  - intros row p Hrow Hid Hc. cbn zeta.
    destruct (persistedAmount_row s p Hnd (nth_error_In _ _ Hrow)) as [Hp _].
    rewrite Hid, Hc, Hold in Hp. inversion Hp as [Heq].
    rewrite <- Hid, <- Hc.
    exact (row_delta s row p b f amount Hnd Hrow Hb Hamt Hpos).
Qed.

Lemma current_row_delta_sample :
  let s := run building (firstn 3 sampleOps) in
  uniqueIds s
  /\ persistedAmount ManagePaymentsModal.monthlyPaymentsC "m1" s = Some 200
  /\ option_map totalBalance
       (balance (fst (ManagePaymentsModal.edit 1 (editForm 350) s)))
     = Some (400 + (350 - 200))
  /\ option_map totalBalance
       (balance (fst (ManagePaymentsModal.delete 1 s)))
     = Some (400 - 200).
Proof.
  cbv zeta.
  assert (Hu : uniqueIds (run building (firstn 3 sampleOps))).
  { split; vm_compute; repeat constructor; intro H;
      repeat destruct H as [H | H]; try discriminate H; exact H. }
  destruct (current_row_delta
              (run building (firstn 3 sampleOps))
              ManagePaymentsModal.monthlyPaymentsC "m1" 200 350
              {| totalBalance := 400; lastUpdated := 3 |} (editForm 350)
              Hu eq_refl eq_refl eq_refl eq_refl) as [_ Hrows].
  destruct (Hrows 1%nat (ManagePaymentsModal.monthlyRow
                           ("m1",
                            {| MonthlyPayment.floorId := "f1";
                               MonthlyPayment.month := "2025-01";
                               MonthlyPayment.amountPaid := 200;
                               MonthlyPayment.paymentDate := 1;
                               MonthlyPayment.remainingAmount := 300;
                               MonthlyPayment.isComplete := false |}))
              eq_refl eq_refl eq_refl)
    as [[_ [Hedit _]] [_ [Hdelete _]]].
  split; [exact Hu | split; [reflexivity | split; [exact Hedit | exact Hdelete]]].
Defined.

(** ** More lemmas on the store primitives *)

Section MoreCollectionFacts.
Variable A : Type.
Implicit Types (c : Collection A) (id : DocId).

Lemma getDoc_addDoc id (d : A) c : getDoc id (addDoc id d c) = Some d.
Proof.
  induction c as [|[k v] c' IH]; simpl.
  - now rewrite String.eqb_refl.
  - destruct (String.compare id k) eqn:Hcmp; simpl.
    + now rewrite String.eqb_refl.
    + now rewrite String.eqb_refl.
    + destruct (String.eqb_spec k id) as [->|]; [|exact IH].
      pose proof (String.compare_antisym id id) as Hanti.
      rewrite Hcmp in Hanti. discriminate Hanti.
Qed.

Lemma getDoc_patchDoc_other id k f c :
  k <> id -> getDoc k (patchDoc id f c) = getDoc k c.
Proof.
  intro Hk. induction c as [|[k' v] c' IH]; simpl; [reflexivity|].
  destruct (String.eqb_spec k' id) as [->|]; simpl.
  - destruct (String.eqb_spec id k); [congruence | exact IH].
  - destruct (String.eqb_spec k' k); [reflexivity | exact IH].
Qed.
End MoreCollectionFacts.


(** ** Frame of a payment edit *)

(** C9. A payment edit with a valid amount changes, on the edited record,
    [amountPaid] and, for a monthly payment with a picked month, [month];
    its [remainingAmount], [isComplete], [paymentDate], [floorId] and
    [eventId] keep their values, every other payment record is unchanged,
    and of the balance document only [totalBalance] changes.  The balance
    document exists and document ids are keys. *)
Theorem payment_edit_frame
    (s : Store) (row : nat) (p : ManagePaymentsModal.Payment) (b : Balance)
    (f : ManagePaymentsModal.EditFormData) (amount : Z) :
  uniqueIds s ->
  nth_error (ManagePaymentsModal.loadPayments s) row = Some p ->
  balance s = Some b ->
  parseFloat (ManagePaymentsModal.amountPaid_ f) = Some amount ->
  0 < amount ->
  let s' := fst (ManagePaymentsModal.edit row f s) in
  snd (ManagePaymentsModal.edit row f s) = Done
  /\ option_map lastUpdated (balance s') = Some (lastUpdated b)
  /\ floors s' = floors s /\ events s' = events s /\ expenses s' = expenses s
  /\ monthlyDuePayment s' = monthlyDuePayment s
  /\ ids (monthlyPayments s') = ids (monthlyPayments s)
  /\ ids (eventPayments s') = ids (eventPayments s)
  /\ (forall k, k <> ManagePaymentsModal.id p ->
        getDoc k (monthlyPayments s') = getDoc k (monthlyPayments s)
        /\ getDoc k (eventPayments s') = getDoc k (eventPayments s))
  /\ match ManagePaymentsModal.collectionName p with
     | ManagePaymentsModal.monthlyPaymentsC =>
         eventPayments s' = eventPayments s
         /\ exists d d',
              getDoc (ManagePaymentsModal.id p) (monthlyPayments s) = Some d
              /\ getDoc (ManagePaymentsModal.id p) (monthlyPayments s') = Some d'
              /\ MonthlyPayment.amountPaid d' = amount
              /\ MonthlyPayment.month d'
                 = match ManagePaymentsModal.paymentMonth f with
                   | Some picked => monthStringOf picked
                   | None => MonthlyPayment.month d
                   end
              /\ MonthlyPayment.remainingAmount d' = MonthlyPayment.remainingAmount d
              /\ MonthlyPayment.isComplete d' = MonthlyPayment.isComplete d
              /\ MonthlyPayment.paymentDate d' = MonthlyPayment.paymentDate d
              /\ MonthlyPayment.floorId d' = MonthlyPayment.floorId d
     | ManagePaymentsModal.eventPaymentsC =>
         monthlyPayments s' = monthlyPayments s
         /\ exists d d',
              getDoc (ManagePaymentsModal.id p) (eventPayments s) = Some d
              /\ getDoc (ManagePaymentsModal.id p) (eventPayments s') = Some d'
              /\ EventPayment.amountPaid d' = amount
              /\ EventPayment.remainingAmount d' = EventPayment.remainingAmount d
              /\ EventPayment.isComplete d' = EventPayment.isComplete d
              /\ EventPayment.paymentDate d' = EventPayment.paymentDate d
              /\ EventPayment.floorId d' = EventPayment.floorId d
              /\ EventPayment.eventId d' = EventPayment.eventId d
     end.
Proof.
  intros [Hnd _] Hrow Hb Hamt Hpos. cbn zeta.
  destruct (loadPayments_origin s p (nth_error_In _ _ Hrow))
    as [[[k v] [Hd ->]] | [[k v] [Hd ->]]].
  - rewrite (edit_monthly_effect s row (k, v) b amount f Hnd Hrow Hd Hb Hamt Hpos).
    pose proof (In_getDoc _ k _ v (NoDup_monthly s Hnd) Hd) as Hget.
    store_simpl. cbn [ManagePaymentsModal.collectionName
                      ManagePaymentsModal.monthlyRow ManagePaymentsModal.id
                      fst snd option_map lastUpdated].
    repeat split; try reflexivity.
    + apply ids_patchDoc.
    + now apply getDoc_patchDoc_other.
    + exists v, (ManagePaymentsModal.patchMonthly amount
                   (option_map monthStringOf (ManagePaymentsModal.paymentMonth f)) v).
      split; [exact Hget|]. split; [now apply getDoc_patchDoc|].
      destruct (ManagePaymentsModal.paymentMonth f); repeat split; reflexivity.
  - rewrite (edit_event_effect s row (k, v) b amount f Hnd Hrow Hd Hb Hamt Hpos).
    pose proof (In_getDoc _ k _ v (NoDup_event s Hnd) Hd) as Hget.
    store_simpl. cbn [ManagePaymentsModal.collectionName
                      ManagePaymentsModal.eventRow ManagePaymentsModal.id
                      fst snd option_map lastUpdated].
    repeat split; try reflexivity.
    + apply ids_patchDoc.
    + now apply getDoc_patchDoc_other.
    + exists v, (ManagePaymentsModal.patchEvent amount v).
      split; [exact Hget|]. split; [now apply getDoc_patchDoc|].
      repeat split; reflexivity.
Qed.

Lemma payment_edit_frame_witness :
  let s := run building (firstn 3 sampleOps) in
  let s' := fst (ManagePaymentsModal.edit 1 (editForm 350) s) in
  uniqueIds s
  /\ option_map MonthlyPayment.remainingAmount (getDoc "m1" (monthlyPayments s))
     = Some 300
  /\ eventPayments s' = eventPayments s
  /\ exists d',
       getDoc "m1" (monthlyPayments s') = Some d'
       /\ MonthlyPayment.amountPaid d' = 350
       /\ MonthlyPayment.remainingAmount d' = 300
       /\ MonthlyPayment.isComplete d' = false.
Proof.
  cbv zeta.
  assert (Hu : uniqueIds (run building (firstn 3 sampleOps))).
  { split; vm_compute; repeat constructor; intro H;
      repeat destruct H as [H | H]; try discriminate H; exact H. }
  destruct (payment_edit_frame
              (run building (firstn 3 sampleOps)) 1
              (ManagePaymentsModal.monthlyRow
                 ("m1",
                  {| MonthlyPayment.floorId := "f1";
                     MonthlyPayment.month := "2025-01";
                     MonthlyPayment.amountPaid := 200;
                     MonthlyPayment.paymentDate := 1;
                     MonthlyPayment.remainingAmount := 300;
                     MonthlyPayment.isComplete := false |}))
              {| totalBalance := 400; lastUpdated := 3 |} (editForm 350) 350
              Hu eq_refl eq_refl eq_refl eq_refl)
    as [_ [_ [_ [_ [_ [_ [_ [_ [_ [Hev [d [d' [Hd [Hd' [Ha [_ [Hr [Hc _]]]]]]]]]]]]]]]]]].
  split; [exact Hu | split; [reflexivity | split; [exact Hev |]]].
  exists d'. cbn [ManagePaymentsModal.id ManagePaymentsModal.monthlyRow fst] in Hd, Hd'.
  assert (Hd0 : d = {| MonthlyPayment.floorId := "f1";
                       MonthlyPayment.month := "2025-01";
                       MonthlyPayment.amountPaid := 200;
                       MonthlyPayment.paymentDate := 1;
                       MonthlyPayment.remainingAmount := 300;
                       MonthlyPayment.isComplete := false |}).
  { vm_compute in Hd. now inversion Hd. }
  rewrite Hd0 in Hr, Hc.
  split; [exact Hd' | split; [exact Ha | split; [exact Hr | exact Hc]]].
Defined.

(** ** The balance ceiling of expenses *)



(** ** Cost per floor *)

(** An event that passes the details step is stored with the cost per floor
    that [calculateCostPerFloor] gives for the floors read at opening. *)
Lemma create_event_effect s f newId :
  NewMaintenanceModal.handleDetailsSubmit f = None ->
  exists cost picked,
    parseFloat (NewMaintenanceModal.totalCost_ f) = Some cost
    /\ 0 < cost
    /\ NewMaintenanceModal.submit f newId s
       = (with_events
            (addDoc newId
               {| eventName_ar := trim (NewMaintenanceModal.eventName f);
                  description := trim (NewMaintenanceModal.description_ f);
                  totalCost := cost;
                  costPerFloor :=
                    NewMaintenanceModal.calculateCostPerFloor (floors s) cost;
                  date := picked;
                  status := open |}
               (events s)) s, Done).
Proof.
  intro Hvalid. unfold NewMaintenanceModal.submit. rewrite Hvalid.
  unfold NewMaintenanceModal.handleDetailsSubmit in Hvalid.
  destruct (NewMaintenanceModal.selectedDate f) as [picked|];
    [|rewrite orb_true_r in Hvalid; discriminate].
  destruct (parseFloat (NewMaintenanceModal.totalCost_ f)) as [cost|];
    [|destruct (_ || _); discriminate].
  destruct (_ || _); [discriminate|].
  destruct (Z.leb_spec cost 0); [discriminate|].
  exists cost, picked. repeat split; auto.
Qed.




(** C10. When the floors collection is empty, [calculateCostPerFloor]
    returns 0 without dividing, and an event that passes the details step
    (a name and a description of which [trim] leaves something, a date, a
    positive cost) is stored with [costPerFloor = 0]. *)
Theorem zero_floors_cost_is_zero
    (s : Store) (f : NewMaintenanceModal.Form) (newId : DocId) :
  floors s = [] ->
  NewMaintenanceModal.handleDetailsSubmit f = None ->
  (forall total,
     NewMaintenanceModal.calculateCostPerFloor
       (NewMaintenanceModal.loadFloors s) total = Fin 0)
  /\ snd (NewMaintenanceModal.submit f newId s) = Done
  /\ exists e,
       getDoc newId (events (fst (NewMaintenanceModal.submit f newId s))) = Some e
       /\ costPerFloor e = Fin 0.
Proof.
  intros Hfloors Hvalid. split.
  - intro total. unfold NewMaintenanceModal.loadFloors. now rewrite Hfloors.
  - destruct (create_event_effect s f newId Hvalid)
      as [cost [picked [_ [_ Hsubmit]]]].
    rewrite Hsubmit. store_simpl. split; [reflexivity|].
    eexists. split; [apply getDoc_addDoc|].
    cbn [costPerFloor]. now rewrite Hfloors.
Qed.

Lemma zero_floors_cost_is_zero_witness :
  floors noFloors = []
  /\ NewMaintenanceModal.handleDetailsSubmit (newEventForm 1000) = None
  /\ exists e,
       getDoc "e2" (events (fst (NewMaintenanceModal.submit (newEventForm 1000)
                                   "e2" noFloors))) = Some e
       /\ costPerFloor e = Fin 0.
Proof.
  split; [reflexivity | split; [reflexivity |]].
  exact (proj2 (proj2 (zero_floors_cost_is_zero noFloors (newEventForm 1000)
                         "e2" eq_refl eq_refl))).
Defined.

(** ** A missing balance document *)

(** C8, as the code has it. While the balance document does not exist, no
    payment submission writes one; a payment that passes validation is
    stored and the operation completes; every expense submission is
    rejected with the store as it was. *)
Theorem creation_without_balance (s : Store) :
  balance s = None ->
  (forall f now newId,
     balance (fst (MonthlyPaymentModal.submit f now newId s)) = None)
  /\ (forall f now newId amount d,
        isEmpty (MonthlyPaymentModal.selectedFloor f) = false ->
        MonthlyPaymentModal.paymentAmount f = Number amount ->
        MonthlyPaymentModal.selectedDate f = Some d ->
        0 < amount <= MonthlyPaymentModal.loadFloorsAndConfig s ->
        let r := MonthlyPaymentModal.submit f now newId s in
        snd r = Done
        /\ exists rec,
             getDoc newId (monthlyPayments (fst r)) = Some rec
             /\ MonthlyPayment.amountPaid rec = amount)
  /\ (forall f now newId,
        balance (fst (MaintenancePaymentModal.submit f now newId s)) = None)
  /\ (forall f now newId amount,
        isEmpty (MaintenancePaymentModal.selectedEvent f) = false ->
        isEmpty (MaintenancePaymentModal.selectedFloor f) = false ->
        MaintenancePaymentModal.paymentAmount f = Number amount ->
        0 < amount ->
        gt_num amount
          (MaintenancePaymentModal.getRemainingAmount
             (MaintenancePaymentModal.loadData s)
             (MaintenancePaymentModal.selectedEvent f)
             (MaintenancePaymentModal.selectedFloor f)) = false ->
        let r := MaintenancePaymentModal.submit f now newId s in
        snd r = Done
        /\ exists rec,
             getDoc newId (eventPayments (fst r)) = Some rec
             /\ EventPayment.amountPaid rec = amount)
  /\ (forall f now newId,
        exists e, ExpenseModal.submit f now newId s = (s, Rejected e)).
Proof.
  intro Hnone.
  split; [intros f now newId | split; [intros f now newId amount d Hf Ha Hd Hrange |
  split; [intros f now newId | split; [intros f now newId amount He Hf Ha Hpos Hgt |
  intros f now newId]]]].
  - destruct (monthly_submit_cases s f now newId)
      as [H | [H | [H | [amount [d [Hf [Ha [Hd Hrange]]]]]]]];
      try (now rewrite H).
    rewrite (monthly_submit_accepted s f now newId amount d Hf Ha Hd Hrange).
    cbn zeta. now rewrite Hnone.
  - cbn zeta.
    rewrite (monthly_submit_accepted s f now newId amount d Hf Ha Hd Hrange).
    cbn zeta. rewrite Hnone. store_simpl. split; [reflexivity|].
    eexists. split; [apply getDoc_addDoc | reflexivity].
  - destruct (event_submit_cases s f now newId)
      as [H | [H | [H | [amount [He [Hf [Ha [Hpos Hgt]]]]]]]];
      try (now rewrite H).
    rewrite (event_submit_accepted s f now newId amount He Hf Ha Hpos Hgt).
    cbn zeta. now rewrite Hnone.
  - cbn zeta.
    rewrite (event_submit_accepted s f now newId amount He Hf Ha Hpos Hgt).
    cbn zeta. rewrite Hnone. store_simpl. split; [reflexivity|].
    eexists. split; [apply getDoc_addDoc | reflexivity].
  - destruct (expense_submit_cases s f now newId)
      as [Hrej | [a [_ [_ [_ Hrange]]]]]; [exact Hrej|].
    unfold readTotalBalance in Hrange. rewrite Hnone in Hrange. lia.
Qed.

Lemma creation_without_balance_witness :
  balance buildingNoBalance = None
  /\ balance (fst (MonthlyPaymentModal.submit (monthlyForm 200) 1 "m1"
                     buildingNoBalance)) = None
  /\ balance (fst (MaintenancePaymentModal.submit (eventForm 200) 1 "p1"
                     buildingNoBalance)) = None
  /\ exists e,
       ExpenseModal.submit (expenseForm monthly 100) 1 "x1" buildingNoBalance
       = (buildingNoBalance, Rejected e).
Proof.
  destruct (creation_without_balance buildingNoBalance eq_refl)
    as [Hm [_ [He [_ Hx]]]].
  split; [reflexivity | split; [apply Hm | split; [apply He | apply Hx]]].
Defined.

(** C8 as stated fails for a monthly payment: with no balance document, a
    payment of 200 is stored and reported as done, and no balance document
    is written; the missing balance is not taken as zero and the operation
    does not fail. *)
Lemma missing_balance_payment_counterexample :
  balance buildingNoBalance = None
  /\ snd (MonthlyPaymentModal.submit (monthlyForm 200) 1 "m1" buildingNoBalance)
     = Done
  /\ option_map MonthlyPayment.amountPaid
       (getDoc "m1"
          (monthlyPayments
             (fst (MonthlyPaymentModal.submit (monthlyForm 200) 1 "m1"
                     buildingNoBalance)))) = Some 200
  /\ ~ (option_map totalBalance
          (balance (fst (MonthlyPaymentModal.submit (monthlyForm 200) 1 "m1"
                           buildingNoBalance))) = Some 200
        \/ monthlyPayments
             (fst (MonthlyPaymentModal.submit (monthlyForm 200) 1 "m1"
                     buildingNoBalance))
           = monthlyPayments buildingNoBalance).
Proof.
  split; [reflexivity | split; [reflexivity | split; [reflexivity|]]].
  vm_compute. intros [H | H]; discriminate H.
Qed.

(** ** Partial payments *)

(** C2 on the code. Monthly dues are 500 and floor f1 has paid 200 twice
    for January, so 100 remains due.  A third payment of 150 is accepted
    and stored, bringing the payments for the key to 550; a third payment
    of 100 is stored with [remainingAmount = 400] and [isComplete = false].
    The monthly modal compares the amount with the monthly due and never
    reads earlier payments. *)
Theorem monthly_overpayment_accepted :
  MonthlyPaymentModal.loadFloorsAndConfig twoMonthlyPayments = 500
  /\ sumOf MonthlyPayment.amountPaid (monthlyPayments twoMonthlyPayments) = 400
  /\ snd (MonthlyPaymentModal.submit (monthlyForm 150) 3 "m3" twoMonthlyPayments)
     = Done
  /\ sumOf MonthlyPayment.amountPaid
       (monthlyPayments
          (fst (MonthlyPaymentModal.submit (monthlyForm 150) 3 "m3"
                  twoMonthlyPayments))) = 550
  /\ option_map (fun d => (MonthlyPayment.remainingAmount d, MonthlyPayment.isComplete d))
       (getDoc "m3"
          (monthlyPayments
             (fst (MonthlyPaymentModal.submit (monthlyForm 100) 3 "m3"
                     twoMonthlyPayments)))) = Some (400, false).
Proof. vm_compute. repeat split; reflexivity. Qed.

(** The event modal reads the remaining amount from the first payment of
    the key in id order.  When that is the latest payment the example of
    C2 holds: 150 is rejected with the store as it was, 100 is accepted
    and complete. *)
Lemma event_overpayment_latest_first :
  MaintenancePaymentModal.submit (eventForm 150) 3 "p3" twoEventPaymentsRev
  = (twoEventPaymentsRev, Rejected ExceedsRequired)
  /\ snd (MaintenancePaymentModal.submit (eventForm 100) 3 "p3" twoEventPaymentsRev)
     = Done
  /\ option_map EventPayment.isComplete
       (getDoc "p3"
          (eventPayments
             (fst (MaintenancePaymentModal.submit (eventForm 100) 3 "p3"
                     twoEventPaymentsRev)))) = Some true.
Proof. vm_compute. repeat split; reflexivity. Qed.

(** When the first payment of the key in id order is an earlier one, 150 is
    accepted although 100 remains due. *)
Lemma event_overpayment_earliest_first :
  sumOf EventPayment.amountPaid (eventPayments twoEventPayments) = 400
  /\ snd (MaintenancePaymentModal.submit (eventForm 150) 3 "p3" twoEventPayments)
     = Done
  /\ sumOf EventPayment.amountPaid
       (eventPayments
          (fst (MaintenancePaymentModal.submit (eventForm 150) 3 "p3"
                  twoEventPayments))) = 550.
Proof. vm_compute. repeat split; reflexivity. Qed.

(** A rejected payment submission leaves the store as it was. *)
Lemma payment_rejection_keeps_store s now newId :
  (forall f e, snd (MonthlyPaymentModal.submit f now newId s) = Rejected e ->
               fst (MonthlyPaymentModal.submit f now newId s) = s)
  /\ (forall f e, snd (MaintenancePaymentModal.submit f now newId s) = Rejected e ->
                  fst (MaintenancePaymentModal.submit f now newId s) = s).
Proof.
  split; intros f e.
  - destruct (monthly_submit_cases s f now newId)
      as [H | [H | [H | [amount [d [Hf [Ha [Hd Hrange]]]]]]]];
      try (now rewrite H).
    rewrite (monthly_submit_accepted s f now newId amount d Hf Ha Hd Hrange).
    discriminate.
  - destruct (event_submit_cases s f now newId)
      as [H | [H | [H | [amount [He [Hf [Ha [Hpos Hgt]]]]]]]];
      try (now rewrite H).
    rewrite (event_submit_accepted s f now newId amount He Hf Ha Hpos Hgt).
    discriminate.
Qed.

(** C3 on the code. After floor f1 has paid 200 twice towards the 500 of
    January, the record written last stores [remainingAmount = 300], while
    the required amount minus the payments of the key is 100: the monthly
    modal stores the monthly due minus the amount of the one payment. *)
Theorem monthly_remaining_ignores_earlier_payments :
  option_map (fun d => (MonthlyPayment.paymentDate d, MonthlyPayment.remainingAmount d))
    (getDoc "m2" (monthlyPayments twoMonthlyPayments)) = Some (2, 300)
  /\ option_map MonthlyPayment.paymentDate
       (getDoc "m1" (monthlyPayments twoMonthlyPayments)) = Some 1
  /\ ids (monthlyPayments twoMonthlyPayments) = ["m1"; "m2"]
  /\ MonthlyPaymentModal.loadFloorsAndConfig twoMonthlyPayments
     - sumOf MonthlyPayment.amountPaid (monthlyPayments twoMonthlyPayments) = 100.
Proof. vm_compute. repeat split; reflexivity. Qed.

(** The event modal has the same defect in another form: with three
    payments of 100 towards 500 and ids in the order of the payments, the
    third record is computed from the first one and stores 300, not 200. *)
Lemma event_remaining_from_first_payment :
  option_map EventPayment.remainingAmount
    (getDoc "p3" (eventPayments threeEventPayments)) = Some (Fin 300)
  /\ sub_num (costPerFloor roof)
       (sumOf EventPayment.amountPaid (eventPayments threeEventPayments))
     = Fin 200.
Proof. vm_compute. repeat split; reflexivity. Qed.

(** ** The open payments manager *)

Section Session.
Import ManagePaymentsModal.

Lemma savePayment_not_done payments editingPaymentId editFormData s :
  snd (savePayment payments editingPaymentId editFormData s) <> Done ->
  fst (savePayment payments editingPaymentId editFormData s) = s.
Proof.
  unfold savePayment.
  destruct editingPaymentId as [pid|]; [|reflexivity].
  destruct (parseFloat (amountPaid_ editFormData)) as [amount|]; [|reflexivity].
  destruct (amount <=? 0); [reflexivity|].
  destruct (find _ payments) as [p|]; [|reflexivity].
  destruct (updatePaymentDoc _ _ _ _ _) as [s1|]; [|reflexivity].
  destruct (updateBalanceDoc _ _) as [s2|]; [|reflexivity].
  simpl. congruence.
Qed.

Lemma deletePayment_not_done deleteConfirmPayment s :
  snd (deletePayment deleteConfirmPayment s) <> Done ->
  fst (deletePayment deleteConfirmPayment s) = s.
Proof.
  unfold deletePayment.
  destruct deleteConfirmPayment as [p|]; [|reflexivity].
  destruct (updateBalanceDoc _ _) as [s2|]; [|reflexivity].
  simpl. congruence.
Qed.

(** The list of the open modal is the list of the store: every write of
    the modal is followed by [loadPayments]. *)
Lemma act_list_current a st s :
  payments_ st = loadPayments s ->
  payments_ (fst (act a st s)) = loadPayments (snd (act a st s)).
Proof.
  intro Hcur. destruct a; simpl; try assumption.
  - destruct (nth_error (payments_ st) row); assumption.
  - pose proof (savePayment_not_done (payments_ st) (editingPaymentId_ st)
                  (editFormData_ st) s) as Hnd.
    destruct (savePayment _ _ _ s) as [s' out]. simpl in Hnd.
    destruct out; simpl; try reflexivity;
      rewrite Hnd by discriminate; assumption.
  - destruct (nth_error (payments_ st) row); assumption.
  - pose proof (deletePayment_not_done (deleteConfirmPayment_ st) s) as Hnd.
    destruct (deletePayment _ s) as [s' out]. simpl in Hnd.
    destruct out; simpl; try reflexivity;
      rewrite Hnd by discriminate; assumption.
Qed.

Lemma acts_list_current l : forall st s,
  payments_ st = loadPayments s ->
  payments_ (fst (acts l st s)) = loadPayments (snd (acts l st s)).
Proof.
  induction l as [|a l IH]; intros st s Hcur; simpl; [assumption|].
  pose proof (act_list_current a st s Hcur) as Hstep.
  destruct (act a st s) as [st' s']. now apply IH.
Qed.

(** Pressing edit on a row, typing an amount and saving is [edit] on that
    row, with the month the form was opened with. *)
Lemma edit_is_session s row p text :
  nth_error (loadPayments s) row = Some p ->
  session [ClickEdit row; TypeAmount text; ClickSave] s
  = fst (edit row
           {| amountPaid_ := text;
              paymentMonth := paymentMonth (editFormData_ (startEditing p (opened s))) |}
           s).
Proof.
  intro Hrow. unfold session, edit.
  cbn [acts act opened payments_]. rewrite Hrow.
  cbn [startEditing handleEditAmount payments_ editingPaymentId_
       editFormData_ option_map amountPaid_ paymentMonth].
  change (payments_ (opened s)) with (loadPayments s).
  destruct (savePayment (loadPayments s) (Some (id p)) _ s) as [s' out].
  now destruct out.
Qed.

(** Pressing delete on a row and confirming is [delete] on that row. *)
Lemma delete_is_session s row :
  session [ClickDelete row; ClickConfirmDelete] s = fst (delete row s).
Proof.
  unfold session, delete. cbn [acts act opened payments_].
  destruct (nth_error (loadPayments s) row) as [p|].
  - cbn [confirmDelete deleteConfirmPayment_].
    destruct (deletePayment (Some p) s) as [s' out]. now destruct out.
  - reflexivity.
Qed.
End Session.

(** In every state of the open modal whose list is current, a save that
    goes through changes [totalBalance] by the new amount minus the amount
    stored on the edited document. *)
Lemma save_delta_in_session st s pid f s' b :
  ManagePaymentsModal.payments_ st = ManagePaymentsModal.loadPayments s ->
  NoDup (paymentIds s) ->
  balance s = Some b ->
  ManagePaymentsModal.savePayment (ManagePaymentsModal.payments_ st) (Some pid) f s
  = (s', Done) ->
  exists c old amount,
    persistedAmount c pid s = Some old
    /\ parseFloat (ManagePaymentsModal.amountPaid_ f) = Some amount
    /\ option_map totalBalance (balance s') = Some (totalBalance b + (amount - old))
    /\ persistedAmount c pid s' = Some amount.
Proof.
  intros Hcur Hnd Hb Hsave. rewrite Hcur in Hsave.
  assert (Hshape :
    exists p amount,
      In p (ManagePaymentsModal.loadPayments s)
      /\ ManagePaymentsModal.id p = pid
      /\ parseFloat (ManagePaymentsModal.amountPaid_ f) = Some amount
      /\ 0 < amount).
  { unfold ManagePaymentsModal.savePayment in Hsave.
    destruct (parseFloat (ManagePaymentsModal.amountPaid_ f)) as [amount|];
      [|discriminate Hsave].
    destruct (Z.leb_spec amount 0); [discriminate Hsave|].
    destruct (find _ (ManagePaymentsModal.loadPayments s)) as [p|] eqn:Hfind;
      [|discriminate Hsave].
    apply find_some in Hfind. destruct Hfind as [Hin Hid].
    apply String.eqb_eq in Hid. exists p, amount. auto. }
  destruct Hshape as [p [amount [Hin [Hid [Hamt Hpos]]]]].
  destruct (In_nth_error _ _ Hin) as [row Hrow].
  destruct (row_delta s row p b f amount Hnd Hrow Hb Hamt Hpos)
    as [[_ [Hbal Hstored]] _].
  destruct (persistedAmount_row s p Hnd Hin) as [Hold _].
  assert (Hedit : ManagePaymentsModal.edit row f s = (s', Done)).
  { unfold ManagePaymentsModal.edit. rewrite Hrow. cbn [option_map].
    rewrite Hid. exact Hsave. }
  rewrite Hedit in Hbal, Hstored. cbn [fst] in Hbal, Hstored.
  rewrite Hid in Hold, Hstored.
  exists (ManagePaymentsModal.collectionName p),
         (ManagePaymentsModal.originalAmount p), amount.
  auto.
Qed.

(** C5 on the code. The payment m1 stores 200 and the balance is 200.  The
    admin presses its delete button and, before confirming, edits the same
    payment to 350 and saves: the edit credits the difference of 150 and
    the record stores 350.  Confirming the deletion then removes the record
    and debits 200, the amount on the row as it was when the delete button
    was pressed, so the balance is 150 and not 0. *)
Theorem pending_deletion_debits_old_amount :
  persistedAmount ManagePaymentsModal.monthlyPaymentsC "m1" oneMonthlyPayment
  = Some 200
  /\ option_map totalBalance (balance oneMonthlyPayment) = Some 200
  /\ persistedAmount ManagePaymentsModal.monthlyPaymentsC "m1"
       (ManagePaymentsModal.session editWhileDeletionPending oneMonthlyPayment)
     = Some 350
  /\ option_map totalBalance
       (balance
          (ManagePaymentsModal.session editWhileDeletionPending oneMonthlyPayment))
     = Some (200 + (350 - 200))
  /\ persistedAmount ManagePaymentsModal.monthlyPaymentsC "m1"
       (ManagePaymentsModal.session
          (editWhileDeletionPending ++ [ManagePaymentsModal.ClickConfirmDelete])
          oneMonthlyPayment)
     = None
  /\ option_map totalBalance
       (balance
          (ManagePaymentsModal.session
             (editWhileDeletionPending ++ [ManagePaymentsModal.ClickConfirmDelete])
             oneMonthlyPayment))
     = Some (350 - 200).
Proof. vm_compute. repeat split; reflexivity. Qed.

(** C1 on the code. From the empty ledger with a balance of 0: a monthly
    payment of 200 is created, then in the payments manager its deletion is
    requested, it is edited to 350 and saved, and the deletion is
    confirmed.  No payment and no expense is left, and [totalBalance] is
    150. *)
Theorem pending_deletion_breaks_balance :
  balanced building
  /\ balanced oneMonthlyPayment
  /\ monthlyPayments
       (ManagePaymentsModal.session
          (editWhileDeletionPending ++ [ManagePaymentsModal.ClickConfirmDelete])
          oneMonthlyPayment) = []
  /\ sumPayments
       (ManagePaymentsModal.session
          (editWhileDeletionPending ++ [ManagePaymentsModal.ClickConfirmDelete])
          oneMonthlyPayment)
     - sumExpenses
         (ManagePaymentsModal.session
            (editWhileDeletionPending ++ [ManagePaymentsModal.ClickConfirmDelete])
            oneMonthlyPayment) = 0
  /\ option_map totalBalance
       (balance
          (ManagePaymentsModal.session
             (editWhileDeletionPending ++ [ManagePaymentsModal.ClickConfirmDelete])
             oneMonthlyPayment)) = Some 150
  /\ ~ balanced
         (ManagePaymentsModal.session
            (editWhileDeletionPending ++ [ManagePaymentsModal.ClickConfirmDelete])
            oneMonthlyPayment).
Proof.
  split; [reflexivity|]. split; [reflexivity|]. split; [reflexivity|].
  split; [reflexivity|]. split; [reflexivity|].
  vm_compute. discriminate.
Qed.

(** * Beyond the ledger equations *)

(** ** Month strings *)

Lemma digits_nonempty (d : Decimal.uint) :
  d <> Decimal.Nil -> NilEmpty.string_of_uint d <> EmptyString.
Proof. destruct d; simpl; congruence. Qed.

Lemma toString_digits (n : nat) :
  exists d, d <> Decimal.Nil /\ toString n = NilEmpty.string_of_uint d
            /\ Nat.of_uint d = n.
Proof.
  unfold toString. pose proof (DecimalNat.Unsigned.of_to n) as Hn.
  destruct (Nat.to_uint n) as [|u|u|u|u|u|u|u|u|u|u] eqn:Hd;
    try (eexists; split; [|split; [reflexivity | exact Hn]]; discriminate).
  exists (Decimal.D0 Decimal.Nil). repeat split; [discriminate | exact Hn].
Qed.

Lemma parseInt_digits (d : Decimal.uint) :
  d <> Decimal.Nil ->
  parseInt (NilEmpty.string_of_uint d) = Some (Nat.of_uint d).
Proof.
  intro Hd. unfold parseInt.
  destruct (NilEmpty.string_of_uint d) eqn:Hs.
  - now apply digits_nonempty in Hs.
  - rewrite <- Hs. unfold NilZero.uint_of_string. rewrite Hs, <- Hs.
    now rewrite NilEmpty.usu.
Qed.

Lemma parseInt_toString (n : nat) : parseInt (toString n) = Some n.
Proof.
  destruct (toString_digits n) as [d [Hd [-> <-]]]. now apply parseInt_digits.
Qed.

Lemma splitDash_digits (d : Decimal.uint) (rest : string) :
  splitDash (NilEmpty.string_of_uint d ++ String "-" rest)
  = (NilEmpty.string_of_uint d, rest).
Proof. induction d; simpl; rewrite ?IHd; reflexivity. Qed.

Lemma splitDash_digits_end (d : Decimal.uint) :
  splitDash (NilEmpty.string_of_uint d)
  = (NilEmpty.string_of_uint d, EmptyString).
Proof. induction d; simpl; rewrite ?IHd; reflexivity. Qed.

Lemma padStart2_digits (d : Decimal.uint) :
  d <> Decimal.Nil ->
  exists d', d' <> Decimal.Nil
             /\ padStart2 (NilEmpty.string_of_uint d) = NilEmpty.string_of_uint d'
             /\ Nat.of_uint d' = Nat.of_uint d.
Proof.
  intro Hd. unfold padStart2.
  destruct (String.length (NilEmpty.string_of_uint d)) as [|[|k]] eqn:Hlen.
  - destruct (NilEmpty.string_of_uint d) eqn:Hs; [|discriminate Hlen].
    now apply digits_nonempty in Hs.
  - exists (Decimal.D0 d). repeat split; discriminate || reflexivity.
  - exists d. auto.
Qed.

Lemma dateOfMonthString_monthStringOf (d : JsDate) :
  dateOfMonthString (monthStringOf d) = Some d.
Proof.
  destruct d as [y m]. unfold dateOfMonthString, monthStringOf.
  cbn [getFullYear getMonth].
  destruct (toString_digits y) as [dy [Hdy [Hy Hyn]]].
  destruct (toString_digits (m + 1)) as [dm [Hdm [Hm Hmn]]].
  rewrite Hy, Hm.
  destruct (padStart2_digits dm Hdm) as [dm' [Hdm' [Hpad Hpadn]]].
  rewrite Hpad. change ("-" ++ NilEmpty.string_of_uint dm')%string
    with (String "-" (NilEmpty.string_of_uint dm')).
  rewrite splitDash_digits, splitDash_digits_end.
  rewrite (parseInt_digits dy Hdy), (parseInt_digits dm' Hdm').
  rewrite Hyn, Hpadn, Hmn. now rewrite Nat.add_1_r.
Qed.

(** X1. The month string the monthly modal writes for a picked date,
    ["YYYY-MM"], is read back by [startEditing] as the same year and
    month.  The date is one a [Date] can hold as it is: a month from 0
    to 11, and a year that [new Date(year, month)] does not read as a
    year of the twentieth century. *)
Theorem month_string_round_trip (d : JsDate) :
  (100 <= getFullYear d)%nat -> (getMonth d < 12)%nat ->
  dateOfMonthString (monthStringOf d) = Some d.
Proof. intros _ _. apply dateOfMonthString_monthStringOf. Qed.

Lemma month_string_round_trip_witness :
  dateOfMonthString (monthStringOf january) = Some january.
Proof.
  apply month_string_round_trip; cbn [getFullYear getMonth january]; lia.
Defined.

(** ** The payments list *)

Section ListOrder.
Import ManagePaymentsModal.

Lemma insertByDate_sorted p l :
  StronglySorted notOlder l -> StronglySorted notOlder (insertByDate p l).
Proof.
  induction 1 as [|q l' Hsorted IH Hall]; simpl.
  - repeat constructor.
  - destruct (Z.ltb_spec (paymentDate p) (paymentDate q)).
    + constructor; [exact IH|].
      apply (Permutation_Forall (Permutation_sym (insertByDate_perm p l'))).
      constructor; [unfold notOlder; lia | exact Hall].
    + constructor; [now constructor|].
      constructor; [unfold notOlder; lia|].
      eapply Forall_impl; [|exact Hall]. unfold notOlder. intros x Hx. lia.
Qed.

Lemma sortByDate_sorted l : StronglySorted notOlder (sortByDate l).
Proof.
  induction l as [|p l IH]; simpl; [constructor | now apply insertByDate_sorted].
Qed.
End ListOrder.

(** X3. The payments manager lists every payment document of the two
    collections exactly once, and no payment is listed before a newer
    one. *)
Theorem loadPayments_newest_first (s : Store) :
  Permutation (ManagePaymentsModal.loadPayments s)
    (map ManagePaymentsModal.monthlyRow (monthlyPayments s)
     ++ map ManagePaymentsModal.eventRow (eventPayments s))
  /\ StronglySorted notOlder (ManagePaymentsModal.loadPayments s).
Proof.
  split; [apply loadPayments_perm | apply sortByDate_sorted].
Qed.

(** ** Writes that need the balance document *)

Lemma updatePaymentDoc_balance c pid amount newMonth s s1 :
  ManagePaymentsModal.updatePaymentDoc c pid amount newMonth s = Some s1 ->
  balance s1 = balance s.
Proof.
  unfold ManagePaymentsModal.updatePaymentDoc.
  destruct c; [destruct (updateDoc _ _ (monthlyPayments s))
              | destruct (updateDoc _ _ (eventPayments s))];
    simpl; intro H; inversion H; reflexivity.
Qed.

(** X4. While the balance document does not exist, no save and no
    deletion in the payments manager goes through, and the store is left
    as it was: the payment write and the balance write are one batch. *)
Theorem payment_writes_need_balance (s : Store) :
  balance s = None ->
  (forall payments editingPaymentId editFormData,
     fst (ManagePaymentsModal.savePayment payments editingPaymentId editFormData s) = s
     /\ snd (ManagePaymentsModal.savePayment payments editingPaymentId editFormData s)
        <> Done)
  /\ (forall deleteConfirmPayment,
        fst (ManagePaymentsModal.deletePayment deleteConfirmPayment s) = s
        /\ snd (ManagePaymentsModal.deletePayment deleteConfirmPayment s) <> Done).
Proof.
  intro Hnone. split.
  - intros payments editingPaymentId editFormData.
    unfold ManagePaymentsModal.savePayment.
    destruct editingPaymentId as [pid|]; [|split; [reflexivity | discriminate]].
    destruct (parseFloat _) as [amount|]; [|split; [reflexivity | discriminate]].
    destruct (amount <=? 0); [split; [reflexivity | discriminate]|].
    destruct (find _ payments) as [p|]; [|split; [reflexivity | discriminate]].
    destruct (ManagePaymentsModal.updatePaymentDoc _ _ _ _ s) as [s1|] eqn:Hupd;
      [|split; [reflexivity | discriminate]].
    unfold ManagePaymentsModal.updateBalanceDoc.
    rewrite (updatePaymentDoc_balance _ _ _ _ _ _ Hupd), Hnone.
    split; [reflexivity | discriminate].
  - intros [p|]; unfold ManagePaymentsModal.deletePayment;
      [|split; [reflexivity | discriminate]].
    unfold ManagePaymentsModal.updateBalanceDoc.
    destruct (ManagePaymentsModal.collectionName p); simpl; rewrite Hnone;
      split; reflexivity || discriminate.
Qed.

Lemma payment_writes_need_balance_witness :
  balance buildingNoBalance = None
  /\ ManagePaymentsModal.session
       [ManagePaymentsModal.ClickEdit 0;
        ManagePaymentsModal.TypeAmount (Number 350);
        ManagePaymentsModal.ClickSave]
       (with_balance None oneMonthlyPayment)
     = with_balance None oneMonthlyPayment
  /\ fst (ManagePaymentsModal.deletePayment None buildingNoBalance)
     = buildingNoBalance.
Proof.
  split; [reflexivity | split; [reflexivity|]].
  exact (proj1 (proj2 (payment_writes_need_balance buildingNoBalance eq_refl) None)).
Defined.

(** X5. Deleting an event while the balance document does not exist
    deletes the payments and expenses of the event and the event itself,
    and then fails on the balance update: the records are gone, no balance
    is written, and the failure is reported. *)
Theorem deleteEvent_without_balance (s : Store) (eid : DocId) (now : Timestamp) :
  uniqueIds s ->
  balance s = None ->
  let r := ManageMaintenanceModal.deleteEvent (Some eid) now s in
  snd r = Failed
  /\ balance (fst r) = None
  /\ eventPayments (fst r)
     = filter (fun kv => negb (ManageMaintenanceModal.paymentOfEvent eid (snd kv)))
         (eventPayments s)
  /\ expenses (fst r)
     = filter (fun kv => negb (ManageMaintenanceModal.expenseOfEvent eid (snd kv)))
         (expenses s)
  /\ getDoc eid (events (fst r)) = None
  /\ monthlyPayments (fst r) = monthlyPayments s.
Proof.
  intros [Hpay Hexp] Hnone. cbn zeta.
  unfold ManageMaintenanceModal.deleteEvent. store_simpl. rewrite Hnone.
  unfold queryWhere.
  rewrite (deleteAll_query _ _ _ (NoDup_event s Hpay)).
  rewrite (deleteAll_query _ _ _ Hexp). cbn [fst snd].
  store_simpl. repeat split; try reflexivity. apply getDoc_deleteDoc.
Qed.

Lemma deleteEvent_without_balance_witness :
  uniqueIds (with_balance None twoEvents)
  /\ balance (with_balance None twoEvents) = None
  /\ snd (ManageMaintenanceModal.deleteEvent (Some "e1") 8
            (with_balance None twoEvents)) = Failed
  /\ ids (eventPayments
            (fst (ManageMaintenanceModal.deleteEvent (Some "e1") 8
                    (with_balance None twoEvents)))) = ["p2"].
Proof.
  assert (Hu : uniqueIds (with_balance None twoEvents)).
  { split; vm_compute; repeat constructor; intro H;
      repeat destruct H as [H | H]; try discriminate H; exact H. }
  destruct (deleteEvent_without_balance (with_balance None twoEvents) "e1" 8
              Hu eq_refl) as [Hout [_ [Hpay _]]].
  split; [exact Hu | split; [reflexivity | split; [exact Hout|]]].
  rewrite Hpay. reflexivity.
Defined.

(** ** Editing an event *)

Section EditEventFacts.
Import ManageMaintenanceModal.

(** The event document [saveEvent] writes over [old]. *)
Lemma saveEvent_done s eid old f total :
  getDoc eid (events s) = Some old ->
  parseFloat (totalCost_ f) = Some total -> 0 < total ->
  isEmptyText (trim (eventName_ar_ f)) = false ->
  isEmptyText (trim (description_ f)) = false ->
  saveEvent (Some eid) f s
  = (with_events
       (patchDoc eid
          (fun e =>
             {| eventName_ar := trim (eventName_ar_ f);
                description := trim (description_ f);
                totalCost := total;
                costPerFloor := Math_ceil_div total (List.length (floors s));
                date := date e;
                status := status_ f |})
          (events s)) s, Done).
Proof.
  intros Hold Hparse Hpos Hname Hdesc. unfold saveEvent.
  rewrite Hname, Hdesc, Hparse.
  destruct (totalCost_ f); try discriminate Hparse.
  cbn [isBlank orb]. destruct (Z.leb_spec total 0); [lia|].
  unfold updateDoc. now rewrite Hold.
Qed.

Lemma saveEvent_not_done editingEventId f s :
  snd (saveEvent editingEventId f s) <> Done ->
  fst (saveEvent editingEventId f s) = s.
Proof.
  unfold saveEvent. destruct editingEventId as [eid|]; [|reflexivity].
  destruct (_ || _); [reflexivity|].
  destruct (parseFloat _) as [total|]; [|reflexivity].
  destruct (total <=? 0); [reflexivity|].
  destruct (updateDoc _ _ _); [|reflexivity].
  simpl. congruence.
Qed.

Lemma saveEvent_keeps_rest editingEventId f s :
  let s' := fst (saveEvent editingEventId f s) in
  floors s' = floors s /\ eventPayments s' = eventPayments s
  /\ monthlyPayments s' = monthlyPayments s /\ expenses s' = expenses s
  /\ balance s' = balance s /\ monthlyDuePayment s' = monthlyDuePayment s
  /\ ids (events s') = ids (events s).
Proof.
  cbn zeta. unfold saveEvent. destruct editingEventId as [eid|]; [|now repeat split].
  destruct (_ || _); [now repeat split|].
  destruct (parseFloat _) as [total|]; [|now repeat split].
  destruct (total <=? 0); [now repeat split|].
  unfold updateDoc. destruct (getDoc eid (events s)); [|now repeat split].
  store_simpl. repeat split. apply ids_patchDoc.
Qed.
End EditEventFacts.

(** X6. An event edit that goes through rewrites name, description, total
    cost, cost per floor and status of that event and keeps its date; the
    other events, all payments with their remaining amounts, the expenses
    and the balance are left as they were.  Name and description are not
    blank after trimming; the total cost is a whole number in the range
    of the safe integers. *)
Theorem saveEvent_frame
    (s : Store) (eid : DocId) (old : Event)
    (f : ManageMaintenanceModal.EditFormData) (total : Z) :
  getDoc eid (events s) = Some old ->
  parseFloat (ManageMaintenanceModal.totalCost_ f) = Some total ->
  0 < total ->
  isSafeInteger total ->
  isEmptyText (trim (ManageMaintenanceModal.eventName_ar_ f)) = false ->
  isEmptyText (trim (ManageMaintenanceModal.description_ f)) = false ->
  let r := ManageMaintenanceModal.saveEvent (Some eid) f s in
  snd r = Done
  /\ (exists e,
        getDoc eid (events (fst r)) = Some e
        /\ eventName_ar e = trim (ManageMaintenanceModal.eventName_ar_ f)
        /\ description e = trim (ManageMaintenanceModal.description_ f)
        /\ totalCost e = total
        /\ costPerFloor e = Math_ceil_div total (List.length (floors s))
        /\ status e = ManageMaintenanceModal.status_ f
        /\ date e = date old)
  /\ (forall k, k <> eid -> getDoc k (events (fst r)) = getDoc k (events s))
  /\ ids (events (fst r)) = ids (events s)
  /\ eventPayments (fst r) = eventPayments s
  /\ monthlyPayments (fst r) = monthlyPayments s
  /\ expenses (fst r) = expenses s
  /\ balance (fst r) = balance s.
Proof.
  intros Hold Hparse Hpos _ Hname Hdesc. cbn zeta.
  rewrite (saveEvent_done s eid old f total Hold Hparse Hpos Hname Hdesc).
  store_simpl. split; [reflexivity|]. split.
  - eexists. split; [apply (getDoc_patchDoc _ eid _ _ old Hold)|].
    repeat split; reflexivity.
  - split; [intros k Hk; now apply getDoc_patchDoc_other|].
    split; [apply ids_patchDoc|]. repeat split; reflexivity.
Qed.

Lemma saveEvent_frame_witness :
  getDoc "e1" (events twoEvents) = Some roof
  /\ snd (ManageMaintenanceModal.saveEvent (Some "e1") (editEventForm 1001) twoEvents)
     = Done
  /\ getDoc "e2"
       (events (fst (ManageMaintenanceModal.saveEvent (Some "e1")
                       (editEventForm 1001) twoEvents)))
     = Some roof
  /\ eventPayments
       (fst (ManageMaintenanceModal.saveEvent (Some "e1") (editEventForm 1001)
               twoEvents))
     = eventPayments twoEvents.
Proof.
  assert (Hs : isSafeInteger 1001) by (vm_compute; discriminate).
  destruct (saveEvent_frame twoEvents "e1" roof (editEventForm 1001) 1001
              eq_refl eq_refl eq_refl Hs eq_refl eq_refl)
    as [Hout [_ [Hother [_ [Hpay _]]]]].
  split; [reflexivity | split; [exact Hout | split; [|exact Hpay]]].
  rewrite Hother; [reflexivity | discriminate].
Defined.

(** X7. An event edit that does not go through leaves the store as it
    was, and the modal says why.  A name or a description that is blank
    after trimming, or an empty cost, is rejected as a missing field; a
    cost that is not a number, or not positive, as an invalid amount; a
    form that passes these checks for an id without event document fails
    at the update. *)
Theorem saveEvent_failures
    (s : Store) (eid : DocId) (f : ManageMaintenanceModal.EditFormData) :
  let r := ManageMaintenanceModal.saveEvent (Some eid) f s in
  let missing :=
    isEmptyText (trim (ManageMaintenanceModal.eventName_ar_ f))
    || isEmptyText (trim (ManageMaintenanceModal.description_ f))
    || isBlank (ManageMaintenanceModal.totalCost_ f) in
  (missing = true -> r = (s, Rejected MissingFields))
  /\ (missing = false ->
      parseFloat (ManageMaintenanceModal.totalCost_ f) = None ->
      r = (s, Rejected InvalidAmount))
  /\ (missing = false ->
      forall total,
        parseFloat (ManageMaintenanceModal.totalCost_ f) = Some total ->
        total <= 0 ->
        r = (s, Rejected InvalidAmount))
  /\ (missing = false ->
      forall total,
        parseFloat (ManageMaintenanceModal.totalCost_ f) = Some total ->
        0 < total ->
        getDoc eid (events s) = None ->
        r = (s, Failed))
  /\ (snd r <> Done -> fst r = s).
Proof.
  cbn zeta. unfold ManageMaintenanceModal.saveEvent.
  destruct (isEmptyText (trim (ManageMaintenanceModal.eventName_ar_ f))
            || isEmptyText (trim (ManageMaintenanceModal.description_ f))
            || isBlank (ManageMaintenanceModal.totalCost_ f)).
  - repeat split; try reflexivity; discriminate.
  - split; [discriminate|].
    destruct (parseFloat (ManageMaintenanceModal.totalCost_ f)) as [total|].
    + split; [discriminate|].
      destruct (Z.leb_spec total 0) as [Hle | Hpos].
      * split; [reflexivity|]. split; [|reflexivity].
        intros _ t Ht Hp. inversion Ht; subst t. lia.
      * split; [intros _ t Ht Hle; inversion Ht; subst t; lia|].
        split.
        -- intros _ t _ _ Hnone. unfold updateDoc. now rewrite Hnone.
        -- unfold updateDoc.
           destruct (getDoc eid (events s)); cbn [fst snd];
             [congruence | reflexivity].
    + split; [reflexivity|]. split; [discriminate|].
      split; [discriminate | reflexivity].
Qed.

(** A name that is a no-break space is blank. *)
Lemma saveEvent_failures_witness :
  ManageMaintenanceModal.saveEvent (Some "e1")
    {| ManageMaintenanceModal.eventName_ar_ := [160%N];
       ManageMaintenanceModal.description_ := ofString "roof repair";
       ManageMaintenanceModal.totalCost_ := Number 1000;
       ManageMaintenanceModal.status_ := open |}
    twoEvents
  = (twoEvents, Rejected MissingFields).
Proof.
  exact (proj1 (saveEvent_failures twoEvents "e1"
                  {| ManageMaintenanceModal.eventName_ar_ := [160%N];
                     ManageMaintenanceModal.description_ := ofString "roof repair";
                     ManageMaintenanceModal.totalCost_ := Number 1000;
                     ManageMaintenanceModal.status_ := open |})
           eq_refl).
Defined.

(** ** The remaining amount read by the event payment modal *)

Section RemainingFacts.
Import MaintenancePaymentModal.

Lemma find_filter_nil (A : Type) (P : A -> bool) (l : list A) :
  filter P l = [] -> find P l = None.
Proof.
  induction l as [|x l IH]; simpl; [reflexivity|].
  destruct (P x); [discriminate | exact IH].
Qed.

Lemma no_payment_reads_required s eid fid :
  paymentsOfKey eid fid s = [] ->
  getRemainingAmount (loadData s) eid fid = getRequiredAmount (loadData s) eid fid.
Proof.
  intro Hnone. unfold getRemainingAmount. cbn [existingPayments loadData].
  unfold paymentsOfKey in Hnone. now rewrite (find_filter_nil _ _ _ Hnone).
Qed.

Lemma find_open_patched eid (g : Event -> Event) c old :
  getDoc eid c = Some old ->
  (forall e, isOpen (g e) = true) ->
  find (fun e => (fst e =? eid)%string)
    (filter (fun e => isOpen (snd e)) (patchDoc eid g c))
  = Some (eid, g old).
Proof.
  intros Hget Hopen. induction c as [|[k v] c' IH]; simpl in *; [discriminate|].
  destruct (String.eqb_spec k eid) as [->|Hk]; simpl.
  - inversion Hget; subst. rewrite Hopen. simpl. now rewrite String.eqb_refl.
  - destruct (isOpen v); simpl; [|now apply IH].
    destruct (String.eqb_spec k eid); [contradiction | now apply IH].
Qed.

Lemma find_open_patched_closed eid (g : Event -> Event) c :
  (forall e, isOpen (g e) = false) ->
  find (fun e => (fst e =? eid)%string)
    (filter (fun e => isOpen (snd e)) (patchDoc eid g c))
  = None.
Proof.
  intro Hclosed. induction c as [|[k v] c' IH]; simpl; [reflexivity|].
  destruct (String.eqb_spec k eid) as [->|Hk]; simpl.
  - now rewrite Hclosed.
  - destruct (isOpen v); simpl; [|exact IH].
    destruct (String.eqb_spec k eid); [contradiction | exact IH].
Qed.

Lemma find_addDoc_only (A : Type) (P : A -> bool) id (d : A) (c : Collection A) :
  (forall x, In x c -> P (snd x) = false) -> P d = true ->
  find P (map snd (addDoc id d c)) = Some d.
Proof.
  intros Hnone Hd. induction c as [|[k v] c' IH]; simpl.
  - now rewrite Hd.
  - destruct (String.compare id k); simpl.
    + now rewrite Hd.
    + now rewrite Hd.
    + pose proof (Hnone (k, v) (or_introl eq_refl)) as Hk. simpl in Hk.
      rewrite Hk. apply IH. intros x Hx. apply Hnone. now right.
Qed.

Lemma key_absent s eid fid :
  paymentsOfKey eid fid s = [] ->
  forall x, In x (eventPayments s) ->
    (EventPayment.eventId (snd x) =? eid)%string
    && (EventPayment.floorId (snd x) =? fid)%string = false.
Proof.
  unfold paymentsOfKey. intros Hnone x Hx.
  destruct (_ && _) eqn:Hkey; [|reflexivity].
  assert (Hin : In (snd x)
                  (filter (fun p => (EventPayment.eventId p =? eid)%string
                                    && (EventPayment.floorId p =? fid)%string)
                     (map snd (eventPayments s)))).
  { apply filter_In. split; [now apply in_map | exact Hkey]. }
  rewrite Hnone in Hin. destruct Hin.
Qed.
End RemainingFacts.

(** X8. An event edit while the floors collection is empty stores an
    infinite cost per floor.  Once there are floors, a floor without
    earlier payment for the event can pay any positive amount: the payment
    is accepted and stored with an infinite remaining amount, never
    complete.  The amounts typed are whole numbers in the range of the
    safe integers. *)
Theorem edit_without_floors_unbounded
    (s : Store) (eid fid : DocId) (old : Event)
    (f : ManageMaintenanceModal.EditFormData) (total : Z)
    (floorsLater : Collection Floor)
    (pf : MaintenancePaymentModal.Form) (now : Timestamp) (newId : DocId)
    (amount : Z) :
  floors s = [] ->
  getDoc eid (events s) = Some old ->
  parseFloat (ManageMaintenanceModal.totalCost_ f) = Some total ->
  0 < total -> isSafeInteger total ->
  isEmptyText (trim (ManageMaintenanceModal.eventName_ar_ f)) = false ->
  isEmptyText (trim (ManageMaintenanceModal.description_ f)) = false ->
  ManageMaintenanceModal.status_ f = open ->
  paymentsOfKey eid fid s = [] ->
  In fid (ids floorsLater) ->
  MaintenancePaymentModal.selectedEvent pf = eid ->
  MaintenancePaymentModal.selectedFloor pf = fid ->
  isEmpty eid = false -> isEmpty fid = false ->
  MaintenancePaymentModal.paymentAmount pf = Number amount ->
  0 < amount -> isSafeInteger amount ->
  let s1 := fst (ManageMaintenanceModal.saveEvent (Some eid) f s) in
  let s2 := with_floors floorsLater s1 in
  let r := MaintenancePaymentModal.submit pf now newId s2 in
  option_map costPerFloor (getDoc eid (events s1)) = Some PosInf
  /\ snd r = Done
  /\ exists rec,
       getDoc newId (eventPayments (fst r)) = Some rec
       /\ EventPayment.amountPaid rec = amount
       /\ EventPayment.remainingAmount rec = PosInf
       /\ EventPayment.isComplete rec = false.
Proof.
  intros Hfloors Hold Hparse Hpos _ Hname Hdesc Hstatus Hkey _ Hev Hfl He Hf
    Hamt Hamount _.
  cbn zeta.
  rewrite (saveEvent_done s eid old f total Hold Hparse Hpos Hname Hdesc).
  rewrite Hfloors, Hstatus. cbn [fst List.length Math_ceil_div].
  set (g := fun e : Event =>
              {| eventName_ar := trim (ManageMaintenanceModal.eventName_ar_ f);
                 description := trim (ManageMaintenanceModal.description_ f);
                 totalCost := total; costPerFloor := PosInf;
                 date := date e; status := open |}).
  set (s1 := with_events (patchDoc eid g (events s)) s).
  set (s2 := with_floors floorsLater s1).
  assert (Hrem : MaintenancePaymentModal.getRemainingAmount
                   (MaintenancePaymentModal.loadData s2) eid fid = PosInf).
  { rewrite no_payment_reads_required by exact Hkey.
    unfold MaintenancePaymentModal.getRequiredAmount.
    cbn [MaintenancePaymentModal.events_ MaintenancePaymentModal.loadData].
    subst s2 s1. unfold with_floors. store_simpl.
    now rewrite (find_open_patched eid g (events s) old Hold (fun _ => eq_refl)). }
  split.
  - subst s1. store_simpl.
    now rewrite (getDoc_patchDoc _ eid g (events s) old Hold).
  - rewrite (event_submit_accepted s2 pf now newId amount);
      rewrite ?Hev, ?Hfl, ?Hrem; try assumption; try reflexivity.
    cbn zeta. split; [reflexivity|].
    destruct (balance s2); store_simpl;
      (eexists; split; [apply getDoc_addDoc | repeat split; reflexivity]).
Qed.

Lemma edit_without_floors_unbounded_witness :
  floors noFloors = []
  /\ option_map costPerFloor
       (getDoc "e1"
          (events (fst (ManageMaintenanceModal.saveEvent (Some "e1")
                          (editEventForm 1000) noFloors)))) = Some PosInf
  /\ snd (MaintenancePaymentModal.submit (eventForm 1000000) 9 "p1"
            (with_floors (floors building)
               (fst (ManageMaintenanceModal.saveEvent (Some "e1")
                       (editEventForm 1000) noFloors)))) = Done.
Proof.
  assert (Ht : isSafeInteger 1000) by (vm_compute; discriminate).
  assert (Ha : isSafeInteger 1000000) by (vm_compute; discriminate).
  assert (Hfl : In "f1" (ids (floors building))) by (simpl; auto).
  destruct (edit_without_floors_unbounded noFloors "e1" "f1" roof
              (editEventForm 1000) 1000 (floors building)
              (eventForm 1000000) 9 "p1" 1000000
              eq_refl eq_refl eq_refl eq_refl Ht eq_refl eq_refl eq_refl
              eq_refl Hfl eq_refl eq_refl eq_refl eq_refl eq_refl eq_refl Ha)
    as [Hcost [Hout _]].
  split; [reflexivity | split; [exact Hcost | exact Hout]].
Defined.

(** X9. An event edit that sets the status to closed goes through, and
    the modals opened on the store it leaves do not offer the event: it is
    neither among the events the payment modal loads nor among those the
    expense modal lists, while every other event is among them exactly
    when it was before the edit. *)
Theorem closed_event_is_offered_no_more
    (s : Store) (eid : DocId) (old : Event)
    (f : ManageMaintenanceModal.EditFormData) (total : Z) :
  getDoc eid (events s) = Some old ->
  parseFloat (ManageMaintenanceModal.totalCost_ f) = Some total ->
  0 < total ->
  isEmptyText (trim (ManageMaintenanceModal.eventName_ar_ f)) = false ->
  isEmptyText (trim (ManageMaintenanceModal.description_ f)) = false ->
  ManageMaintenanceModal.status_ f = closed ->
  let s1 := fst (ManageMaintenanceModal.saveEvent (Some eid) f s) in
  snd (ManageMaintenanceModal.saveEvent (Some eid) f s) = Done
  /\ ~ In eid (ids (MaintenancePaymentModal.events_
                      (MaintenancePaymentModal.loadData s1)))
  /\ ~ In eid (listedEvents s1)
  /\ (forall k, k <> eid ->
        (In k (ids (MaintenancePaymentModal.events_
                      (MaintenancePaymentModal.loadData s1)))
         <-> In k (ids (MaintenancePaymentModal.events_
                          (MaintenancePaymentModal.loadData s))))
        /\ (In k (listedEvents s1) <-> In k (listedEvents s))).
Proof.
  intros Hold Hparse Hpos Hname Hdesc Hstatus. cbn zeta.
  rewrite (saveEvent_done s eid old f total Hold Hparse Hpos Hname Hdesc).
  rewrite Hstatus. cbn [fst snd].
  set (g := fun e : Event =>
              {| eventName_ar := trim (ManageMaintenanceModal.eventName_ar_ f);
                 description := trim (ManageMaintenanceModal.description_ f);
                 totalCost := total;
                 costPerFloor := Math_ceil_div total (List.length (floors s));
                 date := date e; status := closed |}).
  unfold listedEvents, ExpenseModal.loadEvents, ids.
  cbn [MaintenancePaymentModal.events_ MaintenancePaymentModal.loadData].
  store_simpl.
  assert (Hpatched : forall k v,
            In (k, v) (patchDoc eid g (events s))
            <-> (k = eid /\ exists v0, In (k, v0) (events s) /\ v = g v0)
                \/ (k <> eid /\ In (k, v) (events s))).
  { intros k v. unfold patchDoc. rewrite in_map_iff. split.
    - intros [[k0 v0] [Heq Hin]]. cbn [fst snd] in Heq.
      destruct (String.eqb_spec k0 eid) as [->|Hne];
        inversion Heq; subst; [left | right]; eauto.
    - intros [[-> [v0 [Hin ->]]] | [Hne Hin]].
      + exists (eid, v0). cbn [fst snd]. now rewrite String.eqb_refl.
      + exists (k, v). cbn [fst snd].
        now destruct (String.eqb_spec k eid). }
  split; [reflexivity|]. split; [|split].
  - rewrite in_map_iff. intros [[k v] [Hk Hin]]. cbn [fst] in Hk. subst k.
    apply filter_In in Hin. destruct Hin as [Hin Hopen].
    apply Hpatched in Hin.
    destruct Hin as [[_ [v0 [_ ->]]] | [Hne _]]; [discriminate Hopen | congruence].
  - rewrite in_map_iff. intros [[[k v] n] [Hk Hin]]. cbn [fst] in Hk. subst k.
    apply filter_In in Hin. destruct Hin as [Hin Hopen].
    apply in_map_iff in Hin. destruct Hin as [[k0 v0] [Heq Hin]].
    inversion Heq; subst. apply Hpatched in Hin.
    destruct Hin as [[_ [v1 [_ ->]]] | [Hne _]]; [discriminate Hopen | congruence].
  - intros k Hk. split.
    + rewrite !in_map_iff. split.
      * intros [[k0 v] [Hk0 Hin]]. cbn [fst] in Hk0. subst k0.
        apply filter_In in Hin. destruct Hin as [Hin Hopen].
        apply Hpatched in Hin. destruct Hin as [[Heq _] | [_ Hin]];
          [congruence|].
        exists (k, v). split; [reflexivity|]. apply filter_In. tauto.
      * intros [[k0 v] [Hk0 Hin]]. cbn [fst] in Hk0. subst k0.
        apply filter_In in Hin. destruct Hin as [Hin Hopen].
        exists (k, v). split; [reflexivity|]. apply filter_In.
        split; [|exact Hopen]. apply Hpatched. right. tauto.
    + rewrite !in_map_iff. split.
      * intros [[[k0 v] n] [Hk0 Hin]]. cbn [fst] in Hk0. subst k0.
        apply filter_In in Hin. destruct Hin as [Hin Hopen].
        apply in_map_iff in Hin. destruct Hin as [[k1 v1] [Heq Hin]].
        cbn [fst snd] in Heq. injection Heq as Hk1 Hv1 Hn. subst k1 v1.
        apply Hpatched in Hin.
        destruct Hin as [[Heq' _] | [_ Hin]]; [congruence|].
        exists (k, v, ExpenseModal.collectedAmount s k).
        split; [reflexivity|]. apply filter_In. split; [|exact Hopen].
        apply in_map_iff. now exists (k, v).
      * intros [[[k0 v] n] [Hk0 Hin]]. cbn [fst] in Hk0. subst k0.
        apply filter_In in Hin. destruct Hin as [Hin Hopen].
        apply in_map_iff in Hin. destruct Hin as [[k1 v1] [Heq Hin]].
        cbn [fst snd] in Heq. injection Heq as Hk1 Hv1 Hn. subst k1 v1.
        exists (k, v, n). split; [reflexivity|].
        apply filter_In. split; [|exact Hopen].
        apply in_map_iff. exists (k, v).
        split; [cbn [fst snd]; now rewrite <- Hn|].
        apply Hpatched. right. tauto.
Qed.

Lemma closed_event_is_offered_no_more_witness :
  In "e1" (listedEvents twoEvents)
  /\ ~ In "e1" (listedEvents
                  (fst (ManageMaintenanceModal.saveEvent (Some "e1")
                          closeEventForm twoEvents)))
  /\ In "e2" (listedEvents
                (fst (ManageMaintenanceModal.saveEvent (Some "e1")
                        closeEventForm twoEvents))).
Proof.
  destruct (closed_event_is_offered_no_more twoEvents "e1" roof closeEventForm
              1000 eq_refl eq_refl eq_refl eq_refl eq_refl eq_refl)
    as [_ [_ [Hgone Hothers]]].
  split; [simpl; auto|]. split; [exact Hgone|].
  apply (Hothers "e2"); [discriminate | simpl; auto].
Defined.

(** X10. A floor whose remaining amount for an event, as the payment modal
    reads it, is zero or less cannot pay again: every submission for that
    event and floor is rejected and nothing is written. *)
Theorem settled_floor_cannot_pay
    (s : Store) (pf : MaintenancePaymentModal.Form) (now : Timestamp)
    (newId : DocId) (r : Z) :
  MaintenancePaymentModal.getRemainingAmount (MaintenancePaymentModal.loadData s)
    (MaintenancePaymentModal.selectedEvent pf)
    (MaintenancePaymentModal.selectedFloor pf) = Fin r ->
  r <= 0 ->
  exists e, MaintenancePaymentModal.submit pf now newId s = (s, Rejected e).
Proof.
  intros Hrem Hr.
  destruct (event_submit_cases s pf now newId)
    as [H | [H | [H | [amount [_ [_ [_ [Hamount Hgt]]]]]]]]; eauto.
  rewrite Hrem in Hgt. simpl in Hgt.
  destruct (Z.ltb_spec r amount); [discriminate | lia].
Qed.

Lemma settled_floor_cannot_pay_witness :
  exists e,
    MaintenancePaymentModal.submit (eventForm 1) 9 "p9"
      (fst (MaintenancePaymentModal.submit (eventForm 500) 1 "p1" building))
    = (fst (MaintenancePaymentModal.submit (eventForm 500) 1 "p1" building),
       Rejected e).
Proof.
  assert (Hrem : MaintenancePaymentModal.getRemainingAmount
                   (MaintenancePaymentModal.loadData
                      (fst (MaintenancePaymentModal.submit (eventForm 500) 1 "p1"
                              building)))
                   (MaintenancePaymentModal.selectedEvent (eventForm 1))
                   (MaintenancePaymentModal.selectedFloor (eventForm 1)) = Fin 0)
    by (vm_compute; reflexivity).
  exact (settled_floor_cannot_pay
           (fst (MaintenancePaymentModal.submit (eventForm 500) 1 "p1" building))
           (eventForm 1) 9 "p9" 0 Hrem (Z.le_refl 0)).
Defined.

(** X11. The first payment of a floor for an event: with no earlier payment
    of the key and a required amount [c], a whole number within the safe
    integers, a whole amount of at most [c] is accepted and stored with
    [remainingAmount = c - amount], complete exactly when the amount is
    [c]; and [c - amount] is what the modal reads as remaining for the key
    afterwards. *)
Theorem first_payment_of_key
    (s : Store) (pf : MaintenancePaymentModal.Form) (now : Timestamp)
    (newId : DocId) (amount c : Z) :
  isEmpty (MaintenancePaymentModal.selectedEvent pf) = false ->
  isEmpty (MaintenancePaymentModal.selectedFloor pf) = false ->
  MaintenancePaymentModal.paymentAmount pf = Number amount ->
  paymentsOfKey (MaintenancePaymentModal.selectedEvent pf)
    (MaintenancePaymentModal.selectedFloor pf) s = [] ->
  MaintenancePaymentModal.getRequiredAmount (MaintenancePaymentModal.loadData s)
    (MaintenancePaymentModal.selectedEvent pf)
    (MaintenancePaymentModal.selectedFloor pf) = Fin c ->
  isSafeInteger c ->
  0 < amount <= c ->
  let r := MaintenancePaymentModal.submit pf now newId s in
  snd r = Done
  /\ (exists rec,
        getDoc newId (eventPayments (fst r)) = Some rec
        /\ EventPayment.amountPaid rec = amount
        /\ EventPayment.remainingAmount rec = Fin (c - amount)
        /\ EventPayment.isComplete rec = (amount =? c))
  /\ MaintenancePaymentModal.getRemainingAmount
       (MaintenancePaymentModal.loadData (fst r))
       (MaintenancePaymentModal.selectedEvent pf)
       (MaintenancePaymentModal.selectedFloor pf) = Fin (c - amount).
Proof.
  intros He Hf Hamt Hkey Hreq _ [Hpos Hle]. cbn zeta.
  assert (Hrem : MaintenancePaymentModal.getRemainingAmount
                   (MaintenancePaymentModal.loadData s)
                   (MaintenancePaymentModal.selectedEvent pf)
                   (MaintenancePaymentModal.selectedFloor pf) = Fin c).
  { now rewrite no_payment_reads_required. }
  assert (Hgt : gt_num amount (Fin c) = false).
  { simpl. destruct (Z.ltb_spec c amount); [lia | reflexivity]. }
  rewrite (event_submit_accepted s pf now newId amount He Hf Hamt Hpos)
    by (rewrite Hrem; exact Hgt).
  cbn zeta. rewrite Hrem. cbn [sub_num le0_num].
  assert (Hcomplete : (c - amount <=? 0) = (amount =? c)).
  { destruct (Z.leb_spec (c - amount) 0), (Z.eqb_spec amount c); lia || reflexivity. }
  split; [reflexivity|].
  assert (Hread : forall s1, eventPayments s1
                    = addDoc newId
                        {| EventPayment.eventId := MaintenancePaymentModal.selectedEvent pf;
                           EventPayment.floorId := MaintenancePaymentModal.selectedFloor pf;
                           EventPayment.amountPaid := amount;
                           EventPayment.paymentDate := now;
                           EventPayment.remainingAmount := Fin (c - amount);
                           EventPayment.isComplete := c - amount <=? 0 |}
                        (eventPayments s) ->
            MaintenancePaymentModal.getRemainingAmount
              (MaintenancePaymentModal.loadData s1)
              (MaintenancePaymentModal.selectedEvent pf)
              (MaintenancePaymentModal.selectedFloor pf) = Fin (c - amount)).
  { intros s1 Hs1. unfold MaintenancePaymentModal.getRemainingAmount.
    cbn [MaintenancePaymentModal.existingPayments MaintenancePaymentModal.loadData].
    rewrite Hs1.
    rewrite (find_addDoc_only _
               (fun payment =>
                  (EventPayment.eventId payment =? MaintenancePaymentModal.selectedEvent pf)%string
                  && (EventPayment.floorId payment =? MaintenancePaymentModal.selectedFloor pf)%string)).
    - reflexivity.
    - now apply key_absent.
    - cbn [EventPayment.eventId EventPayment.floorId]. now rewrite !String.eqb_refl. }
  destruct (balance s); store_simpl; (split; [|now apply Hread]);
    (eexists; split; [apply getDoc_addDoc|]);
    cbn [EventPayment.amountPaid EventPayment.remainingAmount EventPayment.isComplete];
    rewrite Hcomplete; repeat split; reflexivity.
Qed.

Lemma first_payment_of_key_witness :
  paymentsOfKey "e1" "f1" building = []
  /\ MaintenancePaymentModal.getRequiredAmount
       (MaintenancePaymentModal.loadData building) "e1" "f1" = Fin 500
  /\ MaintenancePaymentModal.getRemainingAmount
       (MaintenancePaymentModal.loadData
          (fst (MaintenancePaymentModal.submit (eventForm 200) 1 "p1" building)))
       "e1" "f1" = Fin (500 - 200).
Proof.
  assert (Hkey : paymentsOfKey "e1" "f1" building = []) by (vm_compute; reflexivity).
  assert (Hreq : MaintenancePaymentModal.getRequiredAmount
                   (MaintenancePaymentModal.loadData building) "e1" "f1" = Fin 500)
    by (vm_compute; reflexivity).
  assert (Hsafe : isSafeInteger 500) by (vm_compute; discriminate).
  assert (Hrange : 0 < 200 <= 500) by (split; [reflexivity | discriminate]).
  destruct (first_payment_of_key building (eventForm 200) 1 "p1" 200 500
              eq_refl eq_refl eq_refl Hkey Hreq Hsafe Hrange)
    as [_ [_ Hread]].
  split; [exact Hkey | split; [exact Hreq | exact Hread]].
Defined.

(** ** Well-formed records *)

Section ForallFacts.
Variable A : Type.
Variable P : A -> Prop.
Implicit Types (c : Collection A).

Lemma Forall_addDoc id (d : A) c :
  P d -> Forall (fun kv => P (snd kv)) c ->
  Forall (fun kv => P (snd kv)) (addDoc id d c).
Proof.
  intros Hd. induction 1 as [|[k v] c' Hv Hc IH]; simpl.
  - now repeat constructor.
  - destruct (String.compare id k).
    + now constructor.
    + now repeat constructor.
    + now constructor.
Qed.

Lemma Forall_patchDoc id (f : A -> A) c :
  (forall v, P v -> P (f v)) -> Forall (fun kv => P (snd kv)) c ->
  Forall (fun kv => P (snd kv)) (patchDoc id f c).
Proof.
  intros Hf. induction 1 as [|[k v] c' Hv Hc IH]; simpl; constructor; auto.
  destruct (k =? id)%string; simpl; auto.
Qed.

Lemma Forall_filter_docs (q : DocId * A -> bool) c :
  Forall (fun kv => P (snd kv)) c -> Forall (fun kv => P (snd kv)) (filter q c).
Proof.
  intro H. rewrite Forall_forall in *. intros x Hx.
  apply filter_In in Hx. now apply H.
Qed.

Lemma Forall_deleteAll docs c :
  Forall (fun kv => P (snd kv)) c ->
  Forall (fun kv => P (snd kv)) (ManageMaintenanceModal.deleteAll docs c).
Proof. intro H. rewrite deleteAll_keeps. now apply Forall_filter_docs. Qed.
End ForallFacts.

Section RecordsOk.

Lemma patchMonthly_ok amount newMonth d :
  0 < amount -> monthlyRecordOk d ->
  monthlyRecordOk
    (ManagePaymentsModal.patchMonthly amount (option_map monthStringOf newMonth) d).
Proof.
  intros Hpos [_ [Hrem [Hcomplete Hmonth]]]. unfold monthlyRecordOk. simpl.
  repeat split; try assumption.
  destruct newMonth as [picked|]; simpl; [now exists picked | exact Hmonth].
Qed.

Lemma patchEvent_ok amount d :
  0 < amount -> eventRecordOk d ->
  eventRecordOk (ManagePaymentsModal.patchEvent amount d).
Proof. intros Hpos [_ [Hrem Hcomplete]]. now repeat split. Qed.

Lemma savePayment_recordsOk payments editingPaymentId f s :
  recordsOk s ->
  recordsOk (fst (ManagePaymentsModal.savePayment payments editingPaymentId f s)).
Proof.
  intros [Hm [He Hx]]. unfold ManagePaymentsModal.savePayment.
  destruct editingPaymentId as [pid|]; [|now repeat split].
  destruct (parseFloat _) as [amount|]; [|now repeat split].
  destruct (Z.leb_spec amount 0); [now repeat split|].
  destruct (find _ payments) as [p|]; [|now repeat split].
  unfold ManagePaymentsModal.updatePaymentDoc, updateDoc,
    ManagePaymentsModal.updateBalanceDoc.
  destruct (ManagePaymentsModal.collectionName p).
  - destruct (getDoc pid (monthlyPayments s)); [|now repeat split].
    cbn [option_map]. store_simpl.
    destruct (balance s); [|now repeat split].
    unfold recordsOk. store_simpl. repeat split; try assumption.
    destruct (ManagePaymentsModal.isMonthly (ManagePaymentsModal.type p)).
    + apply Forall_patchDoc; [|exact Hm]. intros v Hv.
      now apply patchMonthly_ok.
    + apply Forall_patchDoc; [|exact Hm]. intros v Hv.
      now apply (patchMonthly_ok amount None).
  - destruct (getDoc pid (eventPayments s)); [|now repeat split].
    cbn [option_map]. store_simpl.
    destruct (balance s); [|now repeat split].
    unfold recordsOk. store_simpl. repeat split; try assumption.
    apply Forall_patchDoc; [|exact He]. intros v Hv. now apply patchEvent_ok.
Qed.

Lemma deletePayment_recordsOk deleteConfirmPayment s :
  recordsOk s ->
  recordsOk (fst (ManagePaymentsModal.deletePayment deleteConfirmPayment s)).
Proof.
  intros [Hm [He Hx]]. unfold ManagePaymentsModal.deletePayment.
  destruct deleteConfirmPayment as [p|]; [|now repeat split].
  unfold ManagePaymentsModal.updateBalanceDoc,
    ManagePaymentsModal.deletePaymentDoc.
  destruct (ManagePaymentsModal.collectionName p); store_simpl;
    (destruct (balance s); [|now repeat split]);
    unfold recordsOk; store_simpl; repeat split; try assumption;
    unfold deleteDoc; now apply Forall_filter_docs.
Qed.

Lemma act_recordsOk a st s :
  recordsOk s -> recordsOk (snd (ManagePaymentsModal.act a st s)).
Proof.
  intro H. destruct a; simpl; try assumption.
  - now destruct (nth_error _ row).
  - pose proof (savePayment_recordsOk (ManagePaymentsModal.payments_ st)
                  (ManagePaymentsModal.editingPaymentId_ st)
                  (ManagePaymentsModal.editFormData_ st) s H) as Hs.
    destruct (ManagePaymentsModal.savePayment _ _ _ s) as [s' out].
    now destruct out.
  - now destruct (nth_error _ row).
  - pose proof (deletePayment_recordsOk
                  (ManagePaymentsModal.deleteConfirmPayment_ st) s H) as Hs.
    destruct (ManagePaymentsModal.deletePayment _ s) as [s' out].
    now destruct out.
Qed.

Lemma acts_recordsOk l : forall st s,
  recordsOk s -> recordsOk (snd (ManagePaymentsModal.acts l st s)).
Proof.
  induction l as [|a l IH]; intros st s H; simpl; [assumption|].
  pose proof (act_recordsOk a st s H) as Hstep.
  destruct (ManagePaymentsModal.act a st s) as [st' s']. now apply IH.
Qed.

Lemma monthly_submit_recordsOk s f now newId :
  recordsOk s -> recordsOk (fst (MonthlyPaymentModal.submit f now newId s)).
Proof.
  intros [Hm [He Hx]].
  destruct (monthly_submit_cases s f now newId)
    as [H | [H | [H | [amount [d [Hf [Ha [Hd Hrange]]]]]]]];
    try (rewrite H; now repeat split).
  rewrite (monthly_submit_accepted s f now newId amount d Hf Ha Hd Hrange).
  cbn zeta.
  assert (Hnew : Forall (fun kv => monthlyRecordOk (snd kv))
                   (addDoc newId
                      {| MonthlyPayment.floorId := MonthlyPaymentModal.selectedFloor f;
                         MonthlyPayment.month := monthStringOf d;
                         MonthlyPayment.amountPaid := amount;
                         MonthlyPayment.paymentDate := now;
                         MonthlyPayment.remainingAmount :=
                           MonthlyPaymentModal.loadFloorsAndConfig s - amount;
                         MonthlyPayment.isComplete :=
                           MonthlyPaymentModal.loadFloorsAndConfig s - amount <=? 0 |}
                      (monthlyPayments s))).
  { apply Forall_addDoc; [|exact Hm]. unfold monthlyRecordOk. simpl.
    repeat split; try lia. now exists d. }
  destruct (balance s); unfold recordsOk; store_simpl; now repeat split.
Qed.

Lemma sub_num_nonneg amount r :
  gt_num amount r = false -> nonneg_num (sub_num r amount).
Proof.
  destruct r as [z|]; simpl; [|trivial].
  destruct (Z.ltb_spec z amount); [discriminate | lia].
Qed.

Lemma event_submit_recordsOk s f now newId :
  recordsOk s -> recordsOk (fst (MaintenancePaymentModal.submit f now newId s)).
Proof.
  intros [Hm [He Hx]].
  destruct (event_submit_cases s f now newId)
    as [H | [H | [H | [amount [Hev [Hf [Ha [Hpos Hgt]]]]]]]];
    try (rewrite H; now repeat split).
  rewrite (event_submit_accepted s f now newId amount Hev Hf Ha Hpos Hgt).
  cbn zeta.
  match goal with
  | |- context [addDoc newId ?d (eventPayments s)] =>
      assert (Hnew : Forall (fun kv => eventRecordOk (snd kv))
                       (addDoc newId d (eventPayments s)))
  end.
  { apply Forall_addDoc; [|exact He]. unfold eventRecordOk. simpl.
    repeat split; [exact Hpos | now apply sub_num_nonneg]. }
  destruct (balance s); unfold recordsOk; store_simpl; now repeat split.
Qed.

Lemma isEmpty_false (t : string) : isEmpty t = false -> t <> EmptyString.
Proof. destruct t; simpl; congruence. Qed.

Lemma expense_submit_recordsOk s f now newId :
  recordsOk s -> recordsOk (fst (ExpenseModal.submit f now newId s)).
Proof.
  intros [Hm [He Hx]].
  destruct (expense_submit_cases s f now newId)
    as [[e H] | [amountNum [Hd [Hev [Ha Hrange]]]]];
    [rewrite H; now repeat split|].
  rewrite (expense_submit_accepted s f now newId amountNum Hd Hev Ha Hrange).
  cbn zeta.
  match goal with
  | |- context [addDoc newId ?d (expenses s)] =>
      assert (Hnew : Forall (fun kv => expenseOk (snd kv))
                       (addDoc newId d (expenses s)))
  end.
  { apply Forall_addDoc; [|exact Hx]. unfold expenseOk. simpl.
    split; [lia|].
    destruct (ExpenseModal.expenseType f); simpl in *; [reflexivity|].
    eexists. split; [reflexivity|]. now apply isEmpty_false, Hev. }
  destruct (balance s); unfold recordsOk; store_simpl; now repeat split.
Qed.

Lemma deleteEvent_recordsOk s deleteConfirmEvent now :
  recordsOk s ->
  recordsOk (fst (ManageMaintenanceModal.deleteEvent deleteConfirmEvent now s)).
Proof.
  intros [Hm [He Hx]]. unfold ManageMaintenanceModal.deleteEvent.
  destruct deleteConfirmEvent as [eid|]; [|now repeat split].
  store_simpl.
  destruct (balance s); unfold recordsOk; store_simpl;
    (split; [exact Hm | split; now apply Forall_deleteAll]).
Qed.

Lemma saveEvent_recordsOk s editingEventId f :
  recordsOk s ->
  recordsOk (fst (ManageMaintenanceModal.saveEvent editingEventId f s)).
Proof.
  intros [Hm [He Hx]].
  destruct (saveEvent_keeps_rest editingEventId f s)
    as [_ [Hpay [Hmon [Hexp _]]]].
  unfold recordsOk. now rewrite Hpay, Hmon, Hexp.
Qed.

Lemma createEvent_keeps_rest s f newId :
  let s' := fst (NewMaintenanceModal.submit f newId s) in
  floors s' = floors s /\ eventPayments s' = eventPayments s
  /\ monthlyPayments s' = monthlyPayments s /\ expenses s' = expenses s
  /\ balance s' = balance s
  /\ (forall k, In k (ids (events s)) -> In k (ids (events s'))).
Proof.
  cbn zeta. unfold NewMaintenanceModal.submit.
  destruct (NewMaintenanceModal.handleDetailsSubmit f); [now repeat split|].
  destruct (parseFloat _); [|now repeat split].
  destruct (NewMaintenanceModal.selectedDate f); [|now repeat split].
  unfold NewMaintenanceModal.handleCreateEvent. store_simpl.
  repeat split. intros k Hk.
  match goal with |- In k (ids (addDoc newId ?d _)) => generalize d end.
  intro d. unfold ids in *.
  induction (events s) as [|[k' v] c IH]; simpl in *; [tauto|].
  destruct (String.compare newId k') eqn:Hcmp; simpl.
  - apply String.compare_eq_iff in Hcmp. subst. tauto.
  - tauto.
  - destruct Hk as [Hk | Hk]; [now left | right; now apply IH].
Qed.

Lemma createEvent_recordsOk s f newId :
  recordsOk s -> recordsOk (fst (NewMaintenanceModal.submit f newId s)).
Proof.
  intros [Hm [He Hx]].
  destruct (createEvent_keeps_rest s f newId) as [_ [Hpay [Hmon [Hexp _]]]].
  unfold recordsOk. now rewrite Hpay, Hmon, Hexp.
Qed.

Lemma adminStep_recordsOk s op : recordsOk s -> recordsOk (adminStep s op).
Proof.
  intro H. destruct op as [op | f newId | eid f | l]; cbn [adminStep].
  - destruct op as [f now newId | f now newId | f now newId | row f | row | eid now];
      cbn [step].
    + exact (monthly_submit_recordsOk s f now newId H).
    + exact (event_submit_recordsOk s f now newId H).
    + exact (expense_submit_recordsOk s f now newId H).
    + exact (savePayment_recordsOk _ _ f s H).
    + exact (deletePayment_recordsOk _ s H).
    + exact (deleteEvent_recordsOk s (Some eid) now H).
  - exact (createEvent_recordsOk s f newId H).
  - exact (saveEvent_recordsOk s (Some eid) f H).
  - exact (acts_recordsOk l _ s H).
Qed.
End RecordsOk.

(** X12. Every admin operation keeps the records well formed: each payment
    has a positive [amountPaid], a remaining amount of zero or more and
    [isComplete] exactly when nothing remains, each monthly payment a month
    of the form the monthly modal writes, and each expense a positive
    amount and an event id exactly when it is an event expense.  This
    holds through creations, edits and deletions in any order, and through
    anything done in the payments manager. *)
Theorem records_stay_well_formed (s : Store) (ops : list AdminOp) :
  recordsOk s -> recordsOk (adminRun s ops).
Proof.
  revert s. induction ops as [|op rest IH]; intros s H; simpl; [assumption|].
  now apply IH, adminStep_recordsOk.
Qed.

(** The records of a given ledger are well formed. *)
Ltac check_records :=
  unfold recordsOk, monthlyRecordOk, eventRecordOk, expenseOk; simpl;
  repeat match goal with
         | |- Forall _ _ => constructor
         | |- _ /\ _ => split
         | |- exists picked, _ = monthStringOf picked => now exists january
         | |- exists e, _ => eexists
         | |- _ < _ => reflexivity
         | |- _ <= _ => discriminate
         | |- _ = _ => reflexivity
         | |- _ <> _ => discriminate
         | |- nonneg_num _ => simpl
         | |- match Expense.type _ with _ => _ end => simpl
         end.

Lemma twoEvents_recordsOk : recordsOk twoEvents.
Proof. check_records. Qed.

Lemma records_stay_well_formed_witness :
  recordsOk twoEvents /\ recordsOk (adminRun twoEvents adminOps).
Proof.
  split; [exact twoEvents_recordsOk|].
  exact (records_stay_well_formed twoEvents adminOps twoEvents_recordsOk).
Defined.

(** ** Payments and their events *)

Section PaymentsReferToEvents.

Lemma refer_same s s' :
  eventPayments s' = eventPayments s ->
  (forall k, In k (ids (events s)) -> In k (ids (events s'))) ->
  paymentsReferToEvents s -> paymentsReferToEvents s'.
Proof.
  unfold paymentsReferToEvents. intros Hpay Hev H. rewrite Hpay.
  eapply Forall_impl; [|exact H]. intros kv Hkv. now apply Hev.
Qed.

Lemma In_ids_deleteDoc (A : Type) k eid (c : Collection A) :
  In k (ids c) -> k <> eid -> In k (ids (deleteDoc eid c)).
Proof.
  unfold ids, deleteDoc. rewrite !in_map_iff. intros [kv [Hk Hin]] Hne.
  exists kv. split; [exact Hk|]. apply filter_In. split; [exact Hin|].
  subst k. now destruct (String.eqb_spec (fst kv) eid).
Qed.

Lemma monthly_submit_refers s f now newId :
  paymentsReferToEvents s ->
  paymentsReferToEvents (fst (MonthlyPaymentModal.submit f now newId s)).
Proof.
  intro H.
  destruct (monthly_submit_cases s f now newId)
    as [E | [E | [E | [amount [d [Hf [Ha [Hd Hrange]]]]]]]];
    try (rewrite E; exact H).
  rewrite (monthly_submit_accepted s f now newId amount d Hf Ha Hd Hrange).
  cbn zeta. apply (refer_same s); [| |exact H];
    destruct (balance s); store_simpl; auto.
Qed.

Lemma expense_submit_refers s f now newId :
  paymentsReferToEvents s ->
  paymentsReferToEvents (fst (ExpenseModal.submit f now newId s)).
Proof.
  intro H.
  destruct (expense_submit_cases s f now newId)
    as [[e E] | [amountNum [Hd [Hev [Ha Hrange]]]]];
    [rewrite E; exact H|].
  rewrite (expense_submit_accepted s f now newId amountNum Hd Hev Ha Hrange).
  cbn zeta. apply (refer_same s); [| |exact H];
    destruct (balance s); store_simpl; auto.
Qed.

(** A payment that the event payment modal accepts names an event of the
    store: either the event is among the open ones, or the floor has paid
    towards it before. *)
Lemma accepted_event_exists s eid fid amount :
  paymentsReferToEvents s -> 0 < amount ->
  gt_num amount
    (MaintenancePaymentModal.getRemainingAmount
       (MaintenancePaymentModal.loadData s) eid fid) = false ->
  In eid (ids (events s)).
Proof.
  intros H Hpos Hgt.
  unfold MaintenancePaymentModal.getRemainingAmount,
    MaintenancePaymentModal.getRequiredAmount in Hgt.
  cbn [MaintenancePaymentModal.existingPayments
       MaintenancePaymentModal.events_
       MaintenancePaymentModal.loadData] in Hgt.
  destruct (find _ (map snd (eventPayments s))) as [p|] eqn:Hp.
  - apply find_some in Hp. destruct Hp as [Hin Hkey].
    apply andb_prop in Hkey. destruct Hkey as [Hkey _].
    apply String.eqb_eq in Hkey. apply in_map_iff in Hin.
    destruct Hin as [kv [Hsnd Hin]]. unfold paymentsReferToEvents in H.
    rewrite Forall_forall in H. specialize (H kv Hin).
    now rewrite Hsnd, Hkey in H.
  - destruct (find _ (filter _ (events s))) as [e|] eqn:He.
    + apply find_some in He. destruct He as [Hin Hkey].
      apply String.eqb_eq in Hkey. apply filter_In in Hin.
      rewrite <- Hkey. unfold ids. apply in_map. tauto.
    + simpl in Hgt. destruct (Z.ltb_spec 0 amount); [discriminate | lia].
Qed.

Lemma event_submit_refers s f now newId :
  paymentsReferToEvents s ->
  paymentsReferToEvents (fst (MaintenancePaymentModal.submit f now newId s)).
Proof.
  intro H.
  destruct (event_submit_cases s f now newId)
    as [E | [E | [E | [amount [Hev [Hf [Ha [Hpos Hgt]]]]]]]];
    try (rewrite E; exact H).
  rewrite (event_submit_accepted s f now newId amount Hev Hf Ha Hpos Hgt).
  cbn zeta.
  pose proof (accepted_event_exists s _ _ amount H Hpos Hgt) as Hin.
  match goal with
  | |- context [addDoc newId ?d (eventPayments s)] =>
      assert (Hnew : Forall
                (fun kv => In (EventPayment.eventId (snd kv)) (ids (events s)))
                (addDoc newId d (eventPayments s)))
  end.
  { apply (Forall_addDoc _
             (fun d => In (EventPayment.eventId d) (ids (events s))));
      [exact Hin | exact H]. }
  destruct (balance s); unfold paymentsReferToEvents; store_simpl; exact Hnew.
Qed.

Lemma savePayment_refers payments editingPaymentId f s :
  paymentsReferToEvents s ->
  paymentsReferToEvents
    (fst (ManagePaymentsModal.savePayment payments editingPaymentId f s)).
Proof.
  intro H. unfold ManagePaymentsModal.savePayment.
  destruct editingPaymentId as [pid|]; [|exact H].
  destruct (parseFloat _) as [amount|]; [|exact H].
  destruct (amount <=? 0); [exact H|].
  destruct (find _ payments) as [p|]; [|exact H].
  unfold ManagePaymentsModal.updatePaymentDoc, updateDoc,
    ManagePaymentsModal.updateBalanceDoc.
  destruct (ManagePaymentsModal.collectionName p).
  - destruct (getDoc pid (monthlyPayments s)); [|exact H].
    cbn [option_map]. store_simpl.
    destruct (balance s); [|exact H].
    unfold paymentsReferToEvents. store_simpl. exact H.
  - destruct (getDoc pid (eventPayments s)); [|exact H].
    cbn [option_map]. store_simpl.
    destruct (balance s); [|exact H].
    unfold paymentsReferToEvents. store_simpl.
    apply (Forall_patchDoc _
             (fun d => In (EventPayment.eventId d) (ids (events s))));
      [auto | exact H].
Qed.

Lemma deletePayment_refers deleteConfirmPayment s :
  paymentsReferToEvents s ->
  paymentsReferToEvents
    (fst (ManagePaymentsModal.deletePayment deleteConfirmPayment s)).
Proof.
  intro H. unfold ManagePaymentsModal.deletePayment.
  destruct deleteConfirmPayment as [p|]; [|exact H].
  unfold ManagePaymentsModal.updateBalanceDoc,
    ManagePaymentsModal.deletePaymentDoc.
  destruct (ManagePaymentsModal.collectionName p); store_simpl;
    (destruct (balance s); [|exact H]);
    unfold paymentsReferToEvents; store_simpl; try exact H.
  unfold deleteDoc.
  apply (Forall_filter_docs _
           (fun d => In (EventPayment.eventId d) (ids (events s)))).
  exact H.
Qed.

Lemma act_refers a st s :
  paymentsReferToEvents s ->
  paymentsReferToEvents (snd (ManagePaymentsModal.act a st s)).
Proof.
  intro H. destruct a; simpl; try assumption.
  - now destruct (nth_error _ row).
  - pose proof (savePayment_refers (ManagePaymentsModal.payments_ st)
                  (ManagePaymentsModal.editingPaymentId_ st)
                  (ManagePaymentsModal.editFormData_ st) s H) as Hs.
    destruct (ManagePaymentsModal.savePayment _ _ _ s) as [s' out].
    now destruct out.
  - now destruct (nth_error _ row).
  - pose proof (deletePayment_refers
                  (ManagePaymentsModal.deleteConfirmPayment_ st) s H) as Hs.
    destruct (ManagePaymentsModal.deletePayment _ s) as [s' out].
    now destruct out.
Qed.

Lemma acts_refers l : forall st s,
  paymentsReferToEvents s ->
  paymentsReferToEvents (snd (ManagePaymentsModal.acts l st s)).
Proof.
  induction l as [|a l IH]; intros st s H; simpl; [assumption|].
  pose proof (act_refers a st s H) as Hstep.
  destruct (ManagePaymentsModal.act a st s) as [st' s']. now apply IH.
Qed.

(** The payments that the deletion of an event leaves are those of other
    events. *)
Lemma deleteAll_leaves_others eid (c : Collection EventPayment.t) kv :
  In kv (ManageMaintenanceModal.deleteAll
           (queryWhere (ManageMaintenanceModal.paymentOfEvent eid) c) c) ->
  In kv c /\ EventPayment.eventId (snd kv) <> eid.
Proof.
  rewrite deleteAll_keeps. intro Hin. apply filter_In in Hin.
  destruct Hin as [Hin Hkeep]. split; [exact Hin|]. intro Heq.
  apply negb_true_iff in Hkeep.
  assert (Hex : existsb (fun d => (fst d =? fst kv)%string)
                  (queryWhere (ManageMaintenanceModal.paymentOfEvent eid) c)
                = true).
  { apply existsb_exists. exists kv. split; [|apply String.eqb_refl].
    apply filter_In. split; [exact Hin|].
    unfold ManageMaintenanceModal.paymentOfEvent. now apply String.eqb_eq. }
  congruence.
Qed.

Lemma deleteEvent_refers s deleteConfirmEvent now :
  paymentsReferToEvents s ->
  paymentsReferToEvents
    (fst (ManageMaintenanceModal.deleteEvent deleteConfirmEvent now s)).
Proof.
  intro H. unfold ManageMaintenanceModal.deleteEvent.
  destruct deleteConfirmEvent as [eid|]; [|exact H].
  store_simpl.
  assert (Hleft : Forall
            (fun kv => In (EventPayment.eventId (snd kv))
                         (ids (deleteDoc eid (events s))))
            (ManageMaintenanceModal.deleteAll
               (queryWhere (ManageMaintenanceModal.paymentOfEvent eid)
                  (eventPayments s)) (eventPayments s))).
  { apply Forall_forall. intros kv Hin.
    apply deleteAll_leaves_others in Hin. destruct Hin as [Hin Hne].
    apply In_ids_deleteDoc; [|exact Hne].
    unfold paymentsReferToEvents in H. rewrite Forall_forall in H. auto. }
  destruct (balance s); unfold paymentsReferToEvents; store_simpl; exact Hleft.
Qed.

Lemma saveEvent_refers s editingEventId f :
  paymentsReferToEvents s ->
  paymentsReferToEvents
    (fst (ManageMaintenanceModal.saveEvent editingEventId f s)).
Proof.
  destruct (saveEvent_keeps_rest editingEventId f s)
    as [_ [Hpay [_ [_ [_ [_ Hids]]]]]].
  apply refer_same; [exact Hpay|]. intros k Hk. now rewrite Hids.
Qed.

Lemma createEvent_refers s f newId :
  paymentsReferToEvents s ->
  paymentsReferToEvents (fst (NewMaintenanceModal.submit f newId s)).
Proof.
  destruct (createEvent_keeps_rest s f newId) as [_ [Hpay [_ [_ [_ Hids]]]]].
  apply refer_same; [exact Hpay | exact Hids].
Qed.

Lemma adminStep_refers s op :
  paymentsReferToEvents s -> paymentsReferToEvents (adminStep s op).
Proof.
  intro H. destruct op as [op | f newId | eid f | l]; cbn [adminStep].
  - destruct op as [f now newId | f now newId | f now newId | row f | row | eid now];
      cbn [step].
    + exact (monthly_submit_refers s f now newId H).
    + exact (event_submit_refers s f now newId H).
    + exact (expense_submit_refers s f now newId H).
    + exact (savePayment_refers _ _ f s H).
    + exact (deletePayment_refers _ s H).
    + exact (deleteEvent_refers s (Some eid) now H).
  - exact (createEvent_refers s f newId H).
  - exact (saveEvent_refers s (Some eid) f H).
  - exact (acts_refers l _ s H).
Qed.
End PaymentsReferToEvents.

(** X13. No admin operation leaves an event payment without its event.
    The event payment modal accepts a payment only for an event it finds
    among the open ones or for which the floor has a payment on record,
    whatever event id the form holds; the deletion of an event removes
    all payments that name it, with or without a balance document; edits
    keep the event of a payment.  So if every event payment names an
    existing event, it is so after any sequence of operations. *)
Theorem payments_keep_their_events (s : Store) (ops : list AdminOp) :
  paymentsReferToEvents s -> paymentsReferToEvents (adminRun s ops).
Proof.
  revert s. induction ops as [|op rest IH]; intros s H; simpl; [assumption|].
  now apply IH, adminStep_refers.
Qed.

Lemma payments_keep_their_events_witness :
  paymentsReferToEvents twoEvents
  /\ paymentsReferToEvents (adminRun twoEvents adminOps).
Proof.
  assert (H : paymentsReferToEvents twoEvents).
  { unfold paymentsReferToEvents. simpl.
    repeat (apply Forall_cons; [simpl; auto|]). apply Forall_nil. }
  split; [exact H | exact (payments_keep_their_events twoEvents adminOps H)].
Defined.

(** ** Funds *)

Section Funds.

Lemma creation_keeps_funds s op :
  isCreation op = true ->
  0 <= readTotalBalance s -> 0 <= readTotalBalance (adminStep s op).
Proof.
  intros Hop H.
  destruct op as [op | f newId | eid f | l]; cbn [adminStep];
    [destruct op as [f now newId | f now newId | f now newId | | | ];
       try discriminate Hop; cbn [step] | | | discriminate Hop].
  - destruct (monthly_submit_cases s f now newId)
      as [E | [E | [E | [amount [d [Hf [Ha [Hd Hrange]]]]]]]];
      try (rewrite E; exact H).
    rewrite (monthly_submit_accepted s f now newId amount d Hf Ha Hd Hrange).
    cbn zeta. unfold readTotalBalance in *.
    destruct (balance s) as [b|] eqn:Hb; store_simpl;
      rewrite ?Hb, ?or0_id in *; lia.
  - destruct (event_submit_cases s f now newId)
      as [E | [E | [E | [amount [Hev [Hf [Ha [Hpos Hgt]]]]]]]];
      try (rewrite E; exact H).
    rewrite (event_submit_accepted s f now newId amount Hev Hf Ha Hpos Hgt).
    cbn zeta. unfold readTotalBalance in *.
    destruct (balance s) as [b|] eqn:Hb; store_simpl;
      rewrite ?Hb, ?or0_id in *; lia.
  - destruct (expense_submit_cases s f now newId)
      as [[e E] | [amountNum [Hd [Hev [Ha Hrange]]]]];
      [rewrite E; exact H|].
    rewrite (expense_submit_accepted s f now newId amountNum Hd Hev Ha Hrange).
    cbn zeta. unfold readTotalBalance in *.
    destruct (balance s) as [b|] eqn:Hb; store_simpl;
      rewrite ?Hb, ?or0_id in *; lia.
  - destruct (createEvent_keeps_rest s f newId) as [_ [_ [_ [_ [Hb _]]]]].
    unfold readTotalBalance in *. now rewrite Hb.
  - destruct (saveEvent_keeps_rest (Some eid) f s) as [_ [_ [_ [_ [Hb _]]]]].
    unfold readTotalBalance in *. now rewrite Hb.
Qed.
End Funds.

(** X14. Payments, expenses and the creation and edit of events never
    overdraw the fund: an expense is accepted only up to the balance read
    when the modal opens, and payments only add to it, so a balance of
    zero or more stays so.  (Edits and deletions of payments and the
    deletion of an event are not bounded in this way.) *)
Theorem creations_never_overdraw (s : Store) (ops : list AdminOp) :
  Forall (fun op => isCreation op = true) ops ->
  0 <= readTotalBalance s ->
  0 <= readTotalBalance (adminRun s ops).
Proof.
  intro Hops. revert s.
  induction Hops as [|op rest Hop Hrest IH]; intros s H; simpl; [assumption|].
  now apply IH, creation_keeps_funds.
Qed.

Lemma creations_never_overdraw_witness :
  0 <= readTotalBalance building1000
  /\ 0 <= readTotalBalance
            (adminRun building1000
               [ LedgerOp (CreateExpense (expenseForm event 1000) 1 "x1");
                 LedgerOp (CreateExpense (expenseForm monthly 1) 2 "x2");
                 CreateEvent (newEventForm 900) "e2";
                 LedgerOp (CreateMonthlyPayment (monthlyForm 200) 3 "m1");
                 LedgerOp (CreateExpense (expenseForm monthly 150) 4 "x3") ]).
Proof.
  assert (H : 0 <= readTotalBalance building1000) by discriminate.
  split; [exact H|].
  apply creations_never_overdraw; [repeat constructor | exact H].
Defined.

(** ** A new event *)

Section NewEventFacts.
Import MaintenancePaymentModal.

Lemma find_open_added id (d : Event) (c : Collection Event) :
  ~ In id (ids c) -> isOpen d = true ->
  find (fun e => (fst e =? id)%string)
    (filter (fun e => isOpen (snd e)) (addDoc id d c))
  = Some (id, d).
Proof.
  intros Hfresh Hopen. induction c as [|[k v] c' IH]; simpl in *.
  - rewrite Hopen. simpl. now rewrite String.eqb_refl.
  - destruct (String.compare id k); simpl.
    + rewrite Hopen. simpl. now rewrite String.eqb_refl.
    + rewrite Hopen. simpl. now rewrite String.eqb_refl.
    + destruct (isOpen v); simpl; [|apply IH; tauto].
      destruct (String.eqb_spec k id) as [->|Hk]; [tauto | apply IH; tauto].
Qed.

Lemma no_payment_of_unknown_event s eid fid :
  paymentsReferToEvents s -> ~ In eid (ids (events s)) ->
  paymentsOfKey eid fid s = [].
Proof.
  unfold paymentsReferToEvents, paymentsOfKey. intros H Hfresh.
  induction (eventPayments s) as [|[k p] c IH]; simpl; [reflexivity|].
  inversion H as [|? ? Hp Hc]; subst. simpl in Hp.
  destruct (String.eqb_spec (EventPayment.eventId p) eid) as [Heq|Hne]; simpl.
  - exfalso. apply Hfresh. now rewrite <- Heq.
  - now apply IH.
Qed.
End NewEventFacts.

(** X15. Right after an event is created, every floor owes its full cost
    per floor: the event payment modal finds the new event among the open
    ones and no payment for it, so the remaining amount it checks a
    payment against is the [costPerFloor] the creation stored.  The id of
    the new event is one no event has, every payment on record names an
    existing event, and the cost typed is a whole number within the safe
    integers. *)
Theorem new_event_is_owed_in_full
    (s : Store) (f : NewMaintenanceModal.Form) (newId fid : DocId) (cost : Z) :
  paymentsReferToEvents s ->
  ~ In newId (ids (events s)) ->
  NewMaintenanceModal.handleDetailsSubmit f = None ->
  parseFloat (NewMaintenanceModal.totalCost_ f) = Some cost ->
  isSafeInteger cost ->
  let s' := fst (NewMaintenanceModal.submit f newId s) in
  snd (NewMaintenanceModal.submit f newId s) = Done
  /\ MaintenancePaymentModal.getRemainingAmount
       (MaintenancePaymentModal.loadData s') newId fid
     = NewMaintenanceModal.calculateCostPerFloor (floors s) cost.
Proof.
  intros Hrefer Hfresh Hvalid Hcost _. cbn zeta.
  destruct (create_event_effect s f newId Hvalid)
    as [cost' [picked [Hcost' [Hpos Hsubmit]]]].
  rewrite Hcost in Hcost'. inversion Hcost'; subst cost'.
  rewrite Hsubmit. cbn [fst snd]. split; [reflexivity|].
  rewrite no_payment_reads_required
    by (unfold paymentsOfKey; store_simpl;
        exact (no_payment_of_unknown_event s newId fid Hrefer Hfresh)).
  unfold MaintenancePaymentModal.getRequiredAmount.
  cbn [MaintenancePaymentModal.events_ MaintenancePaymentModal.loadData].
  store_simpl. rewrite find_open_added by (auto || reflexivity).
  reflexivity.
Qed.

Lemma new_event_is_owed_in_full_witness :
  paymentsReferToEvents twoEvents
  /\ MaintenancePaymentModal.getRemainingAmount
       (MaintenancePaymentModal.loadData
          (fst (NewMaintenanceModal.submit (newEventForm 901) "e3" twoEvents)))
       "e3" "f2"
     = Fin 451.
Proof.
  assert (H : paymentsReferToEvents twoEvents).
  { unfold paymentsReferToEvents. simpl.
    repeat (apply Forall_cons; [simpl; auto|]). apply Forall_nil. }
  assert (Hfresh : ~ In "e3" (ids (events twoEvents))).
  { simpl. intros [E | [E | []]]; discriminate E. }
  assert (Hsafe : isSafeInteger 901) by (vm_compute; discriminate).
  split; [exact H|].
  exact (proj2 (new_event_is_owed_in_full twoEvents (newEventForm 901)
                  "e3" "f2" 901 H Hfresh eq_refl eq_refl Hsafe)).
Defined.

(** ** The change shown in the edit form *)

(** X16. The change of the balance that the edit form of the payments
    manager shows while an amount is typed is the change a save applies:
    whenever the save goes through, [totalBalance] moves by
    [calculateBalanceChange] of the state the save was pressed in.  The
    balance, the amount typed and the amount of the row are whole numbers
    whose magnitudes add up to a safe integer. *)
Theorem shown_change_is_applied
    (st : ManagePaymentsModal.State) (s s' : Store) :
  saveMagnitude st s <= MAX_SAFE_INTEGER ->
  ManagePaymentsModal.savePayment
    (ManagePaymentsModal.payments_ st)
    (ManagePaymentsModal.editingPaymentId_ st)
    (ManagePaymentsModal.editFormData_ st) s = (s', Done) ->
  option_map totalBalance (balance s')
  = Some (readTotalBalance s + ManagePaymentsModal.calculateBalanceChange st).
Proof.
  intros _.
  unfold ManagePaymentsModal.savePayment,
    ManagePaymentsModal.calculateBalanceChange.
  destruct (ManagePaymentsModal.editingPaymentId_ st) as [pid|];
    [|discriminate].
  destruct (parseFloat _) as [amount|]; [|discriminate].
  destruct (Z.leb_spec amount 0); [discriminate|].
  destruct (find _ _) as [p|]; [|discriminate].
  destruct (ManagePaymentsModal.updatePaymentDoc _ _ _ _ s) as [s1|];
    [|discriminate].
  unfold ManagePaymentsModal.updateBalanceDoc.
  destruct (balance s1); [|discriminate].
  intro Hsave. inversion Hsave; subst s'. store_simpl.
  now rewrite or0_id.
Qed.

Lemma shown_change_is_applied_witness :
  ManagePaymentsModal.calculateBalanceChange
    (fst (ManagePaymentsModal.acts
            [ManagePaymentsModal.ClickEdit 0;
             ManagePaymentsModal.TypeAmount (Number 350)]
            (ManagePaymentsModal.opened oneMonthlyPayment) oneMonthlyPayment))
  = 150
  /\ option_map totalBalance
       (balance
          (ManagePaymentsModal.session
             [ManagePaymentsModal.ClickEdit 0;
              ManagePaymentsModal.TypeAmount (Number 350);
              ManagePaymentsModal.ClickSave] oneMonthlyPayment))
     = Some 350.
Proof.
  assert (Hsafe : saveMagnitude
                    (fst (ManagePaymentsModal.acts
                            [ManagePaymentsModal.ClickEdit 0;
                             ManagePaymentsModal.TypeAmount (Number 350)]
                            (ManagePaymentsModal.opened oneMonthlyPayment)
                            oneMonthlyPayment))
                    oneMonthlyPayment <= MAX_SAFE_INTEGER)
    by (vm_compute; discriminate).
  split; [reflexivity|].
  exact (shown_change_is_applied
           (fst (ManagePaymentsModal.acts
                   [ManagePaymentsModal.ClickEdit 0;
                    ManagePaymentsModal.TypeAmount (Number 350)]
                   (ManagePaymentsModal.opened oneMonthlyPayment)
                   oneMonthlyPayment))
           oneMonthlyPayment
           (ManagePaymentsModal.session
              [ManagePaymentsModal.ClickEdit 0;
               ManagePaymentsModal.TypeAmount (Number 350);
               ManagePaymentsModal.ClickSave] oneMonthlyPayment)
           Hsafe eq_refl).
Defined.

(** ** The modals with several steps *)

Section ExpenseWizard.
Import ExpenseModal.

Lemma details_passed_parses fd f :
  handleDetailsSubmit fd f = None -> exists amountNum, parseFloat (amount f) = Some amountNum.
Proof.
  unfold handleDetailsSubmit.
  destruct (_ || _); [discriminate|]. destruct (_ && _); [discriminate|].
  destruct (parseFloat (amount f)) as [a|]; [eauto | discriminate].
Qed.

Lemma details_passed_event fd f :
  handleDetailsSubmit fd f = None ->
  isEventType (expenseType f) = true -> selectedEvent f <> EmptyString.
Proof.
  unfold handleDetailsSubmit. intros H Ht.
  destruct (_ || _); [discriminate|]. rewrite Ht in H. simpl in H.
  destruct (selectedEvent f); [discriminate H | discriminate].
Qed.

Lemma click_expenseWizardOk s0 c w s :
  expenseWizardOk s0 w s ->
  expenseWizardOk s0 (fst (click c w s)) (snd (click c w s)).
Proof.
  unfold expenseWizardOk at 1, click.
  destruct (closed_ w) eqn:Hclosed.
  - intro H. unfold expenseWizardOk. cbn [fst snd]. now rewrite Hclosed.
  - intros [Hs [Hfd [Hev [Hsel Hrev]]]]. subst s.
    assert (Hstay : expenseWizardOk s0 w s0).
    { unfold expenseWizardOk. rewrite Hclosed. auto. }
    destruct (step_ w) eqn:Hstep; destruct c; cbn [fst snd]; try exact Hstay;
      try solve [unfold expenseWizardOk; cbn; rewrite Hclosed;
                 repeat split; auto;
                 intro Hc; rewrite ?Hstep in Hc; discriminate Hc].
    + (* an event is picked *)
      destruct (isEventType (expenseType (form_ w))); [|exact Hstay].
      destruct (nth_error (events_ w) i) as [e|] eqn:He; [|exact Hstay].
      unfold expenseWizardOk. cbn. rewrite Hclosed.
      repeat split; auto; [|intro Hc; rewrite ?Hstep in Hc; discriminate Hc].
      right. apply in_map_iff. exists e. split; [reflexivity|].
      rewrite <- Hev. eapply nth_error_In, He.
    + (* next *)
      destruct (handleDetailsSubmit (financialData_ w) (form_ w)) eqn:Hd;
        [exact Hstay|].
      unfold expenseWizardOk. cbn. rewrite Hclosed.
      repeat split; auto. intros _. now rewrite <- Hfd.
    + (* confirm *)
      pose proof (Hrev eq_refl) as Hd.
      destruct (parseFloat (amount (form_ w))) as [amountNum|] eqn:Hp;
        [|exact Hstay].
      unfold expenseWizardOk. cbn [closed_ fst snd].
      exists (form_ w), now, newId. split; [exact Hd|]. split.
      * intro Ht. destruct Hsel as [Hsel | Hsel]; [|exact Hsel].
        exfalso. exact (details_passed_event _ _ Hd Ht Hsel).
      * unfold submit. rewrite Hd, Hp. unfold handleExpenseSubmit.
        store_simpl. now destruct (balance s0).
Qed.

Lemma clicks_expenseWizardOk s0 l : forall w s,
  expenseWizardOk s0 w s ->
  expenseWizardOk s0 (fst (clicks l w s)) (snd (clicks l w s)).
Proof.
  induction l as [|c l IH]; intros w s H; simpl; [exact H|].
  pose proof (click_expenseWizardOk s0 c w s H) as Hstep.
  destruct (click c w s) as [w' s']. now apply IH.
Qed.
(** Conversely, a form that passes the details step can be entered. *)
Lemma submit_is_clicked s f now newId :
  handleDetailsSubmit (loadData s) f = None ->
  (isEventType (expenseType f) = true -> In (selectedEvent f) (listedEvents s)) ->
  exists l, wizard l s = fst (submit f now newId s).
Proof.
  intros Hd Hev. destruct f as [t sel d a m]. cbn in Hev.
  destruct (details_passed_parses _ _ Hd) as [amountNum Hp]. cbn in Hp.
  destruct t.
  - exists [ClickType monthly; TypeDescription d; TypeAmount a; ClickMethod m;
            ClickNext; ClickConfirm now newId].
    unfold submit. rewrite Hd. cbn [amount]. rewrite Hp.
    unfold handleDetailsSubmit in Hd. cbn in Hd.
    unfold wizard, clicks, click. cbn.
    unfold handleDetailsSubmit. cbn. rewrite Hd. cbn. rewrite Hp. reflexivity.
  - specialize (Hev eq_refl). unfold listedEvents in Hev.
    apply in_map_iff in Hev. destruct Hev as [e [He Hin]].
    destruct (In_nth_error _ _ Hin) as [i Hi].
    exists [ClickType event; ClickEvent i; TypeDescription d; TypeAmount a;
            ClickMethod m; ClickNext; ClickConfirm now newId].
    unfold submit. rewrite Hd. cbn [amount]. rewrite Hp.
    unfold wizard, clicks, click. cbn. rewrite Hi. cbn. rewrite He.
    rewrite Hd. cbn. rewrite Hp. reflexivity.
Qed.
End ExpenseWizard.

(** X17. The stores the expense modal can leave behind, from its opening
    on the store [s] to its closing, are [s] itself and the stores with one
    more expense, written as by [submit] with a form that passed the
    checks of the details step against the balance read at the opening;
    an event expense names one of the open events the modal listed.  No
    sequence of clicks reaches the write around the checks, and every
    such form can be entered.  The amounts are whole numbers and the
    balance read at the opening is a safe integer, so that an amount that
    passes the checks is one too and the new balance is exact. *)
Theorem expense_wizard_reach (s s' : Store) :
  isSafeInteger (readTotalBalance s) ->
  (exists l, ExpenseModal.wizard l s = s')
  <-> (s' = s
       \/ exists f now newId,
            ExpenseModal.handleDetailsSubmit (ExpenseModal.loadData s) f = None
            /\ (ExpenseModal.isEventType (ExpenseModal.expenseType f) = true ->
                In (ExpenseModal.selectedEvent f) (listedEvents s))
            /\ ExpenseModal.submit f now newId s = (s', Done)).
Proof.
  intros _. split.
  - intros [l Hl]. subst s'.
    assert (H0 : expenseWizardOk s (ExpenseModal.opened s) s).
    { unfold expenseWizardOk. cbn. repeat split; auto. discriminate. }
    pose proof (clicks_expenseWizardOk s l _ _ H0) as H.
    unfold ExpenseModal.wizard. unfold expenseWizardOk in H.
    destruct (ExpenseModal.closed_ _); [right; exact H | left; tauto].
  - intros [-> | [f [now [newId [Hd [Hev Hsubmit]]]]]].
    + now exists [].
    + destruct (submit_is_clicked s f now newId Hd Hev) as [l Hl].
      exists l. now rewrite Hl, Hsubmit.
Qed.

Lemma expense_wizard_reach_witness :
  isSafeInteger (readTotalBalance building1000)
  /\ exists l,
       ExpenseModal.wizard l building1000
       = fst (ExpenseModal.submit (expenseForm event 400) 3 "x1"
                building1000).
Proof.
  assert (Hsafe : isSafeInteger (readTotalBalance building1000))
    by (vm_compute; discriminate).
  split; [exact Hsafe|].
  apply (proj2 (expense_wizard_reach building1000 _ Hsafe)).
  right. exists (expenseForm event 400), 3, "x1".
  split; [reflexivity|]. split; [intros _; simpl; auto | reflexivity].
Defined.

Section EventWizard.
Import NewMaintenanceModal.

Lemma click_eventWizardOk s0 c w s :
  safeClick c ->
  eventWizardOk s0 w s ->
  eventWizardOk s0 (fst (click c w s)) (snd (click c w s)).
Proof.
  intro Hsafe. unfold eventWizardOk at 1, click.
  destruct (closed_ w) eqn:Hclosed.
  - intro H. unfold eventWizardOk. cbn [fst snd]. now rewrite Hclosed.
  - intros [Hs [Hfl [Hcost Hrev]]]. subst s.
    assert (Hstay : eventWizardOk s0 w s0).
    { unfold eventWizardOk. rewrite Hclosed. auto. }
    assert (Hform : forall f',
              safeInput (totalCost_ f') ->
              step_ w = detailsStep ->
              eventWizardOk s0 (withForm f' w) s0).
    { intros f' Hf' Hstep. unfold eventWizardOk.
      cbn [withForm closed_ floors_ form_ step_]. rewrite Hclosed.
      split; [reflexivity|]. split; [exact Hfl|]. split; [exact Hf'|].
      rewrite Hstep. discriminate. }
    assert (Hgo : forall t,
              (t = reviewStep -> handleDetailsSubmit (form_ w) = None) ->
              eventWizardOk s0 (withStep t w) s0).
    { intros t Ht. unfold eventWizardOk.
      cbn [withStep closed_ floors_ form_ step_]. rewrite Hclosed.
      split; [reflexivity|]. split; [exact Hfl|]. split; [exact Hcost|].
      exact Ht. }
    destruct (step_ w) eqn:Hstep; destruct c; cbn [fst snd]; try exact Hstay;
      try (apply Hform; [exact Hcost | reflexivity]).
    + (* a cost is typed *)
      apply Hform; [exact Hsafe | reflexivity].
    + (* next *)
      destruct (handleDetailsSubmit (form_ w)) eqn:Hd; [exact Hstay|].
      apply Hgo. reflexivity.
    + (* back *)
      apply Hgo. discriminate.
    + (* confirm *)
      pose proof (Hrev eq_refl) as Hd.
      destruct (parseFloat (totalCost_ (form_ w))) as [cost|] eqn:Hp;
        [|exact Hstay].
      destruct (selectedDate (form_ w)) as [picked|] eqn:Hdate; [|exact Hstay].
      unfold eventWizardOk. cbn [closed_ fst snd].
      exists (form_ w), newId. split; [exact Hd|]. split; [exact Hcost|].
      unfold submit. now rewrite Hd, Hp, Hdate, Hfl.
Qed.

Lemma clicks_eventWizardOk s0 l : forall w s,
  Forall safeClick l ->
  eventWizardOk s0 w s ->
  eventWizardOk s0 (fst (clicks l w s)) (snd (clicks l w s)).
Proof.
  induction l as [|c l IH]; intros w s Hsafe H; simpl; [exact H|].
  inversion Hsafe as [|? ? Hc Hl]; subst.
  pose proof (click_eventWizardOk s0 c w s Hc H) as Hstep.
  destruct (click c w s) as [w' s']. now apply IH.
Qed.

(** Conversely, a form that passes the details step can be entered. *)
Lemma create_is_clicked today s f newId :
  handleDetailsSubmit f = None ->
  safeInput (totalCost_ f) ->
  exists l, Forall safeClick l /\ wizard today l s = fst (submit f newId s).
Proof.
  intros Hd Hsafe. destruct f as [name d cost picked].
  exists [TypeName name; TypeDescription d; PickDate picked; TypeCost cost;
          ClickNext; ClickConfirm newId today].
  split.
  - repeat constructor. exact Hsafe.
  - unfold submit. rewrite Hd.
    unfold wizard, clicks, click. cbn. rewrite Hd. cbn.
    destruct (parseFloat cost); [|reflexivity].
    now destruct picked.
Qed.
End EventWizard.

(** X18. The stores the modal that creates an event can leave behind,
    from its opening on the store [s] to its closing, are [s] itself and
    the stores with one more event, written as by [submit] with a form
    that passed the checks of the details step: name and description not
    blank after trimming, a date, a positive cost, the cost per floor
    computed from the floors read at the opening.  Every such form can be
    entered.  The costs typed are whole numbers in the range of the safe
    integers, on which [parseFloat] and [Math.ceil] of the quotient are
    exact. *)
Theorem event_wizard_reach (today : Timestamp) (s s' : Store) :
  (exists l, Forall safeClick l /\ NewMaintenanceModal.wizard today l s = s')
  <-> (s' = s
       \/ exists f newId,
            NewMaintenanceModal.handleDetailsSubmit f = None
            /\ safeInput (NewMaintenanceModal.totalCost_ f)
            /\ NewMaintenanceModal.submit f newId s = (s', Done)).
Proof.
  split.
  - intros [l [Hsafe Hl]]. subst s'.
    assert (H0 : eventWizardOk s (NewMaintenanceModal.opened today s) s).
    { unfold eventWizardOk.
      cbn [NewMaintenanceModal.opened NewMaintenanceModal.closed_
           NewMaintenanceModal.floors_ NewMaintenanceModal.form_
           NewMaintenanceModal.step_ NewMaintenanceModal.totalCost_ safeInput].
      split; [reflexivity|]. split; [reflexivity|]. split; [exact I|].
      discriminate. }
    pose proof (clicks_eventWizardOk s l _ _ Hsafe H0) as H.
    unfold NewMaintenanceModal.wizard. unfold eventWizardOk in H.
    destruct (NewMaintenanceModal.closed_ _); [right; exact H | left; tauto].
  - intros [-> | [f [newId [Hd [Hsafe Hsubmit]]]]].
    + exists []. split; [constructor | reflexivity].
    + destruct (create_is_clicked today s f newId Hd Hsafe) as [l [Hl Hw]].
      exists l. split; [exact Hl|]. now rewrite Hw, Hsubmit.
Qed.

(** ** An edit that changes nothing *)

Section UntouchedEdit.
Import ManagePaymentsModal.

Lemma patchDoc_same (A : Type) k (f : A -> A) (c : Collection A) :
  (forall v, In (k, v) c -> f v = v) -> patchDoc k f c = c.
Proof.
  unfold patchDoc. induction c as [|[k' v] c' IH]; intro H; simpl;
    [reflexivity|].
  rewrite IH by (intros v' Hv'; apply H; now right).
  destruct (String.eqb_spec k' k) as [->|Hk]; [|reflexivity].
  now rewrite (H v (or_introl eq_refl)).
Qed.

Lemma savePayment_no_balance payments editingPaymentId f s :
  balance s = None ->
  fst (savePayment payments editingPaymentId f s) = s.
Proof.
  intro Hnone. apply savePayment_not_done. unfold savePayment.
  destruct editingPaymentId as [pid|]; [|discriminate].
  destruct (parseFloat _) as [amount|]; [|discriminate].
  destruct (amount <=? 0); [discriminate|].
  destruct (find _ payments) as [p|]; [|discriminate].
  destruct (updatePaymentDoc _ _ _ _ s) as [s1|] eqn:Hupd; [|discriminate].
  unfold updateBalanceDoc.
  rewrite (updatePaymentDoc_balance _ _ _ _ _ _ Hupd), Hnone. discriminate.
Qed.

Lemma store_eta s b :
  balance s = Some b ->
  with_balance (Some {| totalBalance := totalBalance b;
                        lastUpdated := lastUpdated b |}) s = s.
Proof. destruct s, b. simpl. now intros ->. Qed.

(** The form [startEditing] fills in for a row of the current list, saved
    as it is. *)
Lemma untouched_save s row p :
  NoDup (paymentIds s) -> monthsReadable s ->
  nth_error (loadPayments s) row = Some p ->
  fst (edit row (editFormData_ (startEditing p (opened s))) s) = s.
Proof.
  intros Hnd Hm Hrow.
  destruct (balance s) as [b|] eqn:Hb;
    [|now apply savePayment_no_balance].
  destruct (Z.le_gt_cases (amountPaid p) 0) as [Hle | Hpos].
  { apply edit_invalid. right. right. exists (amountPaid p). now split. }
  destruct (loadPayments_origin s p (nth_error_In _ _ Hrow))
    as [[[k v] [Hd ->]] | [[k v] [Hd ->]]];
    cbn [amountPaid monthlyRow eventRow snd] in Hpos.
  - unfold monthsReadable in Hm. rewrite Forall_forall in Hm.
    destruct (Hm (k, v) Hd) as [picked [Hmonth _]]. cbn [snd] in Hmonth.
    rewrite (edit_monthly_effect s row (k, v) b (MonthlyPayment.amountPaid v)
               (editFormData_ (startEditing (monthlyRow (k, v)) (opened s)))
               Hnd Hrow Hd Hb eq_refl Hpos).
    cbn [fst snd]. rewrite patchDoc_same.
    + replace (with_monthlyPayments (monthlyPayments s) s) with s
        by now destruct s.
      rewrite Z.sub_diag, Z.add_0_r. now apply store_eta.
    + intros v' Hv'.
      rewrite (same_id_same_doc _ _ k v' v (NoDup_monthly s Hnd) Hv' Hd).
      cbn [startEditing editFormData_ paymentMonth monthlyRow month type
           isMonthly fst snd andb].
      rewrite Hmonth.
      destruct (isEmpty (monthStringOf picked)); cbn [negb option_map].
      * destruct v. simpl in *. now rewrite Hmonth.
      * rewrite dateOfMonthString_monthStringOf. cbn [option_map].
        destruct v. simpl in *. now rewrite Hmonth.
  - rewrite (edit_event_effect s row (k, v) b (EventPayment.amountPaid v)
               (editFormData_ (startEditing (eventRow (k, v)) (opened s)))
               Hnd Hrow Hd Hb eq_refl Hpos).
    cbn [fst snd]. rewrite patchDoc_same.
    + replace (with_eventPayments (eventPayments s) s) with s
        by now destruct s.
      rewrite Z.sub_diag, Z.add_0_r. now apply store_eta.
    + intros v' Hv'.
      rewrite (same_id_same_doc _ _ k v' v (NoDup_event s Hnd) Hv' Hd).
      now destruct v.
Qed.
End UntouchedEdit.

(** X2. Opening the edit form of a payment and saving it as it stands
    changes nothing: the amount the form is filled with is the stored one,
    so the balance moves by zero, and the month a monthly payment is
    written back with is the one read from it, since the month string
    survives the round trip through the date of the form.  The payments
    are keyed by id and the months on record are month strings of dates. *)
Theorem untouched_edit_changes_nothing (s : Store) (row : nat) :
  NoDup (paymentIds s) -> monthsReadable s ->
  ManagePaymentsModal.session
    [ManagePaymentsModal.ClickEdit row; ManagePaymentsModal.ClickSave] s = s.
Proof.
  intros Hnd Hok. unfold ManagePaymentsModal.session.
  cbn [ManagePaymentsModal.acts ManagePaymentsModal.act
       ManagePaymentsModal.opened ManagePaymentsModal.payments_].
  destruct (nth_error (ManagePaymentsModal.loadPayments s) row) as [p|] eqn:Hrow;
    [|reflexivity].
  pose proof (untouched_save s row p Hnd Hok Hrow) as Hsave.
  unfold ManagePaymentsModal.edit in Hsave. rewrite Hrow in Hsave.
  cbn [option_map] in Hsave.
  cbn [ManagePaymentsModal.startEditing ManagePaymentsModal.payments_
       ManagePaymentsModal.editingPaymentId_ ManagePaymentsModal.editFormData_]
    in *.
  change (ManagePaymentsModal.payments_ (ManagePaymentsModal.opened s))
    with (ManagePaymentsModal.loadPayments s).
  destruct (ManagePaymentsModal.savePayment _ _ _ s) as [s' out].
  cbn [fst] in Hsave. subst s'. now destruct out.
Qed.

Lemma untouched_edit_changes_nothing_witness :
  ManagePaymentsModal.session
    [ManagePaymentsModal.ClickEdit 0; ManagePaymentsModal.ClickSave] twoEvents
  = twoEvents.
Proof.
  assert (Hnd : NoDup (paymentIds twoEvents)).
  { unfold paymentIds. simpl.
    repeat (constructor; [simpl; intuition discriminate|]). constructor. }
  assert (Hm : monthsReadable twoEvents).
  { unfold monthsReadable. simpl. constructor; [|constructor].
    exists january. simpl. repeat split; lia. }
  exact (untouched_edit_changes_nothing twoEvents 0 Hnd Hm).
Defined.

(** ** The payments manager without the stale deletion *)

Section ManagerFacts.
Import ManagePaymentsModal.

Lemma In_patchDoc_other (A : Type) k pid (f : A -> A) (v : A) (c : Collection A) :
  In (k, v) c -> k <> pid -> In (k, v) (patchDoc pid f c).
Proof.
  intros Hin Hne. unfold patchDoc. apply in_map_iff. exists (k, v).
  split; [|exact Hin]. cbn [fst].
  now destruct (String.eqb_spec k pid).
Qed.

Lemma In_loadPayments s p :
  In p (loadPayments s)
  <-> In p (map monthlyRow (monthlyPayments s) ++ map eventRow (eventPayments s))%list.
Proof.
  split; intro H.
  - exact (Permutation_in _ (loadPayments_perm s) H).
  - exact (Permutation_in _ (Permutation_sym (loadPayments_perm s)) H).
Qed.

(** A save that goes through is the edit of a row of the list. *)
Lemma save_is_edit s pid f s' :
  savePayment (loadPayments s) (Some pid) f s = (s', Done) ->
  exists row, edit row f s = (s', Done).
Proof.
  intro Hsave.
  assert (Hfind : exists p, In p (loadPayments s) /\ id p = pid).
  { unfold savePayment in Hsave.
    destruct (parseFloat (amountPaid_ f)); [|discriminate Hsave].
    destruct (_ <=? 0); [discriminate Hsave|].
    destruct (find _ (loadPayments s)) as [p|] eqn:Hfind; [|discriminate Hsave].
    apply find_some in Hfind. destruct Hfind as [Hin Hid].
    apply String.eqb_eq in Hid. eauto. }
  destruct Hfind as [p [Hin Hid]].
  destruct (In_nth_error _ _ Hin) as [row Hrow].
  exists row. unfold edit. rewrite Hrow. cbn [option_map]. now rewrite Hid.
Qed.

(** A save leaves the rows of the other payments as they are. *)
Lemma save_keeps_other_rows payments pid f s s' p :
  savePayment payments (Some pid) f s = (s', Done) ->
  In p (loadPayments s) -> id p <> pid -> In p (loadPayments s').
Proof.
  unfold savePayment. intros Hsave Hin Hne.
  destruct (parseFloat (amountPaid_ f)) as [amount|]; [|discriminate Hsave].
  destruct (amount <=? 0); [discriminate Hsave|].
  destruct (find _ payments) as [q|]; [|discriminate Hsave].
  unfold updatePaymentDoc, updateDoc, updateBalanceDoc in Hsave.
  apply In_loadPayments. apply In_loadPayments in Hin.
  apply in_app_or in Hin. apply in_or_app.
  destruct (collectionName q).
  - destruct (getDoc pid (monthlyPayments s)); [|discriminate Hsave].
    cbn [option_map] in Hsave. store_simpl.
    destruct (balance s); [|discriminate Hsave].
    inversion Hsave; subst s'. store_simpl.
    destruct Hin as [Hin | Hin]; [left | now right].
    apply in_map_iff in Hin. destruct Hin as [[k v] [Hrow Hin]]. subst p.
    apply in_map. apply In_patchDoc_other; assumption.
  - destruct (getDoc pid (eventPayments s)); [|discriminate Hsave].
    cbn [option_map] in Hsave. store_simpl.
    destruct (balance s); [|discriminate Hsave].
    inversion Hsave; subst s'. store_simpl.
    destruct Hin as [Hin | Hin]; [now left | right].
    apply in_map_iff in Hin. destruct Hin as [[k v] [Hrow Hin]]. subst p.
    apply in_map. apply In_patchDoc_other; assumption.
Qed.

Lemma act_managerOk a st s :
  managerOk st s ->
  (a = ClickSave -> savesPendingRow st = false) ->
  managerOk (fst (act a st s)) (snd (act a st s)).
Proof.
  intros [Hcur [Hu [Hb Hpending]]] Hsafe.
  assert (Hstay : managerOk st s) by (unfold managerOk; auto).
  destruct a; cbn [act].
  - destruct (nth_error (payments_ st) row); exact Hstay.
  - exact Hstay.
  - exact Hstay.
  - exact Hstay.
  - (* save *)
    specialize (Hsafe eq_refl). rewrite Hcur.
    destruct (savePayment (loadPayments s) (editingPaymentId_ st)
                (editFormData_ st) s) as [s' out] eqn:Hsave.
    assert (Hnot : out <> Done -> s' = s).
    { intro Hout.
      pose proof (savePayment_not_done (loadPayments s) (editingPaymentId_ st)
                    (editFormData_ st) s) as Hnd.
      rewrite Hsave in Hnd. now apply Hnd. }
    destruct out; cbn [fst snd];
      try (rewrite Hnot by discriminate; exact Hstay).
    destruct (editingPaymentId_ st) as [pid|] eqn:Hedit;
      [|discriminate Hsave].
    destruct (save_is_edit s pid _ s' Hsave) as [row Hrow].
    pose proof (edit_preserves s row (editFormData_ st) Hu Hb) as Hkeep.
    rewrite Hrow in Hkeep. cbn [fst] in Hkeep.
    unfold managerOk. cbn [payments_ deleteConfirmPayment_].
    split; [reflexivity|]. split; [tauto|]. split; [tauto|].
    intros p Hp.
    apply (save_keeps_other_rows _ pid _ s s' p Hsave (Hpending p Hp)).
    unfold savesPendingRow in Hsafe. rewrite Hedit, Hp in Hsafe.
    intro Heq. rewrite Heq, String.eqb_refl in Hsafe. discriminate.
  - destruct (nth_error (payments_ st) row) as [p|] eqn:Hrow; [|exact Hstay].
    unfold managerOk. cbn [fst snd confirmDelete payments_ deleteConfirmPayment_].
    split; [exact Hcur|]. split; [exact Hu|]. split; [exact Hb|].
    intros q Hq. inversion Hq; subst q.
    rewrite <- Hcur. eapply nth_error_In, Hrow.
  - unfold managerOk. cbn [fst snd cancelDelete payments_ deleteConfirmPayment_].
    split; [exact Hcur|]. split; [exact Hu|]. split; [exact Hb|]. discriminate.
  - (* the deletion is confirmed *)
    destruct (deletePayment (deleteConfirmPayment_ st) s) as [s' out] eqn:Hdel.
    assert (Hnot : out <> Done -> s' = s).
    { intro Hout.
      pose proof (deletePayment_not_done (deleteConfirmPayment_ st) s) as Hnd.
      rewrite Hdel in Hnd. now apply Hnd. }
    destruct out; cbn [fst snd];
      try (rewrite Hnot by discriminate; exact Hstay).
    destruct (deleteConfirmPayment_ st) as [p|] eqn:Hp; [|discriminate Hdel].
    destruct (In_nth_error _ _ (Hpending p eq_refl)) as [row Hrow].
    pose proof (delete_preserves s row Hu Hb) as Hkeep.
    unfold delete in Hkeep. rewrite Hrow, Hdel in Hkeep. cbn [fst] in Hkeep.
    unfold managerOk. cbn [payments_ deleteConfirmPayment_].
    split; [reflexivity|]. split; [tauto|]. split; [tauto|]. discriminate.
Qed.

Lemma acts_managerOk l : forall st s,
  managerOk st s -> keepsPendingRow l st s = true ->
  managerOk (fst (acts l st s)) (snd (acts l st s)).
Proof.
  induction l as [|a l IH]; intros st s H Hsafe; [exact H|].
  cbn [keepsPendingRow] in Hsafe. apply andb_prop in Hsafe.
  destruct Hsafe as [Ha Hl]. cbn [acts].
  assert (Hstep : managerOk (fst (act a st s)) (snd (act a st s))).
  { apply act_managerOk; [exact H|]. intros ->.
    now apply negb_true_iff in Ha. }
  destruct (act a st s) as [st' s']. now apply IH.
Qed.
End ManagerFacts.

(** X19. In the payments manager, saving the row whose deletion awaits its
    confirmation is the only way to unbalance the ledger.  In a session
    that has no such save, whatever else is pressed and typed, in any
    order and any number of times, the ids stay keys and [totalBalance]
    stays the sum of the payments minus the sum of the expenses.  The
    amounts are whole numbers, and at every save and every confirmed
    deletion of the session the magnitudes of the numbers it adds up stay
    within the safe integers. *)
Theorem manager_keeps_balance
    (s : Store) (l : list ManagePaymentsModal.Action) :
  uniqueIds s -> balanced s ->
  keepsPendingRow l (ManagePaymentsModal.opened s) s = true ->
  staysExact l (ManagePaymentsModal.opened s) s = true ->
  uniqueIds (ManagePaymentsModal.session l s)
  /\ balanced (ManagePaymentsModal.session l s).
Proof.
  intros Hu Hb Hsafe _.
  assert (H0 : managerOk (ManagePaymentsModal.opened s) s).
  { unfold managerOk.
    cbn [ManagePaymentsModal.opened ManagePaymentsModal.payments_
         ManagePaymentsModal.deleteConfirmPayment_].
    split; [reflexivity|]. split; [exact Hu|]. split; [exact Hb|].
    discriminate. }
  destruct (acts_managerOk l _ s H0 Hsafe) as [_ [Hu' [Hb' _]]].
  unfold ManagePaymentsModal.session. tauto.
Qed.

Lemma manager_keeps_balance_witness :
  keepsPendingRow
    [ManagePaymentsModal.ClickDelete 0; ManagePaymentsModal.ClickEdit 1;
     ManagePaymentsModal.TypeAmount (Number 350); ManagePaymentsModal.ClickSave;
     ManagePaymentsModal.ClickConfirmDelete]
    (ManagePaymentsModal.opened twoEvents) twoEvents = true
  /\ balanced
       (ManagePaymentsModal.session
          [ManagePaymentsModal.ClickDelete 0; ManagePaymentsModal.ClickEdit 1;
           ManagePaymentsModal.TypeAmount (Number 350);
           ManagePaymentsModal.ClickSave;
           ManagePaymentsModal.ClickConfirmDelete] twoEvents).
Proof.
  assert (Hu : uniqueIds twoEvents).
  { unfold uniqueIds, paymentIds. simpl. split;
      repeat (constructor; [simpl; intuition discriminate|]); constructor. }
  assert (Hb : balanced twoEvents) by reflexivity.
  assert (Hsafe : keepsPendingRow
            [ManagePaymentsModal.ClickDelete 0; ManagePaymentsModal.ClickEdit 1;
             ManagePaymentsModal.TypeAmount (Number 350);
             ManagePaymentsModal.ClickSave;
             ManagePaymentsModal.ClickConfirmDelete]
            (ManagePaymentsModal.opened twoEvents) twoEvents = true)
    by (vm_compute; reflexivity).
  assert (Hexact : staysExact
            [ManagePaymentsModal.ClickDelete 0; ManagePaymentsModal.ClickEdit 1;
             ManagePaymentsModal.TypeAmount (Number 350);
             ManagePaymentsModal.ClickSave;
             ManagePaymentsModal.ClickConfirmDelete]
            (ManagePaymentsModal.opened twoEvents) twoEvents = true)
    by (vm_compute; reflexivity).
  split; [exact Hsafe|].
  exact (proj2 (manager_keeps_balance twoEvents _ Hu Hb Hsafe Hexact)).
Defined.

(** ** The status table of the events page *)

Section StatusTable.
Import EventsPage.

Lemma mapGet_mapSet fid key value m :
  mapGet fid (mapSet key value m)
  = if (key =? fid)%string then Some value else mapGet fid m.
Proof.
  unfold mapGet. induction m as [|[k v] m' IH]; simpl.
  - reflexivity.
  - destruct (String.eqb_spec k key) as [->|Hk]; simpl.
    + now destruct (key =? fid)%string.
    + destruct (String.eqb_spec k fid) as [->|Hf]; [|exact IH].
      destruct (String.eqb_spec key fid); [congruence | reflexivity].
Qed.

(** After the loop over the documents, the map holds for each floor the
    last document of that floor. *)
Lemma paidFloors_last fid (docs : Collection EventPayment.t) : forall m,
  mapGet fid
    (fold_left
       (fun m doc => mapSet (EventPayment.floorId (snd doc)) (infoOf (snd doc)) m)
       docs m)
  = match lastOf (filter (fun p => (EventPayment.floorId p =? fid)%string)
                    (map snd docs)) with
    | Some p => Some (infoOf p)
    | None => mapGet fid m
    end.
Proof.
  induction docs as [|[k p] docs IH]; intro m; simpl; [reflexivity|].
  rewrite IH, mapGet_mapSet.
  destruct (EventPayment.floorId p =? fid)%string; simpl;
    now destruct (lastOf _).
Qed.

Lemma query_then_floor eid fid (c : Collection EventPayment.t) :
  filter (fun p => (EventPayment.floorId p =? fid)%string)
    (map snd (queryWhere (fun p => (EventPayment.eventId p =? eid)%string) c))
  = filter (fun p => (EventPayment.eventId p =? eid)%string
                     && (EventPayment.floorId p =? fid)%string)
      (map snd c).
Proof.
  unfold queryWhere. induction c as [|[k p] c' IH]; simpl; [reflexivity|].
  destruct (EventPayment.eventId p =? eid)%string; simpl; [|exact IH].
  destruct (EventPayment.floorId p =? fid)%string; now rewrite IH.
Qed.
End StatusTable.

Lemma status_line eid s floor :
  EventsPage.statusOf floor
    (EventsPage.mapGet (fst floor)
       (fold_left
          (fun m doc =>
             EventsPage.mapSet (EventPayment.floorId (snd doc))
               (EventsPage.infoOf (snd doc)) m)
          (queryWhere (fun p => (EventPayment.eventId p =? eid)%string)
             (eventPayments s)) []))
  = statusLine eid s floor.
Proof.
  unfold statusLine. rewrite paidFloors_last, query_then_floor.
  unfold paymentsOfKey. now destruct (lastOf _).
Qed.

(** X20. The status table of the events page has one line per floor, and
    the line of a floor shows the last payment document of that floor for
    the selected event, in the order of the query, whatever the floor
    paid before: [Map.set] replaces the entry of a floor that has one.  A
    floor without payment has an empty line, not paid. *)
Theorem status_table_shows_last_payment
    (eid : DocId) (floors : Collection Floor) (s : Store) :
  EventsPage.loadEventPaymentStatus (Some eid) floors s
  = Some (map (statusLine eid s) floors).
Proof.
  unfold EventsPage.loadEventPaymentStatus. f_equal.
  apply map_ext. intro floor. apply status_line.
Qed.

(** ** Sums by key *)

Section SumByKey.
Variable A : Type.
Variable key : A -> DocId.
Variable field : A -> Z.
Implicit Types (c : Collection A) (ks : list DocId).

Lemma fold_left_sum (B : Type) (g : B -> Z) (l : list B) : forall a,
  fold_left (fun sum x => sum + g x) l a
  = a + fold_right (fun x acc => g x + acc) 0 l.
Proof.
  induction l as [|x l IH]; intro a; simpl; [lia|]. rewrite IH. lia.
Qed.

Lemma sumOf_filter_or (p q : DocId * A -> bool) c :
  (forall kv, In kv c -> p kv = true -> q kv = false) ->
  sumOf field (filter (fun kv => p kv || q kv) c)
  = sumOf field (filter p c) + sumOf field (filter q c).
Proof.
  induction c as [|kv c' IH]; intro Hdis; simpl; [reflexivity|].
  assert (IH' := IH (fun kv' Hin => Hdis kv' (or_intror Hin))).
  pose proof (Hdis kv (or_introl eq_refl)) as Hkv.
  destruct (p kv); simpl.
  - rewrite (Hkv eq_refl). simpl. lia.
  - destruct (q kv); simpl; lia.
Qed.

(** The sums of a field over the documents of each key of a list without
    repetition add up to the sum over the documents of these keys. *)
Lemma sum_by_key ks c :
  NoDup ks ->
  fold_right
    (fun k acc =>
       sumOf field (filter (fun kv => (key (snd kv) =? k)%string) c) + acc)
    0 ks
  = sumOf field (filter (fun kv => existsb (String.eqb (key (snd kv))) ks) c).
Proof.
  induction 1 as [|k ks' Hk Hnd IH]; simpl.
  - induction c as [|kv c' IHc]; simpl; [reflexivity | exact IHc].
  - rewrite IH.
    rewrite <- (sumOf_filter_or
                  (fun kv => (key (snd kv) =? k)%string)
                  (fun kv => existsb (String.eqb (key (snd kv))) ks')).
    + reflexivity.
    + intros kv _ Heq. apply String.eqb_eq in Heq.
      destruct (existsb _ ks') eqn:Hex; [|reflexivity].
      apply existsb_exists in Hex. destruct Hex as [k' [Hin Hk']].
      apply String.eqb_eq in Hk'. exfalso. apply Hk. congruence.
Qed.

Lemma sumOf_filter_all (q : DocId * A -> bool) c :
  (forall kv, In kv c -> q kv = true) -> sumOf field (filter q c) = sumOf field c.
Proof.
  induction c as [|kv c' IH]; intro Hall; simpl; [reflexivity|].
  rewrite (Hall kv (or_introl eq_refl)). simpl.
  rewrite IH by (intros kv' Hin; apply Hall; now right). reflexivity.
Qed.

Lemma sumOf_filter_le (q : DocId * A -> bool) c :
  (forall kv, In kv c -> 0 <= field (snd kv)) ->
  0 <= sumOf field (filter q c) <= sumOf field c.
Proof.
  induction c as [|kv c' IH]; intro Hpos; simpl; [lia|].
  pose proof (Hpos kv (or_introl eq_refl)).
  assert (IH' := IH (fun kv' Hin => Hpos kv' (or_intror Hin))).
  destruct (q kv); simpl; lia.
Qed.

Lemma lastOf_le_sumOf c :
  (forall kv, In kv c -> 0 <= field (snd kv)) ->
  match lastOf (map snd c) with Some p => field p | None => 0 end
  <= sumOf field c.
Proof.
  induction c as [|kv c' IH]; intro Hpos; simpl; [lia|].
  pose proof (Hpos kv (or_introl eq_refl)).
  assert (IH' := IH (fun kv' Hin => Hpos kv' (or_intror Hin))).
  assert (0 <= sumOf field c').
  { pose proof (sumOf_filter_le (fun _ => true) c'
                  (fun kv' Hin => Hpos kv' (or_intror Hin))). lia. }
  destruct (lastOf (map snd c')); lia.
Qed.
End SumByKey.

(** ** The figures of the dashboard *)

Section DashboardFacts.
Import AdminDashboard.
Variable s : Store.

(** A figure that a listener sets from the store holds its value of the
    store once that listener has fired, whatever fires after. *)
Lemma fire_sets (P : State -> Prop) (l0 : Listener) order :
  (forall st, P (onSnapshot l0 s st)) ->
  (forall l st, P st -> P (onSnapshot l s st)) ->
  In l0 order -> forall st, P (fire order s st).
Proof.
  intros Hset Hkeep. unfold fire.
  assert (Hrest : forall rest st, P st ->
            P (fold_left (fun st l => onSnapshot l s st) rest st)).
  { induction rest as [|l rest IH]; intros st H; simpl; auto. }
  induction order as [|l order IH]; intros Hin st; simpl; [destruct Hin|].
  destruct Hin as [-> | Hin]; [apply Hrest, Hset | now apply IH].
Qed.

Lemma collectedRead_eventsRead st : collectedRead s st -> eventsRead s st.
Proof.
  unfold collectedRead, eventsRead. intros ->. rewrite map_map. simpl.
  induction (events s) as [|[k v] c IH]; simpl; [reflexivity | now rewrite IH].
Qed.

Lemma payments_after_events st :
  eventsRead s st -> collectedRead s (onSnapshot eventPaymentsListener s st).
Proof.
  unfold eventsRead, collectedRead. cbn [onSnapshot maintenanceEvents].
  intros <-. rewrite map_map. reflexivity.
Qed.

Lemma fire_collectedShown order : forall ev col st,
  (ev = true -> eventsRead s st) -> (col = true -> collectedRead s st) ->
  collectedShown ev col order = true ->
  collectedRead s (fire order s st).
Proof.
  unfold fire.
  induction order as [|l order IH]; intros ev col st Hev Hcol Hshown;
    cbn [collectedShown fold_left] in *; [auto|].
  destruct l; cbn [isEventsListener isEventPaymentsListener] in Hshown;
    try (apply (IH ev col); [exact Hev | exact Hcol | exact Hshown]).
  - (* the events are read again *)
    apply (IH true false); [|discriminate | exact Hshown].
    intros _. unfold eventsRead. cbn [onSnapshot maintenanceEvents].
    rewrite map_map. simpl.
    induction (events s) as [|[k v] c IHc]; simpl;
      [reflexivity | now rewrite IHc].
  - (* the collected amounts are set *)
    apply (IH ev ev); [| |exact Hshown]; intro E.
    + apply collectedRead_eventsRead, payments_after_events. auto.
    + apply payments_after_events. auto.
Qed.

Lemma collectedRead_total st :
  NoDup (ids (events s)) -> paymentsReferToEvents s ->
  collectedRead s st ->
  maintenanceCollected st = sumOf EventPayment.amountPaid (eventPayments s).
Proof.
  intros Hnd Hrefer Hread. unfold maintenanceCollected. rewrite Hread.
  rewrite fold_left_sum, Z.add_0_l.
  rewrite <- (sumOf_filter_all _ EventPayment.amountPaid
                (fun kv => existsb (String.eqb (EventPayment.eventId (snd kv)))
                             (ids (events s)))
                (eventPayments s)).
  - rewrite <- (sum_by_key _ EventPayment.eventId EventPayment.amountPaid
                  (ids (events s)) (eventPayments s) Hnd).
    clear Hnd Hrefer Hread. unfold ids.
    induction (events s) as [|[k v] c IH]; simpl; [reflexivity|].
    rewrite reduceSum_sumOf, or0_id. f_equal. exact IH.
  - intros kv Hin. apply existsb_exists.
    exists (EventPayment.eventId (snd kv)). split; [|apply String.eqb_refl].
    unfold paymentsReferToEvents in Hrefer. rewrite Forall_forall in Hrefer.
    auto.
Qed.
End DashboardFacts.

(** X21. When the listeners of the dashboard have fired on a balanced
    ledger, the listener of the event payments after the last firing of
    the listener of the events, the figures shown add up: the balance is
    the monthly collected plus the amounts collected for the events minus
    the total expenses.  Every event payment names an event of the store
    and the ids of the events are keys, so each payment is counted for
    one event.  The amounts are whole numbers whose magnitudes add up to
    a safe integer, so that the sums of the listeners are exact in the
    order they are taken. *)
Theorem dashboard_adds_up
    (s : Store) (order : list AdminDashboard.Listener)
    (st : AdminDashboard.State) :
  balanced s -> wholeLedger s ->
  paymentsReferToEvents s -> NoDup (ids (events s)) ->
  In AdminDashboard.balanceListener order ->
  In AdminDashboard.monthlyPaymentsListener order ->
  In AdminDashboard.expensesListener order ->
  collectedShown false false order = true ->
  let st' := AdminDashboard.fire order s st in
  AdminDashboard.FinancialData.totalBalance (AdminDashboard.financialData st')
  = AdminDashboard.FinancialData.monthlyCollected
      (AdminDashboard.financialData st')
    + AdminDashboard.maintenanceCollected st'
    - AdminDashboard.FinancialData.totalExpenses
        (AdminDashboard.financialData st').
Proof.
  intros Hb _ Hrefer Hnd Hbal Hmon Hexp Hshown. cbn zeta.
  destruct (balanced_inv s Hb) as [b [Hsome Htotal]].
  rewrite (fire_sets s
             (fun st => AdminDashboard.FinancialData.totalBalance
                          (AdminDashboard.financialData st)
                        = readTotalBalance s)
             AdminDashboard.balanceListener order)
    by (reflexivity || (intros l st0; now destruct l) || exact Hbal).
  rewrite (fire_sets s
             (fun st => AdminDashboard.FinancialData.monthlyCollected
                          (AdminDashboard.financialData st)
                        = reduceSum MonthlyPayment.amountPaid (monthlyPayments s))
             AdminDashboard.monthlyPaymentsListener order)
    by (reflexivity || (intros l st0; now destruct l) || exact Hmon).
  rewrite (fire_sets s
             (fun st => AdminDashboard.FinancialData.totalExpenses
                          (AdminDashboard.financialData st)
                        = reduceSum Expense.amount (expenses s))
             AdminDashboard.expensesListener order)
    by (reflexivity || (intros l st0; now destruct l) || exact Hexp).
  rewrite (collectedRead_total s _ Hnd Hrefer
             (fire_collectedShown s order false false st
                ltac:(discriminate) ltac:(discriminate) Hshown)).
  rewrite !reduceSum_sumOf. unfold readTotalBalance. rewrite Hsome, or0_id.
  rewrite Htotal. unfold sumPayments, sumExpenses. lia.
Qed.

Lemma twoEvents_refer : paymentsReferToEvents twoEvents.
Proof.
  unfold paymentsReferToEvents. simpl.
  repeat (apply Forall_cons; [simpl; auto|]). apply Forall_nil.
Qed.

Lemma twoEvents_event_ids : NoDup (ids (events twoEvents)).
Proof.
  simpl. repeat (constructor; [simpl; intuition discriminate|]). constructor.
Qed.

Lemma dashboard_adds_up_witness :
  AdminDashboard.FinancialData.totalBalance
    (AdminDashboard.financialData
       (AdminDashboard.fire
          [AdminDashboard.balanceListener; AdminDashboard.monthlyDueListener;
           AdminDashboard.floorsListener; AdminDashboard.eventsListener;
           AdminDashboard.monthlyPaymentsListener;
           AdminDashboard.eventPaymentsListener;
           AdminDashboard.expensesListener]
          twoEvents AdminDashboard.initial))
  = 100
    + AdminDashboard.maintenanceCollected
        (AdminDashboard.fire
           [AdminDashboard.balanceListener; AdminDashboard.monthlyDueListener;
            AdminDashboard.floorsListener; AdminDashboard.eventsListener;
            AdminDashboard.monthlyPaymentsListener;
            AdminDashboard.eventPaymentsListener;
            AdminDashboard.expensesListener]
           twoEvents AdminDashboard.initial)
    - 180.
Proof.
  assert (Hb : balanced twoEvents) by reflexivity.
  assert (Hw : wholeLedger twoEvents) by (vm_compute; discriminate).
  exact (dashboard_adds_up twoEvents
           [AdminDashboard.balanceListener; AdminDashboard.monthlyDueListener;
            AdminDashboard.floorsListener; AdminDashboard.eventsListener;
            AdminDashboard.monthlyPaymentsListener;
            AdminDashboard.eventPaymentsListener;
            AdminDashboard.expensesListener]
           AdminDashboard.initial Hb Hw twoEvents_refer twoEvents_event_ids
           (or_introl eq_refl)
           (or_intror (or_intror (or_intror (or_intror (or_introl eq_refl)))))
           (or_intror (or_intror (or_intror (or_intror (or_intror
              (or_intror (or_introl eq_refl)))))))
           eq_refl).
Defined.

Section DashboardReset.
Import AdminDashboard.

Lemma no_collected_total st :
  Forall (fun e => collectedAmount e = None) (maintenanceEvents st) ->
  maintenanceCollected st = 0.
Proof.
  unfold maintenanceCollected. rewrite fold_left_sum, Z.add_0_l.
  induction 1 as [|e l He Hl IH]; simpl; [reflexivity|].
  now rewrite He, IH.
Qed.

Lemma fire_not_shown s order : forall ev col st,
  (ev = false -> maintenanceEvents st = []) ->
  (col = false -> Forall (fun e => collectedAmount e = None) (maintenanceEvents st)) ->
  collectedShown ev col order = false ->
  Forall (fun e => collectedAmount e = None)
    (maintenanceEvents (fire order s st)).
Proof.
  unfold fire.
  induction order as [|l order IH]; intros ev col st Hev Hcol Hshown;
    cbn [collectedShown fold_left] in *; [auto|].
  destruct l; cbn [isEventsListener isEventPaymentsListener] in Hshown;
    try (apply (IH ev col); [exact Hev | exact Hcol | exact Hshown]).
  - apply (IH true false); [discriminate | | exact Hshown].
    intros _. cbn [onSnapshot maintenanceEvents].
    apply Forall_forall. intros e He. apply in_map_iff in He.
    destruct He as [doc [<- _]]. reflexivity.
  - apply (IH ev ev); [| |exact Hshown]; intro E;
      cbn [onSnapshot maintenanceEvents]; rewrite (Hev E); simpl;
      reflexivity || constructor.
Qed.
End DashboardReset.

(** X22. The listener of the events replaces the events of the dashboard
    by the documents read, which carry no collected amount.  Until the
    listener of the event payments fires again, the dashboard shows zero
    as the amount collected for the events, whatever the payments on
    record: so it is after every change of an event that is not followed
    by a change of a payment. *)
Theorem collected_hidden_after_events_change
    (s : Store) (order : list AdminDashboard.Listener) :
  collectedShown false false order = false ->
  AdminDashboard.maintenanceCollected
    (AdminDashboard.fire order s AdminDashboard.initial) = 0.
Proof.
  intro Hshown. apply no_collected_total.
  apply (fire_not_shown s order false false); auto.
Qed.

Lemma collected_hidden_after_events_change_witness :
  sumOf EventPayment.amountPaid (eventPayments twoEvents) = 450
  /\ AdminDashboard.maintenanceCollected
       (AdminDashboard.fire
          [AdminDashboard.eventsListener; AdminDashboard.eventPaymentsListener;
           AdminDashboard.eventsListener]
          twoEvents AdminDashboard.initial) = 0.
Proof.
  split; [reflexivity|].
  exact (collected_hidden_after_events_change twoEvents
           [AdminDashboard.eventsListener; AdminDashboard.eventPaymentsListener;
            AdminDashboard.eventsListener] eq_refl).
Defined.

(** ** The totals of the events page *)

Section PageTotals.
Import EventsPage.

Lemma filter_map_snd (A : Type) (q : A -> bool) (c : Collection A) :
  filter q (map snd c) = map snd (filter (fun kv => q (snd kv)) c).
Proof.
  induction c as [|kv c' IH]; simpl; [reflexivity|].
  destruct (q (snd kv)); simpl; now rewrite IH.
Qed.

Lemma line_amount eid s floor :
  match amountPaid_ (statusLine eid s floor) with
  | Some a => or0 a
  | None => 0
  end
  = match lastOf
            (map snd
               (filter (fun kv => (EventPayment.floorId (snd kv) =? fst floor)%string)
                  (queryWhere (fun p => (EventPayment.eventId p =? eid)%string)
                     (eventPayments s)))) with
    | Some p => EventPayment.amountPaid p
    | None => 0
    end.
Proof.
  unfold statusLine, paymentsOfKey.
  rewrite <- query_then_floor, filter_map_snd.
  cbn [statusOf amountPaid_].
  destruct (lastOf _); simpl; [apply or0_id | reflexivity].
Qed.
End PageTotals.

(** X23. The total collected that the events page shows for an event is
    at most the sum of the payments on record for it: of each floor it
    counts the last payment only, so instalments of a floor paid earlier
    are left out.  The floors are keyed by id and the amounts paid are
    positive whole numbers that add up to a safe integer. *)
Theorem page_total_at_most_collected
    (s : Store) (eid : DocId) (floors : Collection Floor)
    (table : list EventsPage.EventPaymentStatus) :
  recordsOk s -> wholeLedger s -> NoDup (ids floors) ->
  EventsPage.loadEventPaymentStatus (Some eid) floors s = Some table ->
  EventsPage.totalCollected table
  <= sumOf EventPayment.amountPaid
       (queryWhere (fun p => (EventPayment.eventId p =? eid)%string)
          (eventPayments s)).
Proof.
  intros [_ [Hok _]] _ Hnd Htable.
  unfold EventsPage.loadEventPaymentStatus in Htable.
  rewrite (map_ext _ _ (status_line eid s)) in Htable.
  inversion Htable; subst table.
  unfold EventsPage.totalCollected. rewrite fold_left_sum, Z.add_0_l.
  set (c := queryWhere (fun p => (EventPayment.eventId p =? eid)%string)
              (eventPayments s)).
  assert (Hpos : forall kv, In kv c -> 0 <= EventPayment.amountPaid (snd kv)).
  { intros kv Hin. apply filter_In in Hin. destruct Hin as [Hin _].
    rewrite Forall_forall in Hok. destruct (Hok kv Hin) as [Hlt _]. lia. }
  pose proof (sum_by_key _ EventPayment.floorId EventPayment.amountPaid
                (ids floors) c Hnd) as Hsum.
  pose proof (sumOf_filter_le _ EventPayment.amountPaid
                (fun kv => existsb (String.eqb (EventPayment.floorId (snd kv)))
                             (ids floors)) c Hpos) as Hle.
  rewrite <- Hsum in Hle. clear Hsum Hnd Htable.
  apply Z.le_trans with (2 := proj2 Hle). clear Hle.
  unfold ids. induction floors as [|floor fs IH]; cbn [map fold_right]; [lia|].
  rewrite line_amount. fold c.
  pose proof (lastOf_le_sumOf _ EventPayment.amountPaid
                (filter (fun kv => (EventPayment.floorId (snd kv) =? fst floor)%string) c)
                (fun kv Hin => Hpos kv (proj1 (proj1 (filter_In _ _ _) Hin)))).
  lia.
Qed.

Lemma page_total_at_most_collected_witness :
  EventsPage.totalCollected
    (map (statusLine "e1" twoEventPayments) (floors twoEventPayments)) = 200
  /\ sumOf EventPayment.amountPaid
       (queryWhere (fun p => (EventPayment.eventId p =? "e1")%string)
          (eventPayments twoEventPayments)) = 400
  /\ 200 <= 400.
Proof.
  assert (Hok : recordsOk twoEventPayments) by check_records.
  assert (Hw : wholeLedger twoEventPayments) by (vm_compute; discriminate).
  assert (Hnd : NoDup (ids (floors twoEventPayments))).
  { simpl. repeat (constructor; [simpl; intuition discriminate|]). constructor. }
  assert (Htable :
    EventsPage.loadEventPaymentStatus (Some "e1") (floors twoEventPayments)
      twoEventPayments
    = Some (map (statusLine "e1" twoEventPayments) (floors twoEventPayments)))
    by (vm_compute; reflexivity).
  split; [vm_compute; reflexivity|]. split; [vm_compute; reflexivity|].
  exact (page_total_at_most_collected twoEventPayments "e1"
           (floors twoEventPayments) _ Hok Hw Hnd Htable).
Defined.

(** ** The page and the modal *)

Section FirstAndLast.

Lemma last_default (A : Type) (a x y : A) (l : list A) :
  last (a :: l) x = last (a :: l) y.
Proof.
  revert a. induction l as [|b l IH]; intro a; [reflexivity|].
  change (last (b :: l) x = last (b :: l) y). apply IH.
Qed.

Lemma lastOf_cons (A : Type) (x : A) (l : list A) :
  lastOf (x :: l) = Some (last l x).
Proof.
  revert x. induction l as [|y l IH]; intro x; [reflexivity|].
  change (lastOf (x :: y :: l))
    with (match lastOf (y :: l) with Some z => Some z | None => Some x end).
  rewrite IH. f_equal. destruct l as [|a l]; [reflexivity|].
  change (last (y :: a :: l) x) with (last (a :: l) x). apply last_default.
Qed.
End FirstAndLast.

(** X24. For a floor that has paid towards an event, the payment modal
    and the events page read different documents: the modal checks a new
    payment against the remaining amount stored with the first payment of
    the floor, in the order of the query, and the page shows the remaining
    amount stored with the last.  They agree when the floor has one
    payment on record. *)
Theorem modal_reads_first_page_shows_last
    (s : Store) (eid fid : DocId) (fl : Floor)
    (first : EventPayment.t) (rest : list EventPayment.t) :
  paymentsOfKey eid fid s = first :: rest ->
  MaintenancePaymentModal.getRemainingAmount
    (MaintenancePaymentModal.loadData s) eid fid
  = EventPayment.remainingAmount first
  /\ EventsPage.remainingAmount_ (statusLine eid s (fid, fl))
     = Some (EventPayment.remainingAmount (last rest first)).
Proof.
  intro Hkey. split.
  - unfold MaintenancePaymentModal.getRemainingAmount.
    cbn [MaintenancePaymentModal.existingPayments
         MaintenancePaymentModal.loadData].
    unfold paymentsOfKey in Hkey.
    induction (map snd (eventPayments s)) as [|p l IH]; [discriminate Hkey|].
    simpl in *. destruct (_ && _).
    + now inversion Hkey.
    + now apply IH.
  - unfold statusLine. cbn [fst]. rewrite Hkey, lastOf_cons. reflexivity.
Qed.

Lemma modal_reads_first_page_shows_last_witness :
  MaintenancePaymentModal.getRemainingAmount
    (MaintenancePaymentModal.loadData threeEventPayments) "e1" "f1" = Fin 400
  /\ EventsPage.remainingAmount_
       (statusLine "e1" threeEventPayments ("f1", {| floorNumber := 0 |}))
     = Some (Fin 300).
Proof.
  assert (Hkey : exists d1 d2 d3,
            paymentsOfKey "e1" "f1" threeEventPayments = [d1; d2; d3]
            /\ EventPayment.remainingAmount d1 = Fin 400
            /\ EventPayment.remainingAmount d3 = Fin 300)
    by (vm_compute; eauto 10).
  destruct Hkey as [d1 [d2 [d3 [Hkey [H1 H3]]]]].
  destruct (modal_reads_first_page_shows_last threeEventPayments "e1" "f1"
              {| floorNumber := 0 |} d1 [d2; d3] Hkey) as [Hmodal Hpage].
  rewrite Hmodal, Hpage. cbn [last]. now rewrite H1, H3.
Defined.

(** ** What counts as paid *)

Section PaidFacts.

Lemma getDoc_objSet (B : Type) k key (value : B) obj :
  getDoc k (AdminDashboard.objSet key value obj)
  = if (key =? k)%string then Some value else getDoc k obj.
Proof.
  induction obj as [|[k' v] obj' IH]; simpl.
  - reflexivity.
  - destruct (String.eqb_spec k' key) as [->|Hk]; simpl.
    + now destruct (key =? k)%string.
    + destruct (String.eqb_spec k' k) as [->|Hf]; [|exact IH].
      destruct (String.eqb_spec key k); [congruence | reflexivity].
Qed.

(** A floor is marked as soon as one of the documents is of that floor. *)
Lemma marked_floors (A : Type) (floorOf : A -> DocId) fid (docs : Collection A) :
  forall floors,
  getDoc fid
    (fold_left (fun floors doc => AdminDashboard.objSet (floorOf (snd doc)) true floors)
       docs floors)
  = if existsb (fun doc => (floorOf (snd doc) =? fid)%string) docs
    then Some true else getDoc fid floors.
Proof.
  induction docs as [|doc docs IH]; intro floors; simpl; [reflexivity|].
  rewrite IH, getDoc_objSet.
  destruct (floorOf (snd doc) =? fid)%string; simpl; [|reflexivity].
  now destruct (existsb _ docs).
Qed.

Lemma setHas_fold fid (docs : Collection MonthlyPayment.t) : forall set,
  HomePage.setHas fid
    (fold_left (fun set doc => HomePage.setAdd (MonthlyPayment.floorId (snd doc)) set)
       docs set)
  = HomePage.setHas fid set
    || existsb (fun doc => (MonthlyPayment.floorId (snd doc) =? fid)%string) docs.
Proof.
  unfold HomePage.setHas.
  induction docs as [|doc docs IH]; intro set; simpl;
    [now rewrite orb_false_r|].
  rewrite IH. unfold HomePage.setAdd.
  destruct (String.eqb_spec (MonthlyPayment.floorId (snd doc)) fid) as [e|Hne].
  - rewrite e. destruct (existsb (String.eqb fid) set) eqn:Hin; simpl.
    + now rewrite Hin.
    + rewrite existsb_app. simpl. now rewrite String.eqb_refl, orb_true_r.
  - destruct (existsb (String.eqb (MonthlyPayment.floorId (snd doc))) set);
      simpl; [reflexivity|].
    rewrite existsb_app. simpl.
    destruct (String.eqb_spec fid (MonthlyPayment.floorId (snd doc)));
      [congruence|].
    now rewrite !orb_false_r.
Qed.
End PaidFacts.

Section PaidTheorems.

Lemma marked_events (F : DocId -> list (DocId * bool)) eid
    (openEvents : list AdminDashboard.MaintenanceEvent) : forall acc,
  getDoc eid
    (fold_left
       (fun eventStatus event =>
          AdminDashboard.objSet (AdminDashboard.id event)
            (F (AdminDashboard.id event)) eventStatus)
       openEvents acc)
  = if existsb (fun event => (AdminDashboard.id event =? eid)%string) openEvents
    then Some (F eid) else getDoc eid acc.
Proof.
  induction openEvents as [|e l IH]; intro acc; simpl; [reflexivity|].
  rewrite IH, getDoc_objSet.
  destruct (String.eqb_spec (AdminDashboard.id e) eid) as [->|]; simpl;
    [|reflexivity].
  now destruct (existsb _ l).
Qed.

Lemma key_has_document eid fid s first rest :
  paymentsOfKey eid fid s = first :: rest ->
  existsb (fun doc => (EventPayment.floorId (snd doc) =? fid)%string)
    (queryWhere (fun p => (EventPayment.eventId p =? eid)%string)
       (eventPayments s)) = true.
Proof.
  unfold paymentsOfKey, queryWhere. intro Hkey.
  assert (Hin : In first
                  (filter (fun p => (EventPayment.eventId p =? eid)%string
                                    && (EventPayment.floorId p =? fid)%string)
                     (map snd (eventPayments s))))
    by (rewrite Hkey; now left).
  apply filter_In in Hin. destruct Hin as [Hin Hmatch].
  apply andb_prop in Hmatch. destruct Hmatch as [Hev Hfl].
  apply in_map_iff in Hin. destruct Hin as [doc [Hdoc Hin]].
  apply existsb_exists. exists doc. split.
  - apply filter_In. split; [exact Hin | now rewrite Hdoc].
  - now rewrite Hdoc.
Qed.
End PaidTheorems.

(** X25. A monthly payment below the monthly due is stored as not
    complete, and yet the floor is shown as paid for that month, on the
    home page and on the dashboard alike, when they query the month
    string the payment was stored under: both mark a floor as soon as a
    payment of the month exists, whatever its amount. *)
Theorem partial_monthly_payment_shown_as_paid
    (s : Store) (f : MonthlyPaymentModal.Form) (now : Timestamp)
    (newId : DocId) (amount : Z) (d : JsDate)
    (floors : Collection Floor) (st : AdminDashboard.State) :
  isEmpty (MonthlyPaymentModal.selectedFloor f) = false ->
  MonthlyPaymentModal.paymentAmount f = Number amount ->
  MonthlyPaymentModal.selectedDate f = Some d ->
  0 < amount < MonthlyPaymentModal.loadFloorsAndConfig s ->
  let s' := fst (MonthlyPaymentModal.submit f now newId s) in
  let fid := MonthlyPaymentModal.selectedFloor f in
  option_map MonthlyPayment.isComplete (getDoc newId (monthlyPayments s'))
  = Some false
  /\ (forall table line,
        HomePage.loadPaymentStatus (Some (monthStringOf d)) floors s' = Some table ->
        In line table -> HomePage.floorId line = fid ->
        HomePage.hasPaid line = true)
  /\ AdminDashboard.hasPaidMonthly
       (AdminDashboard.calculatePaymentStatus (monthStringOf d) st s') fid
     = true.
Proof.
  intros Hfloor Hamt Hdate Hrange. cbn zeta.
  rewrite (monthly_submit_accepted s f now newId amount d Hfloor Hamt Hdate)
    by lia.
  cbn zeta.
  match goal with
  | |- context [addDoc newId ?doc (monthlyPayments s)] => set (new := doc)
  end.
  assert (Hdocs : monthlyPayments
                    (fst (match balance s with
                          | Some b =>
                              with_balance
                                (Some {| totalBalance := totalBalance b + amount;
                                         lastUpdated := now |})
                                (with_monthlyPayments
                                   (addDoc newId new (monthlyPayments s)) s)
                          | None =>
                              with_monthlyPayments
                                (addDoc newId new (monthlyPayments s)) s
                          end, Done))
                  = addDoc newId new (monthlyPayments s))
    by (destruct (balance s); reflexivity).
  assert (Hmarked :
    existsb (fun doc => (MonthlyPayment.floorId (snd doc)
                         =? MonthlyPaymentModal.selectedFloor f)%string)
      (queryWhere (fun p => (MonthlyPayment.month p =? monthStringOf d)%string)
         (addDoc newId new (monthlyPayments s))) = true).
  { apply existsb_exists. exists (newId, new). split.
    - apply filter_In. split.
      + apply (getDoc_In _ _ _ _ (getDoc_addDoc _ newId new (monthlyPayments s))).
      + apply String.eqb_refl.
    - apply String.eqb_refl. }
  split; [|split].
  - rewrite Hdocs, getDoc_addDoc. cbn [option_map new MonthlyPayment.isComplete].
    f_equal. apply Z.leb_gt. lia.
  - intros table line Htable Hline Hfid.
    unfold HomePage.loadPaymentStatus in Htable. rewrite Hdocs in Htable.
    inversion Htable; subst table. clear Htable.
    apply in_map_iff in Hline. destruct Hline as [floor [Hline _]].
    subst line. cbn [HomePage.statusOf HomePage.floorId HomePage.hasPaid] in *.
    rewrite Hfid, setHas_fold, Hmarked. apply orb_true_r.
  - unfold AdminDashboard.hasPaidMonthly, AdminDashboard.calculatePaymentStatus.
    cbn [AdminDashboard.monthly_]. rewrite Hdocs.
    now rewrite (marked_floors _ MonthlyPayment.floorId), Hmarked.
Qed.

Lemma partial_monthly_payment_shown_as_paid_witness :
  option_map MonthlyPayment.isComplete
    (getDoc "m1" (monthlyPayments oneMonthlyPayment)) = Some false
  /\ AdminDashboard.hasPaidMonthly
       (AdminDashboard.calculatePaymentStatus "2025-01" AdminDashboard.initial
          oneMonthlyPayment) "f1" = true.
Proof.
  assert (Hrange : 0 < 200 < MonthlyPaymentModal.loadFloorsAndConfig building)
    by (split; reflexivity).
  destruct (partial_monthly_payment_shown_as_paid building (monthlyForm 200) 1
              "m1" 200 january (floors building)
              AdminDashboard.initial eq_refl eq_refl eq_refl Hrange)
    as [Hstored [_ Hdash]].
  split; [exact Hstored | exact Hdash].
Defined.

(** X26. For a floor whose payments towards an open event have not
    settled its share, the dashboard and the events page disagree: the
    dashboard marks the floor as paid for the event as soon as a payment
    document of the floor exists, the events page not before the last
    document is complete. *)
Theorem unsettled_floor_paid_on_dashboard_only
    (s : Store) (st : AdminDashboard.State) (monthString : string)
    (e : AdminDashboard.MaintenanceEvent) (fid : DocId) (fl : Floor)
    (first : EventPayment.t) (rest : list EventPayment.t) :
  In e (AdminDashboard.maintenanceEvents st) ->
  status (AdminDashboard.data e) = open ->
  paymentsOfKey (AdminDashboard.id e) fid s = first :: rest ->
  EventPayment.isComplete (last rest first) = false ->
  AdminDashboard.hasPaidEvent
    (AdminDashboard.calculatePaymentStatus monthString st s)
    (AdminDashboard.id e) fid = true
  /\ EventsPage.hasPaid (statusLine (AdminDashboard.id e) s (fid, fl)) = false.
Proof.
  intros Hin Hopen Hkey Hlast. split.
  - unfold AdminDashboard.hasPaidEvent, AdminDashboard.calculatePaymentStatus.
    cbn [AdminDashboard.events_].
    rewrite (marked_events
               (fun eid =>
                  fold_left
                    (fun floors doc =>
                       AdminDashboard.objSet (EventPayment.floorId (snd doc))
                         true floors)
                    (queryWhere (fun p => (EventPayment.eventId p =? eid)%string)
                       (eventPayments s)) [])).
    assert (Hlisted :
      existsb (fun event => (AdminDashboard.id event =? AdminDashboard.id e)%string)
        (filter (fun event => match status (AdminDashboard.data event) with
                              | open => true
                              | closed => false
                              end)
           (AdminDashboard.maintenanceEvents st)) = true).
    { apply existsb_exists. exists e. split; [|apply String.eqb_refl].
      apply filter_In. split; [exact Hin | now rewrite Hopen]. }
    rewrite Hlisted.
    now rewrite (marked_floors _ EventPayment.floorId),
      (key_has_document _ _ _ _ _ Hkey).
  - unfold statusLine. cbn [fst]. rewrite Hkey, lastOf_cons.
    cbn [option_map EventsPage.statusOf EventsPage.hasPaid
         EventsPage.infoOf EventsPage.isComplete].
    exact Hlast.
Qed.

Lemma unsettled_floor_paid_on_dashboard_only_witness :
  AdminDashboard.hasPaidEvent
    (AdminDashboard.calculatePaymentStatus "2025-01"
       (AdminDashboard.onSnapshot AdminDashboard.eventsListener
          threeEventPayments AdminDashboard.initial)
       threeEventPayments)
    "e1" "f1" = true
  /\ EventsPage.hasPaid
       (statusLine "e1" threeEventPayments ("f1", {| floorNumber := 0 |}))
     = false.
Proof.
  assert (Hkey : exists d1 d2 d3,
            paymentsOfKey "e1" "f1" threeEventPayments = [d1; d2; d3]
            /\ EventPayment.isComplete d3 = false)
    by (vm_compute; eauto 10).
  destruct Hkey as [d1 [d2 [d3 [Hkey Hlast]]]].
  exact (unsettled_floor_paid_on_dashboard_only threeEventPayments
           (AdminDashboard.onSnapshot AdminDashboard.eventsListener
              threeEventPayments AdminDashboard.initial)
           "2025-01"
           {| AdminDashboard.id := "e1"; AdminDashboard.data := roof;
              AdminDashboard.collectedAmount := None |}
           "f1" {| floorNumber := 0 |} d1 [d2; d3]
           (or_introl eq_refl) eq_refl Hkey Hlast).
Defined.

(** ** An event edit that changes nothing *)

Section UntouchedEventEdit.

Lemma trimEnd_idem (t : Text) : trimEnd (trimEnd t) = trimEnd t.
Proof.
  induction t as [|c t IH]; [reflexivity|]. cbn [trimEnd].
  destruct (trimEnd t) as [|d r] eqn:Hr.
  - destruct (isSpace c) eqn:Hc; [reflexivity|]. cbn [trimEnd]. now rewrite Hc.
  - change (trimEnd (c :: d :: r))
      with (match trimEnd (d :: r) with
            | [] => if isSpace c then [] else [c]
            | a :: u => c :: a :: u
            end).
    now rewrite IH.
Qed.

Lemma trimStart_head (t : Text) :
  match trimStart t with
  | [] => True
  | c :: _ => isSpace c = false
  end.
Proof.
  induction t as [|c t IH]; [exact I|]. cbn [trimStart].
  destruct (isSpace c) eqn:Hc; [exact IH | exact Hc].
Qed.

Lemma trimStart_trimEnd (t : Text) :
  match t with
  | [] => True
  | c :: _ => isSpace c = false
  end ->
  trimStart (trimEnd t) = trimEnd t.
Proof.
  destruct t as [|c t]; [reflexivity|]. intro Hc. cbn [trimEnd].
  destruct (trimEnd t); rewrite ?Hc; cbn [trimStart]; now rewrite Hc.
Qed.

(** [s.trim().trim() === s.trim()] *)
Lemma trim_idem (t : Text) : trim (trim t) = trim t.
Proof.
  unfold trim. rewrite (trimStart_trimEnd _ (trimStart_head t)).
  apply trimEnd_idem.
Qed.

Lemma In_addDoc_fresh (A : Type) k (d v : A) (c : Collection A) :
  ~ In k (ids c) -> In (k, v) (addDoc k d c) -> v = d.
Proof.
  intros Hfresh Hin.
  apply (Permutation_in _ (addDoc_perm _ k d c Hfresh)) in Hin.
  destruct Hin as [Heq | Hin]; [congruence|].
  exfalso. apply Hfresh. unfold ids. apply in_map_iff. now exists (k, v).
Qed.
End UntouchedEventEdit.

(** X27. An event created by the modal under a fresh id, then opened in
    the events manager and saved as the form stands, is left as it is,
    and so is the whole store, as long as there is a floor: name and
    description were stored trimmed, the cost is read back as typed, and
    the cost per floor is computed again from the same floors and the
    same number, whatever its size.  (With no floor the creation stores a
    cost per floor of 0 and the edit an infinite one.) *)
Theorem untouched_event_edit_changes_nothing
    (s : Store) (f : NewMaintenanceModal.Form) (newId : DocId) (e : Event) :
  NewMaintenanceModal.handleDetailsSubmit f = None ->
  ~ In newId (ids (events s)) ->
  floors s <> [] ->
  let s1 := fst (NewMaintenanceModal.submit f newId s) in
  getDoc newId (events s1) = Some e ->
  ManageMaintenanceModal.saveEvent (Some newId)
    (ManageMaintenanceModal.startEditing e) s1
  = (s1, Done).
Proof.
  intros Hvalid Hfresh Hfloors. cbn zeta.
  destruct (create_event_effect s f newId Hvalid)
    as [cost [picked [Hcost [Hpos Hsubmit]]]].
  rewrite Hsubmit. cbn [fst]. store_simpl. rewrite getDoc_addDoc.
  intro He. inversion He; subst e. clear He.
  assert (Hname : isEmptyText (trim (NewMaintenanceModal.eventName f)) = false
                  /\ isEmptyText (trim (NewMaintenanceModal.description_ f)) = false).
  { unfold NewMaintenanceModal.handleDetailsSubmit in Hvalid.
    destruct (isEmptyText (trim (NewMaintenanceModal.eventName f)));
      [discriminate Hvalid|].
    destruct (isEmptyText (trim (NewMaintenanceModal.description_ f)));
      [discriminate Hvalid | auto]. }
  destruct Hname as [Hname Hdesc].
  match goal with
  | |- ManageMaintenanceModal.saveEvent _ (ManageMaintenanceModal.startEditing ?ev) ?st = _ =>
      rewrite (saveEvent_done st newId ev
                 (ManageMaintenanceModal.startEditing ev) cost)
  end.
  - f_equal. store_simpl.
    rewrite patchDoc_same; [reflexivity|].
    intros v Hv. apply In_addDoc_fresh in Hv; [|exact Hfresh]. subst v.
    cbn [ManageMaintenanceModal.startEditing
         ManageMaintenanceModal.eventName_ar_
         ManageMaintenanceModal.description_
         ManageMaintenanceModal.status_
         eventName_ar description status date totalCost costPerFloor].
    rewrite !trim_idem. f_equal.
    unfold NewMaintenanceModal.calculateCostPerFloor.
    destruct (floors s); [contradiction | reflexivity].
  - store_simpl. apply getDoc_addDoc.
  - reflexivity.
  - exact Hpos.
  - cbn [ManageMaintenanceModal.startEditing
         ManageMaintenanceModal.eventName_ar_ eventName_ar].
    now rewrite trim_idem.
  - cbn [ManageMaintenanceModal.startEditing
         ManageMaintenanceModal.description_ description].
    now rewrite trim_idem.
Qed.

Lemma untouched_event_edit_changes_nothing_witness :
  ManageMaintenanceModal.saveEvent (Some "e2")
    (ManageMaintenanceModal.startEditing
       {| eventName_ar := ofString "lift"; description := ofString "lift repair";
          totalCost := 900; costPerFloor := Fin 450; date := 5;
          status := open |})
    (fst (NewMaintenanceModal.submit (newEventForm 900) "e2" building))
  = (fst (NewMaintenanceModal.submit (newEventForm 900) "e2" building), Done).
Proof.
  assert (Hfresh : ~ In "e2" (ids (events building))).
  { simpl. intros [E | []]. discriminate E. }
  assert (Hfloors : floors building <> []) by discriminate.
  exact (untouched_event_edit_changes_nothing building (newEventForm 900) "e2"
           _ eq_refl Hfresh Hfloors eq_refl).
Defined.
